(** * Learnfinity: spaced-repetition engines and study-plan generator

    A shallow embedding of

      - [app/services/spaced_repetition.py]            (SpacedRepetitionEngine)
      - [app/services/intelligent_spaced_repetition.py] (IntelligentSpacedRepetition)
      - [app/services/study_plan_generator.py]          (StudyPlanGenerator)

    Conventions of the embedding.

      - Python [int] is [Z]; a Python [float] is an exact rational [Q]
        (every arithmetic step is taken without rounding); the one
        transcendental function of the code, [np.exp], is the real
        exponential, so the forgetting curve lives in [R].
      - A [datetime] is a count of microseconds on the local clock,
        counted from a midnight; an ISO-8601 string is identified with the
        instant it denotes, and all the [datetime.now()] calls of one
        request read the same instant [now].
      - What a function reads from the store (the Supabase tables, the
        [db_service] lookups) is an argument of its model; what it writes
        is part of its result.
      - [spaced_repetition.py] reads the global [db_service] without
        binding it (and does not await its coroutines).
        [calculate_next_review] is the function as the module has it,
        which raises NameError at its first statement;
        [calculate_next_review_body] and [generate_study_recommendations]
        are the function bodies after these look-ups, given the row and
        the profile that the look-ups are meant to deliver, and every
        statement about them is a statement about the body only.
      - [generate_data.py] is the simulation that writes the training
        data; its random draws are arguments of the model.
      - A raised exception is [None]. *)

From Stdlib Require Import ZArith QArith Qround Qabs Qminmax Qreals Reals Lra Lia.
From Stdlib Require Import List String Ascii Bool Permutation Sorted.
From Stdlib Require Lqa.
Import ListNotations.

(* ================================================================== *)
(** * Python primitives *)
(* ================================================================== *)

Module Py.

(** [d.get(k, default)] on a key that may be absent. *)
Definition get {A : Type} (o : option A) (default : A) : A :=
  match o with Some x => x | None => default end.

(** [int(x)] of a float: truncation toward zero. *)
Definition int (x : Q) : Z := Z.quot (Qnum x) (Zpos (Qden x)).

(** [a >= b], [a > b], [a < b] on floats. *)
Definition geb (a b : Q) : bool := Qle_bool b a.
Definition gtb (a b : Q) : bool := negb (Qle_bool a b).
Definition ltb (a b : Q) : bool := negb (Qle_bool b a).

(** [l[i]]: negative indices count from the end; outside
    [-len(l) .. len(l)-1] Python raises IndexError. *)
Definition index {A : Type} (l : list A) (i : Z) : option A :=
  let n := Z.of_nat (List.length l) in
  if ((0 <=? i) && (i <? n))%Z then nth_error l (Z.to_nat i)
  else if ((- n <=? i) && (i <? 0))%Z then nth_error l (Z.to_nat (n + i))
  else None.

(** [l[-k:]]: the last [k] elements (all of them when there are fewer). *)
Definition last_n {A : Type} (k : nat) (l : list A) : list A :=
  skipn (List.length l - k) l.

Definition sum (l : list Q) : Q := fold_right Qplus 0%Q l.

(** [np.mean(l)]; only ever applied to a non-empty list. *)
Definition mean (l : list Q) : Q := (sum l / inject_Z (Z.of_nat (List.length l)))%Q.

(** [sorted(l, key=...)] and [l.sort(key=...)] are stable: an insertion
    sort that puts an element in front of the first one it does not
    exceed.  [le x y] is the comparison of the keys of [x] and [y]. *)
Section Sort.
Context {A : Type} (le : A -> A -> bool).

Fixpoint insert (x : A) (l : list A) : list A :=
  match l with
  | [] => [x]
  | y :: l' => if le x y then x :: l else y :: insert x l'
  end.

Definition sort (l : list A) : list A := fold_right insert [] l.
End Sort.

(** [str.upper()] and [str.lower()] on ASCII text. *)
Definition upper_ascii (c : ascii) : ascii :=
  let n := nat_of_ascii c in
  if ((97 <=? n) && (n <=? 122))%nat then ascii_of_nat (n - 32) else c.

Definition lower_ascii (c : ascii) : ascii :=
  let n := nat_of_ascii c in
  if ((65 <=? n) && (n <=? 90))%nat then ascii_of_nat (n + 32) else c.

Fixpoint map_string (f : ascii -> ascii) (s : string) : string :=
  match s with
  | EmptyString => EmptyString
  | String c s' => String (f c) (map_string f s')
  end.

Definition upper : string -> string := map_string upper_ascii.
Definition lower : string -> string := map_string lower_ascii.

(** [sub in s] on strings. *)
Fixpoint contains (sub s : string) : bool :=
  prefix sub s ||
  match s with
  | EmptyString => false
  | String _ s' => contains sub s'
  end.

(** Clock arithmetic: [timedelta(days=d)] and [timedelta.days], the
    latter being the floor of the difference in whole days. *)
Definition us_per_minute : Z := 60000000.
Definition us_per_hour : Z := 3600000000.
Definition us_per_day : Z := 86400000000.

Definition timedelta_days (d : Z) : Z := (d * us_per_day)%Z.
Definition days (delta : Z) : Z := (delta / us_per_day)%Z.

End Py.

(* ================================================================== *)
(** * NumPy primitives *)
(* ================================================================== *)

Module Np.

(** The result of a [np.float64] division: dividing by zero does not
    raise, it yields an infinity or NaN. *)
Inductive Float : Type := Finite (x : Q) | PosInf | NegInf | NaN.

Definition div (a b : Q) : Float :=
  if Qeq_bool b 0 then
    if Py.gtb a 0 then PosInf else if Py.ltb a 0 then NegInf else NaN
  else Finite (a / b).

(** [x > c] for a float [x] and a finite [c]. *)
Definition gtb (x : Float) (c : Q) : bool :=
  match x with
  | Finite q => Py.gtb q c
  | PosInf => true
  | NegInf | NaN => false
  end.

(** [np.var] and [np.std] (population variance, as NumPy's default). *)
Definition var (l : list Q) : Q :=
  Py.mean (map (fun x => (x - Py.mean l) * (x - Py.mean l))%Q l).

Definition std (l : list Q) : R := sqrt (Q2R (var l)).

End Np.

(* ================================================================== *)
(** * SpacedRepetitionEngine  (spaced_repetition.py) *)
(* ================================================================== *)

Module SpacedRepetitionEngine.

(** The parameters set in [__init__]. *)
Definition min_ease_factor : Q := 1.3.
Definition max_ease_factor : Q := 2.5.
Definition initial_ease_factor : Q := 2.5.
Definition min_interval : Z := 1.
Definition max_interval : Z := 365.

Definition INTERVALS_DEFAULT : list Z := [1; 3; 7; 14; 30; 60; 120]%Z.

(** [self.INTERVALS.get(key, self.INTERVALS['DEFAULT'])]. *)
Definition INTERVALS (key : string) : list Z :=
  if (key =? "EASY")%string then [1; 6; 15; 30; 90; 180; 365]%Z
  else if (key =? "MEDIUM")%string then [1; 3; 7; 14; 30; 60; 120]%Z
  else if (key =? "HARD")%string then [1; 2; 4; 8; 16; 32; 64]%Z
  else INTERVALS_DEFAULT.

(** [self.PERFORMANCE_THRESHOLDS]. *)
Definition EXCELLENT : Q := 0.9.
Definition GOOD : Q := 0.8.
Definition FAIR : Q := 0.6.
Definition POOR : Q := 0.4.

(** The [sr_data] dictionary: a row of [spaced_repetition_data].  A key
    that the code reads with [.get] may be absent. *)
Record SRData : Type := mkSRData {
  interval_days : option Z;
  repetitions : option Z;
  ease_factor : option Q;
  last_review : option Z;
  next_review : option Z;
  performance_history : option (list Q);
  forgetting_probability : option R
}.

(** What [calculate_next_review_body] returns. *)
Record ReviewResult : Type := mkReviewResult {
  res_next_review : Z;
  res_interval_days : Z;
  res_repetitions : Z;
  res_ease_factor : Q;
  res_forgetting_probability : R
}.

Definition _calculate_interval_adjustment (current_score avg_score : Q) : Q :=
  if Py.geb current_score EXCELLENT then 1.5
  else if Py.geb current_score GOOD then 1.2
  else if Py.geb current_score FAIR then 1.0
  else if Py.geb current_score POOR then 0.7
  else 0.5.

Definition _update_ease_factor (current_ease performance : Q) : Q :=
  if Py.geb performance 0.9 then (current_ease + 0.1)%Q
  else if Py.geb performance 0.8 then current_ease
  else if Py.geb performance 0.6 then (current_ease - 0.1)%Q
  else Qmax 1.3 (current_ease - 0.2).

(** The forgetting curve.  [days_since_review] is
    [(datetime.now() - last_review).days]; [retention] is the local
    variable of that name.  [_calculate_forgetting_probability] and the
    public [calculate_forgetting_probability] have the same body. *)
Definition time_ratio (days_since_review interval_days : Z) : R :=
  if (0 <? interval_days)%Z
  then (IZR days_since_review / IZR interval_days)%R
  else 1%R.

Definition strength (interval_days : Z) : R := (IZR interval_days * 0.5)%R.

Definition retention (days_since_review interval_days : Z) : R :=
  if Rlt_dec 0 (strength interval_days)
  then exp (- time_ratio days_since_review interval_days / strength interval_days)
  else 0%R.

Definition forgetting_of_days (days_since_review interval_days : Z) : R :=
  Rmax 0 (1 - retention days_since_review interval_days).

Definition _calculate_forgetting_probability
    (now last_review : Z) (interval_days : Z) : R :=
  forgetting_of_days (Py.days (now - last_review)) interval_days.

Definition calculate_forgetting_probability
    (now last_review : Z) (interval_days : Z) : R :=
  forgetting_of_days (Py.days (now - last_review)) interval_days.

(** The dictionary built when the store has no row for the topic. *)
Definition new_sr_data (now : Z) : SRData :=
  {| interval_days := Some 1%Z;
     repetitions := Some 0%Z;
     ease_factor := Some 2.5%Q;
     last_review := Some now;
     next_review := Some (now + Py.timedelta_days 1)%Z;
     performance_history := Some [];
     forgetting_probability := Some 1%R |}.

(** [calculate_next_review_body] is [calculate_next_review] from its third
    statement on (the lines after the two [db_service] look-ups):
    [stored] is the row found for (user, topic), if any.  The result
    pairs the returned dictionary with the row that is upserted. *)
Definition calculate_next_review_body
    (now : Z) (stored : option SRData)
    (performance_score : Q) (difficulty : string)
    : option (ReviewResult * SRData) :=
  let normalized_score := (performance_score / 100)%Q in
  let sr_data := match stored with None => new_sr_data now | Some d => d end in
  let repetitions' := (Py.get (repetitions sr_data) 0 + 1)%Z in
  let last_review' := now in
  let history :=
    match performance_history sr_data with
    | None | Some [] => []
    | Some h => h
    end ++ [performance_score] in
  let avg_performance := Py.mean history in
  let interval_adjustment :=
    _calculate_interval_adjustment normalized_score avg_performance in
  let intervals := INTERVALS (Py.upper difficulty) in
  let level := Py.get (interval_days sr_data) 1%Z in
  match Py.index intervals (Z.min level (Z.of_nat (List.length intervals) - 1)) with
  | None => None
  | Some current_interval =>
    let adjusted_interval :=
      Z.max 1 (Py.int (inject_Z current_interval * interval_adjustment)) in
    let interval_days' :=
      if Py.geb normalized_score GOOD
         && (level <? Z.of_nat (List.length intervals) - 1)%Z
      then Some (level + 1)%Z
      else interval_days sr_data in
    let next_review' := (now + Py.timedelta_days adjusted_interval)%Z in
    let forgetting' :=
      _calculate_forgetting_probability now last_review' adjusted_interval in
    let ease' :=
      _update_ease_factor (Py.get (ease_factor sr_data) 2.5%Q) normalized_score in
    Some ({| res_next_review := next_review';
             res_interval_days := adjusted_interval;
             res_repetitions := repetitions';
             res_ease_factor := ease';
             res_forgetting_probability := forgetting' |},
          {| interval_days := interval_days';
             repetitions := Some repetitions';
             ease_factor := Some ease';
             last_review := Some last_review';
             next_review := Some next_review';
             performance_history := Some history;
             forgetting_probability := Some forgetting' |})
  end.

(** The names that [spaced_repetition.py] binds at module level: its
    imports and its two classes.  No builtin is called [db_service]. *)
Definition module_globals : list string :=
  ["np"; "datetime"; "timedelta"; "Dict"; "List"; "Any"; "Tuple";
   "supabase_client"; "QuizResult"; "SpacedRepetitionEngine"]%string.

(** Reading a global name that the module does not bind raises
    NameError. *)
Definition is_bound (name : string) : bool :=
  existsb (String.eqb name) module_globals.

(** [calculate_next_review] as the module has it: its first statement
    reads the global [db_service]. *)
Definition calculate_next_review
    (now : Z) (stored : option SRData)
    (performance_score : Q) (difficulty : string)
    : option (ReviewResult * SRData) :=
  if is_bound "db_service"
  then calculate_next_review_body now stored performance_score difficulty
  else None.

(** ** Topics due for review *)

(** A row of [spaced_repetition_data] as [select('*')] returns it:
    decoded JSON, so its numbers are rationals. *)
Record Row : Type := mkRow {
  row_topic_name : string;
  row_next_review : option Z;
  row_last_review : option Z;
  row_forgetting_probability : option Q;
  row_repetitions : option Z;
  row_ease_factor : option Q;
  row_difficulty : option string;
  row_performance_history : option (list Q)
}.

Inductive Urgency : Type := critical | high | medium | low.

(** An entry of the returned list. *)
Record Topic : Type := mkTopic {
  topic_name : string;
  retention_probability : Q;
  streak : Z;
  topic_last_review : option Z;
  topic_next_review : option Z;
  urgency : Urgency;
  time_overdue_days : Z;
  topic_ease_factor : Q;
  topic_difficulty : string;
  last_performance : Q
}.

(** [data.get('next_review') and fromisoformat(data['next_review']) <= now] *)
Definition is_due (now : Z) (data : Row) : bool :=
  match row_next_review data with
  | Some next => (next <=? now)%Z
  | None => false
  end.

Definition time_overdue (now : Z) (data : Row) : Z :=
  Py.days (now - Py.get (row_next_review data) now).

Definition urgency_score (now : Z) (data : Row) : Q :=
  (Py.get (row_forgetting_probability data) 0
   + inject_Z (time_overdue now data) * 0.1)%Q.

Definition urgency_of_score (urgency_score : Q) : Urgency :=
  if Py.gtb urgency_score 0.8 then critical
  else if Py.gtb urgency_score 0.6 then high
  else if Py.gtb urgency_score 0.4 then medium
  else low.

Definition due_topic (now : Z) (data : Row) : Topic :=
  {| topic_name := row_topic_name data;
     retention_probability := (1 - Py.get (row_forgetting_probability data) 0)%Q;
     streak := Py.get (row_repetitions data) 0%Z;
     topic_last_review := row_last_review data;
     topic_next_review := row_next_review data;
     urgency := urgency_of_score (urgency_score now data);
     time_overdue_days := Z.max 0 (time_overdue now data);
     topic_ease_factor := Py.get (row_ease_factor data) 2.5%Q;
     topic_difficulty := Py.get (row_difficulty data) "medium"%string;
     last_performance :=
       match row_performance_history data with
       | Some (x :: h) => last h x
       | _ => 0.7%Q
       end |}.

(** The sort key [(rank[x['urgency']], -x['retention_probability'])] and
    the order of Python tuples on it. *)
Definition urgency_rank (u : Urgency) : Z :=
  match u with critical => 0 | high => 1 | medium => 2 | low => 3 end%Z.

Definition sort_key (x : Topic) : Z * Q :=
  (urgency_rank (urgency x), (- retention_probability x)%Q).

Definition key_lt (a b : Z * Q) : bool :=
  if (fst a =? fst b)%Z then Py.ltb (snd a) (snd b) else (fst a <? fst b)%Z.

Definition topic_le (x y : Topic) : bool :=
  negb (key_lt (sort_key y) (sort_key x)).

(** ** Sample data when the user has no rows *)

Definition default_sample_topics : list string :=
  ["Mathematics"; "Physics"; "Chemistry"; "Biology"; "History"]%string.

Definition sample_topic (now : Z) (i : Z) (topic : string) : Topic :=
  let days_overdue := (i - 2)%Z in
  let next_review := (now + Py.timedelta_days days_overdue)%Z in
  let retention_prob := (0.9 - inject_Z i * 0.15)%Q in
  {| topic_name := topic;
     retention_probability := Qmax 0.3 retention_prob;
     streak := Z.max 1 (5 - i);
     topic_last_review :=
       Some (now - Py.timedelta_days (Z.abs days_overdue + 1))%Z;
     topic_next_review := Some next_review;
     urgency :=
       if (1 <? days_overdue)%Z then critical
       else if (0 <? days_overdue)%Z then high
       else medium;
     time_overdue_days := Z.max 0 (- days_overdue);
     topic_ease_factor := 2.5;
     topic_difficulty :=
       Py.get (Py.index ["easy"; "medium"; "hard"]%string (i mod 3)%Z)
              "easy"%string;
     last_performance := Qmax 0.4 (0.9 - inject_Z i * 0.1) |}.

(** [for i, topic in enumerate(sample_topics)] *)
Fixpoint sample_from (now : Z) (i : Z) (sample_topics : list string) : list Topic :=
  match sample_topics with
  | [] => []
  | topic :: rest => sample_topic now i topic :: sample_from now (i + 1) rest
  end.

(** [user_topics] is what the [user_topics] table holds for the user
    (empty when the query fails). *)
Definition _create_sample_review_data (now : Z) (user_topics : list string)
    : list Topic :=
  let sample_topics :=
    match user_topics with [] => default_sample_topics | _ => user_topics end in
  firstn 3 (sample_from now 0 sample_topics).

(** [all_sr_data] is the user's rows (empty when the query fails). *)
Definition get_topics_due_for_review
    (now : Z) (all_sr_data : list Row) (user_topics : list string)
    : list Topic :=
  match all_sr_data with
  | [] => _create_sample_review_data now user_topics
  | _ =>
    let sr_data := filter (is_due now) all_sr_data in
    let topics := map (due_topic now) sr_data in
    Py.sort topic_le topics
  end.

(** ** Study recommendations *)

(** The value stored under ['urgency'] is a lower-case string. *)
Definition urgency_str (u : Urgency) : string :=
  match u with
  | critical => "critical"
  | high => "high"
  | medium => "medium"
  | low => "low"
  end.

(** The learning profile that [db_service.get_learning_profile] returns. *)
Record LearningProfile : Type := mkLearningProfile {
  attention_span : option Q
}.

Record PerformanceAnalysis : Type := mkPerformanceAnalysis {
  average_score : Q;
  improvement_trend : Np.Float;
  consistency : R;
  total_quizzes : Z
}.

(** [recent_quizzes] is given by the scores of the quizzes. *)
Definition _analyze_performance_patterns (recent_quizzes : list Q)
    : PerformanceAnalysis :=
  match recent_quizzes with
  | [] =>
    {| average_score := 0;
       improvement_trend := Np.Finite 0;
       consistency := 0%R;
       total_quizzes := 0 |}
  | _ =>
    let scores := recent_quizzes in
    let average_score := Py.mean scores in
    let improvement_trend :=
      if (4 <=? List.length scores)%nat then
        let mid := (List.length scores / 2)%nat in
        let first_half := firstn mid scores in
        let second_half := skipn mid scores in
        Np.div (Py.mean second_half - Py.mean first_half) (Py.mean first_half)
      else Np.Finite 0 in
    let consistency :=
      if (1 <? List.length scores)%nat
      then (1 - Np.std scores / 100)%R
      else 1%R in
    {| average_score := average_score;
       improvement_trend := improvement_trend;
       consistency := consistency;
       total_quizzes := Z.of_nat (List.length scores) |}
  end.

Record SessionPlan : Type := mkSessionPlan {
  duration : Z;
  topic_count : Z;
  topics : list Topic;
  breaks : Z;
  estimated_time : Z
}.

Definition is_high_priority (t : Topic) : bool :=
  ((urgency_str (urgency t) =? "CRITICAL") || (urgency_str (urgency t) =? "HIGH"))%string.

Definition is_medium_priority (t : Topic) : bool :=
  (urgency_str (urgency t) =? "MEDIUM")%string.

Definition _calculate_optimal_session
    (urgent_topics : list Topic) (profile : option LearningProfile) : SessionPlan :=
  let base_duration :=
    match profile with
    | Some p => Py.get (attention_span p) 60%Q
    | None => 60%Q
    end in
  let duration :=
    if (5 <? List.length urgent_topics)%nat then Qmin (base_duration * 1.5) 120
    else if (2 <? List.length urgent_topics)%nat then base_duration
    else Qmax (base_duration * 0.7) 20 in
  let breaks := Z.max 1 (Py.int (duration / 45)) in
  let high_priority := filter is_high_priority urgent_topics in
  let medium_priority := filter is_medium_priority urgent_topics in
  let selected_topics := firstn 3 high_priority ++ firstn 2 medium_priority in
  {| duration := Py.int duration;
     topic_count := Z.of_nat (List.length selected_topics);
     topics := selected_topics;
     breaks := breaks;
     estimated_time := Py.int (duration + inject_Z (breaks * 5)) |}.

(** A recommendation; the constructor fixes the title, the description
    and the priority ('HIGH', 'HIGH', 'LOW'), [URGENT_REVIEW] carries the
    number of high-priority topics and the names of the first three. *)
Inductive Recommendation : Type :=
| URGENT_REVIEW (count : Z) (topic_names : list string)
| FUNDAMENTALS
| IMPROVEMENT.

Record StudyRecommendations : Type := mkStudyRecommendations {
  urgent_topics : list Topic;
  total_due : Z;
  recommendations : list Recommendation;
  session_plan : SessionPlan;
  performance_analysis : PerformanceAnalysis
}.

(** [all_sr_data] and [user_topics] are what the store holds for the
    user, [profile] the user's learning profile; [recent_quizzes] is the
    empty list in the code. *)
Definition generate_study_recommendations
    (now : Z) (all_sr_data : list Row) (user_topics : list string)
    (profile : option LearningProfile) : StudyRecommendations :=
  let urgent_topics := get_topics_due_for_review now all_sr_data user_topics in
  let recent_quizzes := [] in
  let performance_analysis := _analyze_performance_patterns recent_quizzes in
  let high_priority_topics := filter is_high_priority urgent_topics in
  let recommendations :=
    match high_priority_topics with
    | [] => []
    | _ => [URGENT_REVIEW (Z.of_nat (List.length high_priority_topics))
                          (map topic_name (firstn 3 high_priority_topics))]
    end in
  let recommendations :=
    if Py.ltb (average_score performance_analysis) 60
    then recommendations ++ [FUNDAMENTALS] else recommendations in
  let recommendations :=
    if Np.gtb (improvement_trend performance_analysis) 0.1
    then recommendations ++ [IMPROVEMENT] else recommendations in
  let session_plan := _calculate_optimal_session urgent_topics profile in
  {| urgent_topics := firstn 5 urgent_topics;
     total_due := Z.of_nat (List.length urgent_topics);
     recommendations := recommendations;
     session_plan := session_plan;
     performance_analysis := performance_analysis |}.

End SpacedRepetitionEngine.

(* ================================================================== *)
(** * IntelligentSpacedRepetition  (intelligent_spaced_repetition.py) *)
(* ================================================================== *)

Module IntelligentSpacedRepetition.

(** An entry of a row's [performance_history] as this engine stores it.
    [apply_interval_constraints] also looks for the keys [interval_days]
    and [ease_factor] in it. *)
Record HistoryEntry : Type := mkHistoryEntry {
  score : Q;
  entry_difficulty : string;
  timestamp : Z;
  interval_used : option Z;
  entry_interval_days : option Z;
  entry_ease_factor : option Q
}.

(** The row of [spaced_repetition_data] for (user, topic). *)
Record SRRow : Type := mkSRRow {
  interval_days : option Z;
  repetitions : option Z;
  ease_factor : option Q;
  last_review : option Z;
  next_review : option Z;
  performance_history : option (list HistoryEntry)
}.

(** The outcome of a query on the store. *)
Inductive StoreRead (A : Type) : Type :=
| Found (data : A)
| Absent
| Unreachable.
Arguments Found {A} data.
Arguments Absent {A}.
Arguments Unreachable {A}.

(** [get_topic_history] *)
Definition get_topic_history (response : StoreRead SRRow) : list HistoryEntry :=
  match response with
  | Found data => Py.get (performance_history data) []
  | Absent | Unreachable => []
  end.

Definition apply_interval_constraints
    (predicted_interval : Q) (topic_history : list HistoryEntry)
    (performance_score : Q) : Z :=
  let min_interval := 1%Q in
  let max_interval := 365%Q in
  let predicted_interval :=
    if Py.geb performance_score 90 then (predicted_interval * 1.2)%Q
    else if Py.geb performance_score 80 then (predicted_interval * 1.1)%Q
    else if Py.geb performance_score 60 then predicted_interval
    else (predicted_interval * 0.8)%Q in
  let predicted_interval :=
    match topic_history with
    | [] => predicted_interval
    | _ =>
      let recent_scores := map score (Py.last_n 3 topic_history) in
      let avg_recent := Py.mean recent_scores in
      if Py.gtb avg_recent 85 then (predicted_interval * 1.1)%Q
      else if Py.ltb avg_recent 60 then (predicted_interval * 0.9)%Q
      else predicted_interval
    end in
  match topic_history with
  | [] => 1%Z
  | [_] => 6%Z
  | e :: rest =>
    if (List.length topic_history <? 5)%nat then
      let newest := last rest e in
      let last_interval := Py.get (entry_interval_days newest) 1%Z in
      let ease_factor := Py.get (entry_ease_factor newest) 2.5%Q in
      Z.max 1 (Py.int (inject_Z last_interval * ease_factor))
    else
      Py.int (Qmax min_interval (Qmin max_interval predicted_interval))
  end.

Definition calculate_ease_factor (performance_history : list HistoryEntry) : Q :=
  if (List.length performance_history <? 2)%nat then 2.5
  else
    let recent_scores := map score (Py.last_n 5 performance_history) in
    let avg_score := Py.mean recent_scores in
    if Py.geb avg_score 90 then 2.8
    else if Py.geb avg_score 80 then 2.6
    else if Py.geb avg_score 70 then 2.4
    else if Py.geb avg_score 60 then 2.2
    else 2.0.

(** [update_spaced_repetition_data]: the row written back, [None] when
    the store cannot be reached (the exception is swallowed). *)
Definition update_spaced_repetition_data
    (now : Z) (existing_response : StoreRead SRRow)
    (performance_score : Q) (difficulty : string)
    (interval_days' : Z) (next_review' : Z) : option SRRow :=
  let performance_entry :=
    {| score := performance_score;
       entry_difficulty := difficulty;
       timestamp := now;
       interval_used := Some interval_days';
       entry_interval_days := None;
       entry_ease_factor := None |} in
  match existing_response with
  | Found data =>
    let existing_history :=
      Py.get (performance_history data) [] ++ [performance_entry] in
    let new_ease_factor := calculate_ease_factor existing_history in
    Some {| interval_days := Some interval_days';
            repetitions := Some (Py.get (repetitions data) 0 + 1)%Z;
            ease_factor := Some new_ease_factor;
            last_review := Some now;
            next_review := Some next_review';
            performance_history := Some existing_history |}
  | Absent =>
    Some {| interval_days := Some interval_days';
            repetitions := Some 1%Z;
            ease_factor := Some 2.5%Q;
            last_review := Some now;
            next_review := Some next_review';
            performance_history := Some [performance_entry] |}
  | Unreachable => None
  end.

(** What the two interval computations return. *)
Record IntervalResult : Type := mkIntervalResult {
  res_interval_days : Z;
  res_next_review : Z;
  res_confidence : Q;
  res_ml_prediction : Q;
  res_fallback : bool
}.

(** The three locals [new_interval], [new_repetitions] and
    [new_ease_factor] of [fallback_supermemo2]. *)
Definition supermemo2
    (existing : option SRRow) (performance_score : Q) : Z * Z * Q :=
  match existing with
  | Some data =>
    let current_interval := Py.get (interval_days data) 1%Z in
    let current_repetitions := Py.get (repetitions data) 0%Z in
    let current_ease_factor := Py.get (ease_factor data) 2.5%Q in
    if Py.geb performance_score 60 then
      let new_interval :=
        if (current_repetitions =? 0)%Z then 1%Z
        else if (current_repetitions =? 1)%Z then 6%Z
        else Py.int (inject_Z current_interval * current_ease_factor) in
      let new_repetitions := (current_repetitions + 1)%Z in
      let new_ease_factor :=
        Qmax 1.3 (current_ease_factor +
                  (0.1 - (5 - performance_score / 20) *
                         (0.08 + (5 - performance_score / 20) * 0.02)))%Q in
      (new_interval, new_repetitions, new_ease_factor)
    else
      (1%Z, 0%Z, Qmax 1.3 (current_ease_factor - 0.2))
  | None => (1%Z, 1%Z, 2.5%Q)
  end.

Definition fallback_supermemo2
    (now : Z) (existing_response : StoreRead SRRow) (performance_score : Q)
    : IntervalResult :=
  match existing_response with
  | Unreachable =>
    {| res_interval_days := 7;
       res_next_review := (now + Py.timedelta_days 7)%Z;
       res_confidence := 0.5;
       res_ml_prediction := 7;
       res_fallback := true |}
  | _ =>
    let existing :=
      match existing_response with Found data => Some data | _ => None end in
    let '(new_interval, _, _) := supermemo2 existing performance_score in
    {| res_interval_days := new_interval;
       res_next_review := (now + Py.timedelta_days new_interval)%Z;
       res_confidence := 0.6;
       res_ml_prediction := inject_Z new_interval;
       res_fallback := true |}
  end.

(** [calculate_intelligent_interval] when nothing raises.
    [predicted_interval] is what [predict_interval] returns for the
    request's features and [confidence] what [calculate_confidence]
    returns; both come from the trained model.  The result pairs the
    returned dictionary with the row written back. *)
Definition calculate_intelligent_interval
    (now : Z) (response : StoreRead SRRow)
    (predicted_interval confidence : Q)
    (performance_score : Q) (difficulty : string)
    : IntervalResult * option SRRow :=
  let topic_history := get_topic_history response in
  let final_interval :=
    apply_interval_constraints predicted_interval topic_history performance_score in
  let next_review' := (now + Py.timedelta_days final_interval)%Z in
  ({| res_interval_days := final_interval;
      res_next_review := next_review';
      res_confidence := confidence;
      res_ml_prediction := predicted_interval;
      res_fallback := false |},
   update_spaced_repetition_data
     now response performance_score difficulty final_interval next_review').

(** ** Features, predictions and confidence *)

Definition get_difficulty_numeric (difficulty : string) : Q :=
  if (difficulty =? "easy")%string then 0.3
  else if (difficulty =? "medium")%string then 0.6
  else if (difficulty =? "hard")%string then 0.9
  else 0.6.

Definition get_learning_style_numeric (learning_style : string) : Q :=
  if (learning_style =? "visual")%string then 0.8
  else if (learning_style =? "auditory")%string then 0.6
  else if (learning_style =? "kinesthetic")%string then 0.4
  else if (learning_style =? "reading")%string then 0.9
  else 0.7.

(** A row of [learning_profiles]. *)
Record UserProfile : Type := mkUserProfile {
  attention_span : option Q;
  learning_style : option string;
  retention_rate : option Q;
  difficulty_preference : option string
}.

(** The entries of [analytics_data] that are read; each is absent when
    the key, or the dictionary that holds it, is. *)
Record RecentAnalytics : Type := mkRecentAnalytics {
  learning_velocity : option Q;
  forgetting_rate : option Q;
  attention_consistency : option Q;
  improvement_rate : option Q
}.

(** [prepare_features]: the one row of the feature array. *)
Definition prepare_features
    (now : Z) (user_profile : option UserProfile) (topic_history : list HistoryEntry)
    (recent_analytics : option RecentAnalytics)
    (performance_score : Q) (difficulty : string) : list R :=
  let features :=
    [Q2R (performance_score / 100);
     INR (List.length topic_history);
     Q2R (get_difficulty_numeric difficulty)] in
  let features :=
    features ++
    match user_profile with
    | Some profile =>
      [Q2R (Py.get (attention_span profile) 30 / 60);
       Q2R (get_learning_style_numeric
              (Py.get (learning_style profile) "reading"%string));
       Q2R (Py.get (retention_rate profile) 0.7);
       if (Py.get (difficulty_preference profile) "medium" =? difficulty)%string
       then 1%R else 0%R]
    | None => [0.5; 0.5; 0.7; 0.5]%R
    end in
  let features :=
    features ++
    match topic_history with
    | [] => [0.5; 0; 0; 0]%R
    | e :: rest =>
      let recent_scores := map score (Py.last_n 5 topic_history) in
      [Q2R (Py.mean recent_scores / 100);
       (Np.std recent_scores / 100)%R;
       INR (List.length recent_scores);
       IZR (Py.days (now - timestamp (last rest e)))]
    end in
  features ++
  match recent_analytics with
  | Some analytics =>
    [Q2R (Py.get (learning_velocity analytics) 0.5);
     Q2R (Py.get (forgetting_rate analytics) 0.1);
     Q2R (Py.get (attention_consistency analytics) 0.5);
     Q2R (Py.get (improvement_rate analytics) 0)]
  | None => [0.5; 0.1; 0.5; 0]%R
  end.

(** [predict_interval] and [predict_retention]: [prediction] is what the
    scaler and the model return for the features, [None] when either
    raises (as they do before any training). *)
Definition predict_interval (prediction : option Q) : Q :=
  match prediction with
  | Some predicted_interval => Qmax 1 (Qmin 365 predicted_interval)
  | None => 7.0
  end.

Definition predict_retention (prediction : option Q) : Q :=
  match prediction with
  | Some retention_prob => Qmax 0 (Qmin 1 retention_prob)
  | None => 0.5
  end.

(** [calculate_confidence]: [feature_importances] is the model's
    [feature_importances_] when it has that attribute. *)
Definition calculate_confidence
    (feature_importances : option (list Q)) (features : list R) : Q :=
  match feature_importances with
  | Some importance => Qmin 0.95 (0.5 + Py.mean importance * 2)
  | None => Qmin 0.95 (0.6 + inject_Z (Z.of_nat (List.length features)) * 0.02)
  end.

(** ** Topics due for review *)

Inductive UrgencyTier : Type := CRITICAL | HIGH | MEDIUM | LOW.

Definition tier_rank (u : UrgencyTier) : Z :=
  match u with CRITICAL => 0 | HIGH => 1 | MEDIUM => 2 | LOW => 3 end%Z.

(** A row as [select('*')] returns it: the columns of [SRRow] and the
    topic's name and difficulty. *)
Record TopicData : Type := mkTopicData {
  topic_name : string;
  topic_difficulty : option string;
  topic_row : SRRow
}.

Record DueCheck : Type := mkDueCheck {
  should_review : bool;
  urgency : UrgencyTier;
  confidence : Q;
  predicted_retention : Q;
  ml_insights : list string
}.

Definition generate_ml_insights
    (topic_data : TopicData) (retention_prob : Q) (days_since : Z) : list string :=
  let insights := [] in
  let insights :=
    if Py.ltb retention_prob 0.3
    then insights ++ ["High risk of forgetting - immediate review needed"%string]
    else if Py.ltb retention_prob 0.5
    then insights ++ ["Memory is fading - review soon"%string]
    else insights in
  let insights :=
    if Py.gtb (inject_Z days_since)
              (inject_Z (Py.get (interval_days (topic_row topic_data)) 7%Z) * 1.5)
    then insights ++ ["Overdue for review based on your learning pattern"%string]
    else insights in
  let insights :=
    if (Py.get (repetitions (topic_row topic_data)) 0 <? 3)%Z
    then insights ++ ["Early learning stage - frequent reviews recommended"%string]
    else insights in
  if Py.gtb retention_prob 0.8
  then insights ++ ["Strong retention - can extend review interval"%string]
  else insights.

(** [is_topic_due_for_review] on a well-formed row.  [retention_model]
    is the retention predictor applied to a feature row ([None] when it
    raises). *)
Definition is_topic_due_for_review
    (now : Z) (retention_model : list R -> option Q)
    (feature_importances : option (list Q))
    (topic_data : TopicData) (user_profile : option UserProfile)
    (recent_analytics : option RecentAnalytics) : DueCheck :=
  let topic_history := Py.get (performance_history (topic_row topic_data)) [] in
  match topic_history with
  | [] =>
    {| should_review := true;
       urgency := HIGH;
       confidence := 0.8;
       predicted_retention := 0.5;
       ml_insights := ["First review needed"%string] |}
  | e :: rest =>
    let features :=
      prepare_features now user_profile topic_history recent_analytics
                       (score (last rest e))
                       (Py.get (topic_difficulty topic_data) "medium"%string) in
    let retention_prob := predict_retention (retention_model features) in
    let last_review := Py.get (last_review (topic_row topic_data)) now in
    let days_since := Py.days (now - last_review) in
    let should_review :=
      Py.ltb retention_prob 0.7
      || (Py.get (interval_days (topic_row topic_data)) 7 <? days_since)%Z in
    let urgency :=
      if Py.ltb retention_prob 0.3 then CRITICAL
      else if Py.ltb retention_prob 0.5 then HIGH
      else if Py.ltb retention_prob 0.7 then MEDIUM
      else LOW in
    {| should_review := should_review;
       urgency := urgency;
       confidence := calculate_confidence feature_importances features;
       predicted_retention := retention_prob;
       ml_insights := generate_ml_insights topic_data retention_prob days_since |}
  end.

(** An entry of the list of due topics: the row and the check's fields. *)
Definition DueTopic : Type := (TopicData * DueCheck)%type.

Definition due_key_lt (a b : Z * Q) : bool :=
  if (fst a =? fst b)%Z then Py.ltb (snd a) (snd b) else (fst a <? fst b)%Z.

Definition due_key (x : DueTopic) : Z * Q :=
  (tier_rank (urgency (snd x)), (- confidence (snd x))%Q).

Definition due_le (x y : DueTopic) : bool := negb (due_key_lt (due_key y) (due_key x)).

(** [get_topics_due_for_review]: [response] is the outcome of the query
    for the user's rows. *)
Definition get_topics_due_for_review
    (now : Z) (retention_model : list R -> option Q)
    (feature_importances : option (list Q))
    (response : StoreRead (list TopicData)) (user_profile : option UserProfile)
    (recent_analytics : option RecentAnalytics) : list DueTopic :=
  match response with
  | Found rows =>
    let checked :=
      map (fun topic_data =>
             (topic_data,
              is_topic_due_for_review now retention_model feature_importances
                                      topic_data user_profile recent_analytics))
          rows in
    let due_topics := filter (fun x => should_review (snd x)) checked in
    Py.sort due_le due_topics
  | Absent | Unreachable => []
  end.

(** ** Training *)

(** [prepare_training_data]: a user's record is read for its [user_id]
    (a missing key raises) and contributes no sample. *)
Definition prepare_training_data (user_data : list (option string))
    : option (list (list R) * list R * list R) :=
  if forallb (fun user => match user with Some _ => true | None => false end) user_data
  then Some ([], [], [])
  else None.

Inductive TrainingOutcome : Type :=
| NoData
| InsufficientData
| TrainingFailed
| Trained (samples : nat).

Definition train_models (user_data : list (option string)) : TrainingOutcome :=
  match user_data with
  | [] => NoData
  | _ =>
    match prepare_training_data user_data with
    | None => TrainingFailed
    | Some (X, y_intervals, y_retention) =>
      if (List.length X <? 10)%nat then InsufficientData
      else Trained (List.length X)
    end
  end.

End IntelligentSpacedRepetition.

(* ================================================================== *)
(** * StudyPlanGenerator  (study_plan_generator.py) *)
(* ================================================================== *)

Module StudyPlanGenerator.

Inductive Priority : Type := LOW | MEDIUM | HIGH | CRITICAL.

(** [Priority.value] *)
Definition value (p : Priority) : Z :=
  match p with LOW => 1 | MEDIUM => 2 | HIGH => 3 | CRITICAL => 4 end%Z.

Inductive StudySessionType : Type := NEW_CONTENT | REVIEW | PRACTICE | ASSESSMENT.

Record StudyBlock : Type := mkStudyBlock {
  topic : string;
  session_type : StudySessionType;
  duration_minutes : Z;
  priority : Priority;
  scheduled_time : Z;
  difficulty : string;
  estimated_effort : Q;
  prerequisites : list string;
  learning_objectives : list string
}.

Record UserPreferences : Type := mkUserPreferences {
  daily_study_time : Z;
  preferred_session_length : Z;
  break_duration : Z;
  peak_hours : list Z;
  difficulty_preference : string;
  learning_style : string;
  max_sessions_per_day : Z
}.

(** The keys of the analytics dictionary that the planner reads; both
    [_analyze_learning_patterns] and [_default_learning_analytics] set
    them. *)
Record Analytics : Type := mkAnalytics {
  learning_velocity : Q;
  optimal_session_length : Z;
  confidence_score : Q
}.

Definition _default_learning_analytics : Analytics :=
  {| learning_velocity := 0.7;
     optimal_session_length := 25;
     confidence_score := 0.5 |}.

(** A row of [learning_profiles]. *)
Record Profile : Type := mkProfile {
  profile_daily_study_time : option Z;
  profile_preferred_session_length : option Z;
  profile_break_duration : option Z;
  profile_peak_hours : option (list Z);
  profile_difficulty_preference : option string;
  profile_learning_style : option string;
  profile_max_sessions_per_day : option Z
}.

Definition default_peak_hours : list Z := [9; 10; 11; 14; 15; 16]%Z.

Definition _get_user_preferences (profile : option Profile) : UserPreferences :=
  match profile with
  | Some profile =>
    {| daily_study_time := Py.get (profile_daily_study_time profile) 120%Z;
       preferred_session_length :=
         Py.get (profile_preferred_session_length profile) 25%Z;
       break_duration := Py.get (profile_break_duration profile) 5%Z;
       peak_hours := Py.get (profile_peak_hours profile) default_peak_hours;
       difficulty_preference :=
         Py.get (profile_difficulty_preference profile) "medium"%string;
       learning_style := Py.get (profile_learning_style profile) "visual"%string;
       max_sessions_per_day := Py.get (profile_max_sessions_per_day profile) 6%Z |}
  | None =>
    {| daily_study_time := 120;
       preferred_session_length := 25;
       break_duration := 5;
       peak_hours := default_peak_hours;
       difficulty_preference := "medium";
       learning_style := "visual";
       max_sessions_per_day := 6 |}
  end.

(** ** Tables of [__init__] *)

Inductive TimeOfDay : Type := morning | afternoon | evening.

(** [self.efficiency_curves.get(style, {}).get(time_of_day, 0.7)] *)
Definition efficiency_curves (style : string) (t : TimeOfDay) : Q :=
  if (style =? "visual")%string then
    match t with morning => 0.9 | afternoon => 0.8 | evening => 0.7 end
  else if (style =? "auditory")%string then
    match t with morning => 0.8 | afternoon => 0.9 | evening => 0.8 end
  else if (style =? "kinesthetic")%string then
    match t with morning => 0.7 | afternoon => 0.9 | evening => 0.6 end
  else if (style =? "reading")%string then
    match t with morning => 0.9 | afternoon => 0.7 | evening => 0.8 end
  else 0.7.

(** [self.cognitive_load.get(difficulty, 0.5)] *)
Definition cognitive_load (difficulty : string) : Q :=
  if (difficulty =? "easy")%string then 0.3
  else if (difficulty =? "medium")%string then 0.6
  else if (difficulty =? "hard")%string then 0.9
  else 0.5.

Definition _get_time_of_day (hour : Z) : TimeOfDay :=
  if ((6 <=? hour) && (hour <? 12))%Z then morning
  else if ((12 <=? hour) && (hour <? 17))%Z then afternoon
  else evening.

(** ** Topic helpers *)

Definition difficulty_map : list (string * Q) :=
  [("mathematics", 0.8); ("physics", 0.9); ("chemistry", 0.8);
   ("biology", 0.6); ("history", 0.5); ("literature", 0.6);
   ("computer science", 0.8); ("programming", 0.8)]%string.

Fixpoint first_match (topic_lower : string) (m : list (string * Q)) : option Q :=
  match m with
  | [] => None
  | (key, difficulty) :: m' =>
    if Py.contains key topic_lower then Some difficulty
    else first_match topic_lower m'
  end.

Definition _estimate_topic_difficulty (topic : string) : Q :=
  Py.get (first_match (Py.lower topic) difficulty_map) 0.6%Q.

Definition _get_topic_difficulty (topic : string) : string :=
  let difficulty_score := _estimate_topic_difficulty topic in
  if Py.geb difficulty_score 0.7 then "hard"
  else if Py.geb difficulty_score 0.5 then "medium"
  else "easy".

(** A row of [quiz_results]. *)
Record QuizRow : Type := mkQuizRow {
  quiz_topic_name : option string;
  quiz_score : option Q
}.

Definition _get_topic_performance (quiz_results : list QuizRow) (topic : string) : Q :=
  let topic_scores :=
    map (fun result => Py.get (quiz_score result) 0%Q)
        (filter (fun result =>
                   (Py.lower (Py.get (quiz_topic_name result) "") =? Py.lower topic)%string)
                quiz_results) in
  match topic_scores with
  | [] => 0.5
  | _ => (Py.mean topic_scores / 100)%Q
  end.

Definition _check_prerequisites (topic : string) : bool := true.

Definition _determine_session_type (topic : string) (day : Z) : StudySessionType :=
  if (day =? 0)%Z then NEW_CONTENT
  else if (day mod 3 =? 0)%Z then REVIEW
  else if (day mod 5 =? 0)%Z then ASSESSMENT
  else PRACTICE.

(** [multiplier] is [difficulty_multiplier.get('medium', 1.0)]. *)
Definition _calculate_optimal_duration (topic : string) (analytics : Analytics) : Z :=
  let base_duration := optimal_session_length analytics in
  let multiplier := 1.0%Q in
  Py.int (inject_Z base_duration * multiplier).

Definition _convert_to_priority_enum (priority_score : Q) : Priority :=
  if Py.geb priority_score 0.8 then CRITICAL
  else if Py.geb priority_score 0.6 then HIGH
  else if Py.geb priority_score 0.4 then MEDIUM
  else LOW.

Definition _calculate_effort_score (topic : string) (duration : Z) : Q :=
  (inject_Z duration / 60)%Q.

Definition _get_topic_prerequisites (topic : string) : list string := [].

Definition _get_topic_objectives (topic : string) : list string :=
  [("Master " ++ topic ++ " fundamentals")%string;
   ("Apply " ++ topic ++ " concepts")%string].

(** ** Prioritisation *)

(** [spaced_rep_data] is the list of rows that
    [_get_spaced_repetition_schedule] returns (or the empty dict), so
    the test [topic in spaced_rep_data] compares a string with rows and
    the first factor never contributes. *)
Definition priority_score_of
    (quiz_results : list QuizRow) (analytics : Analytics) (topic : string) : Q :=
  let priority_score := 0%Q in
  let topic_performance := _get_topic_performance quiz_results topic in
  let priority_score :=
    if Py.ltb topic_performance 0.7
    then (priority_score + (0.7 - topic_performance) * 0.5)%Q
    else priority_score in
  let topic_difficulty := _estimate_topic_difficulty topic in
  let user_level := confidence_score analytics in
  let difficulty_gap := Qabs (topic_difficulty - user_level) in
  let priority_score :=
    if Py.ltb difficulty_gap 0.2 then (priority_score + 0.3)%Q else priority_score in
  let prerequisites_met := _check_prerequisites topic in
  if prerequisites_met then (priority_score + 0.2)%Q else priority_score.

(** [sorted(..., key=lambda x: x[1], reverse=True)] keeps the order of
    equal scores. *)
Definition _prioritize_topics
    (quiz_results : list QuizRow) (topics : list string) (analytics : Analytics)
    : list (string * Q) :=
  let topic_priorities :=
    map (fun topic => (topic, priority_score_of quiz_results analytics topic)) topics in
  Py.sort (fun x y => negb (Py.ltb (snd x) (snd y))) topic_priorities.

(** ** Study blocks *)

(** [datetime.now().replace(hour=0, minute=0, second=0, microsecond=0)] *)
Definition midnight (now : Z) : Z := (now / Py.us_per_day * Py.us_per_day)%Z.

(** The body of [for topic, priority in prioritized_topics] for one
    day: [remaining_time] and [session_count] are the loop's two
    counters. *)
Fixpoint daily_blocks
    (preferences : UserPreferences) (analytics : Analytics)
    (day : Z) (day_date : Z)
    (prioritized_topics : list (string * Q))
    (remaining_time session_count : Z) : list StudyBlock :=
  match prioritized_topics with
  | [] => []
  | (topic, priority) :: rest =>
    if ((remaining_time <=? 0)
        || (max_sessions_per_day preferences <=? session_count))%Z
    then []
    else
      let session_type := _determine_session_type topic day in
      let session_duration :=
        Z.min (Z.min (preferred_session_length preferences) remaining_time)
              (_calculate_optimal_duration topic analytics) in
      if (session_duration <? 10)%Z
      then daily_blocks preferences analytics day day_date rest
                        remaining_time session_count
      else
        let block :=
          {| topic := topic;
             session_type := session_type;
             duration_minutes := session_duration;
             priority := _convert_to_priority_enum priority;
             scheduled_time := day_date;
             difficulty := _get_topic_difficulty topic;
             estimated_effort := _calculate_effort_score topic session_duration;
             prerequisites := _get_topic_prerequisites topic;
             learning_objectives := _get_topic_objectives topic |} in
        block :: daily_blocks preferences analytics day day_date rest
                   (remaining_time - (session_duration + break_duration preferences))
                   (session_count + 1)
    end.

(** [range(n)] *)
Definition range (n : Z) : list Z := map Z.of_nat (seq 0 (Z.to_nat n)).

Definition blocks_of_day
    (now : Z) (prioritized_topics : list (string * Q))
    (preferences : UserPreferences) (analytics : Analytics) (day : Z)
    : list StudyBlock :=
  let current_date := midnight now in
  let day_date := (current_date + Py.timedelta_days day)%Z in
  daily_blocks preferences analytics day day_date prioritized_topics
               (daily_study_time preferences) 0.

Definition _generate_study_blocks
    (now : Z) (prioritized_topics : list (string * Q))
    (preferences : UserPreferences) (available_days : Z) (analytics : Analytics)
    : list StudyBlock :=
  flat_map (blocks_of_day now prioritized_topics preferences analytics)
           (range available_days).

(** ** Schedule optimisation *)

(** [t.hour], [t.minute]; [t.replace(hour=h)], which raises ValueError
    unless [0 <= h <= 23]; [t.replace(hour=h, minute=0, second=0)]. *)
Definition hour_of (t : Z) : Z := (t / Py.us_per_hour mod 24)%Z.
Definition minute_of (t : Z) : Z := (t / Py.us_per_minute mod 60)%Z.

Definition valid_hour (h : Z) : bool := ((0 <=? h) && (h <=? 23))%Z.

Definition replace_hour (t h : Z) : option Z :=
  if valid_hour h
  then Some (t - hour_of t * Py.us_per_hour + h * Py.us_per_hour)%Z
  else None.

Definition replace_hour_sharp (t h : Z) : option Z :=
  if valid_hour h
  then Some (midnight t + h * Py.us_per_hour + t mod 1000000)%Z
  else None.

(** [strftime('%Y-%m-%d')]: the calendar day. *)
Definition day_key (t : Z) : Z := (t / Py.us_per_day)%Z.

(** An entry of a day's schedule; [start_time] is [strftime('%H:%M')]. *)
Record Session : Type := mkSession {
  s_topic : string;
  s_session_type : StudySessionType;
  start_time : Z * Z;
  s_duration_minutes : Z;
  s_difficulty : string;
  s_priority : Priority;
  s_learning_objectives : list string;
  s_estimated_effort : Q;
  break_after : Z
}.

(** The [for peak_hour in preferences.peak_hours] loop of
    [_find_optimal_time_slot]. *)
Fixpoint better_peak_slot
    (start_time : Z) (learning_style : string) (style_efficiency : Q)
    (peak_hours : list Z) : option Z :=
  match peak_hours with
  | [] => Some start_time
  | peak_hour :: rest =>
    match replace_hour start_time peak_hour with
    | None => None
    | Some peak_time =>
      let peak_time_of_day := _get_time_of_day peak_hour in
      let peak_efficiency := efficiency_curves learning_style peak_time_of_day in
      if Py.gtb peak_efficiency style_efficiency then Some peak_time
      else better_peak_slot start_time learning_style style_efficiency rest
    end
  end.

Definition _find_optimal_time_slot
    (start_time : Z) (block : StudyBlock) (preferences : UserPreferences)
    : option Z :=
  let hour := hour_of start_time in
  let time_of_day := _get_time_of_day hour in
  let learning_style := learning_style preferences in
  let style_efficiency := efficiency_curves learning_style time_of_day in
  let cognitive_load := cognitive_load (difficulty block) in
  if Py.gtb cognitive_load 0.7 && Py.ltb style_efficiency 0.8
  then better_peak_slot start_time learning_style style_efficiency
                        (peak_hours preferences)
  else Some start_time.

(** The key [(-b.priority.value, cognitive_load.get(b.difficulty, 0.5))]. *)
Definition block_key (b : StudyBlock) : Z * Q :=
  ((- value (priority b))%Z, cognitive_load (difficulty b)).

Definition block_key_lt (a b : Z * Q) : bool :=
  if (fst a =? fst b)%Z then Py.ltb (snd a) (snd b) else (fst a <? fst b)%Z.

Definition block_le (x y : StudyBlock) : bool :=
  negb (block_key_lt (block_key y) (block_key x)).

(** The [for block in sorted_blocks] loop. *)
Fixpoint schedule_sessions
    (preferences : UserPreferences) (current_time : Z)
    (sorted_blocks : list StudyBlock) : option (list Session) :=
  match sorted_blocks with
  | [] => Some []
  | block :: rest =>
    match _find_optimal_time_slot current_time block preferences with
    | None => None
    | Some optimal_time =>
      let session :=
        {| s_topic := topic block;
           s_session_type := session_type block;
           start_time := (hour_of optimal_time, minute_of optimal_time);
           s_duration_minutes := duration_minutes block;
           s_difficulty := difficulty block;
           s_priority := priority block;
           s_learning_objectives := learning_objectives block;
           s_estimated_effort := estimated_effort block;
           break_after := break_duration preferences |} in
      let current_time :=
        (optimal_time
         + (duration_minutes block + break_duration preferences) * Py.us_per_minute)%Z in
      match schedule_sessions preferences current_time rest with
      | None => None
      | Some scheduled_sessions => Some (session :: scheduled_sessions)
      end
    end
  end.

(** [peak_hours[0]] raises IndexError on an empty list. *)
Definition _optimize_daily_schedule
    (now : Z) (blocks : list StudyBlock) (preferences : UserPreferences)
    : option (list Session) :=
  let sorted_blocks := Py.sort block_le blocks in
  match peak_hours preferences with
  | [] => None
  | first_peak :: _ =>
    match replace_hour_sharp now first_peak with
    | None => None
    | Some current_time => schedule_sessions preferences current_time sorted_blocks
    end
  end.

(** [blocks_by_day]: a dictionary in insertion order. *)
Fixpoint add_block (key : Z) (block : StudyBlock)
    (blocks_by_day : list (Z * list StudyBlock)) : list (Z * list StudyBlock) :=
  match blocks_by_day with
  | [] => [(key, [block])]
  | (k, blocks) :: others =>
    if (key =? k)%Z then (k, blocks ++ [block]) :: others
    else (k, blocks) :: add_block key block others
  end.

Definition group_by_day (study_blocks : list StudyBlock) : list (Z * list StudyBlock) :=
  fold_left (fun blocks_by_day block =>
               add_block (day_key (scheduled_time block)) block blocks_by_day)
            study_blocks [].

Fixpoint optimize_days
    (now : Z) (preferences : UserPreferences)
    (blocks_by_day : list (Z * list StudyBlock)) : option (list (Z * list Session)) :=
  match blocks_by_day with
  | [] => Some []
  | (key, day_blocks) :: others =>
    match _optimize_daily_schedule now day_blocks preferences with
    | None => None
    | Some optimized_day =>
      match optimize_days now preferences others with
      | None => None
      | Some optimized_schedule => Some ((key, optimized_day) :: optimized_schedule)
      end
    end
  end.

Definition _optimize_schedule
    (now : Z) (study_blocks : list StudyBlock) (preferences : UserPreferences)
    : option (list (Z * list Session)) :=
  optimize_days now preferences (group_by_day study_blocks).

(** ** Plan assembly *)

Definition _extract_learning_objectives (topics : list string) : list string :=
  flat_map _get_topic_objectives topics.

(** A milestone; [milestone_number] stands for the title
    ["Milestone n"] and [target_percent] for ["p% of topics"]. *)
Record Milestone : Type := mkMilestone {
  milestone_day : Z;
  milestone_number : Z;
  target_percent : Z;
  assessment_recommended : bool
}.

Definition _generate_milestones (topics : list string) (days : Z) : list Milestone :=
  let milestone_interval := Z.max 1 (days / 4) in
  map (fun i =>
         {| milestone_day := (i + 1) * milestone_interval;
            milestone_number := i + 1;
            target_percent := (i + 1) * 25;
            assessment_recommended := true |}%Z)
      (range 4).

Definition _generate_adaptive_rules : list (string * string) :=
  [("performance_drop_below_70", "reduce_difficulty");
   ("streak_above_5_days", "increase_challenge");
   ("session_incomplete", "adjust_duration")]%string.

Record Completion : Type := mkCompletion {
  overall : Q;
  on_time : Q;
  with_extension : Q
}.

Definition _estimate_completion_probability
    (preferences : UserPreferences) (analytics : Analytics) : Completion :=
  let user_velocity := learning_velocity analytics in
  let consistency_score := confidence_score analytics in
  let time_availability :=
    Qmin 1.0 (inject_Z (daily_study_time preferences) / 180) in
  let completion_prob :=
    (user_velocity * 0.4 + consistency_score * 0.3 + time_availability * 0.3)%Q in
  {| overall := completion_prob;
     on_time := (completion_prob * 0.8)%Q;
     with_extension := Qmin 1.0 (completion_prob * 1.2) |}.

Record StudyPlan : Type := mkStudyPlan {
  generated_at : Z;
  plan_target_date : Z;
  total_study_time_minutes : Z;
  daily_sessions : list (Z * list Session);
  plan_learning_objectives : list string;
  progress_milestones : list Milestone;
  adaptive_adjustments : list (string * string);
  estimated_completion : Completion
}.

(** [generate_personalized_study_plan].  [profile], [analytics] and
    [quiz_results] are what the store holds for the user; [preferences]
    is the optional argument.  [None] is an exception leaving the
    function. *)
Definition generate_personalized_study_plan
    (now : Z) (profile : option Profile) (analytics : Analytics)
    (quiz_results : list QuizRow)
    (topics : list string) (target_date : Z)
    (preferences : option UserPreferences) : option StudyPlan :=
  let preferences :=
    match preferences with
    | Some p => p
    | None => _get_user_preferences profile
    end in
  let available_days := Py.days (target_date - now) in
  let total_study_time := (available_days * daily_study_time preferences)%Z in
  let prioritized_topics := _prioritize_topics quiz_results topics analytics in
  let study_blocks :=
    _generate_study_blocks now prioritized_topics preferences available_days analytics in
  match _optimize_schedule now study_blocks preferences with
  | None => None
  | Some optimized_schedule =>
    Some {| generated_at := now;
            plan_target_date := target_date;
            total_study_time_minutes := total_study_time;
            daily_sessions := optimized_schedule;
            plan_learning_objectives := _extract_learning_objectives topics;
            progress_milestones := _generate_milestones topics available_days;
            adaptive_adjustments := _generate_adaptive_rules;
            estimated_completion :=
              _estimate_completion_probability preferences analytics |}
  end.

End StudyPlanGenerator.

(* ================================================================== *)
(** * generate_data.py: the simulation of review events *)
(* ================================================================== *)

Module GenerateData.

(** The learning state of a (user, topic) pair. *)
Record State : Type := mkState {
  repetitions : Z;
  ease_factor : Q;
  last_review : Z
}.

(** The state of a pair that has none yet; [days_ago] is the draw of
    [random.randint(1, 30)]. *)
Definition initial_state (now days_ago : Z) : State :=
  {| repetitions := 0;
     ease_factor := 2.5;
     last_review := (now - Py.timedelta_days days_ago)%Z |}.

(** The memory strength S of step 4.  [memory_strength] and
    [base_difficulty] are the draws kept for the user and the topic,
    from [np.random.uniform(0.5, 2.0)] and [np.random.uniform(0.5, 1.5)]. *)
Definition strength_S (state : State) (memory_strength base_difficulty : Q) : Q :=
  (inject_Z (repetitions state + 1) * ease_factor state * memory_strength
   / base_difficulty)%Q.

(** [prob_recall = np.exp(-days_since_last_review / max(0.1, strength_S))] *)
Definition prob_recall (days_since_last_review : Z) (strength_S : Q) : R :=
  exp (IZR (- days_since_last_review) / Q2R (Qmax 0.1 strength_S)).

(** Step 6, the state kept for the next event; [recalled_correctly] is
    the outcome of the draw [random.random() < prob_recall]. *)
Definition update_state (now : Z) (recalled_correctly : bool) (state : State)
    : State :=
  if recalled_correctly then
    {| repetitions := (repetitions state + 1)%Z;
       ease_factor := Qmax 1.3 (ease_factor state + 0.1);
       last_review := now |}
  else
    {| repetitions := 0;
       ease_factor := Qmax 1.3 (ease_factor state - 0.2);
       last_review := now |}.

End GenerateData.

(* ================================================================== *)
(** * The scheduler endpoints  (api/v1/endpoints/smart_scheduler.py) *)
(* ================================================================== *)

Module SmartScheduler.

(** What [datetime.fromisoformat] makes of the request's [target_date]
    string once a final 'Z' is replaced by '+00:00': a naive datetime,
    one with a UTC offset, or a ValueError. *)
Inductive ParsedDate : Type :=
| Naive (t : Z)
| Aware (t : Z)
| Malformed.

(** [StudyPlanRequest], its optional fields holding integers. *)
Record StudyPlanRequest : Type := mkStudyPlanRequest {
  user_id : string;
  topics : list string;
  target_date : ParsedDate;
  daily_study_time : Z;
  preferred_session_length : Z;
  difficulty_preference : string
}.

Inductive Response (A : Type) : Type :=
| OK (body : A)
| HTTP500.
Arguments OK {A} body.
Arguments HTTP500 {A}.

(** The preferences that the endpoint builds from a request. *)
Definition request_preferences (request : StudyPlanRequest)
    : StudyPlanGenerator.UserPreferences :=
  {| StudyPlanGenerator.daily_study_time := daily_study_time request;
     StudyPlanGenerator.preferred_session_length := preferred_session_length request;
     StudyPlanGenerator.break_duration := 5;
     StudyPlanGenerator.peak_hours := [9; 10; 11; 14; 15; 16]%Z;
     StudyPlanGenerator.difficulty_preference := difficulty_preference request;
     StudyPlanGenerator.learning_style := "visual";
     StudyPlanGenerator.max_sessions_per_day := 6 |}.

(** [generate_study_plan]: subtracting the naive [datetime.now()] from a
    datetime with an offset raises TypeError in the generator; every
    exception becomes a response with status 500. *)
Definition generate_study_plan
    (now : Z) (analytics : StudyPlanGenerator.Analytics)
    (quiz_results : list StudyPlanGenerator.QuizRow)
    (request : StudyPlanRequest) : Response StudyPlanGenerator.StudyPlan :=
  match target_date request with
  | Naive target =>
    match StudyPlanGenerator.generate_personalized_study_plan
            now None analytics quiz_results (topics request) target
            (Some (request_preferences request)) with
    | Some study_plan => OK study_plan
    | None => HTTP500
    end
  | Aware _ | Malformed => HTTP500
  end.

(** [update_spaced_repetition]: the engine's [calculate_next_review],
    every exception becoming a response with status 500. *)
Definition update_spaced_repetition
    (now : Z) (stored : option SpacedRepetitionEngine.SRData)
    (performance_score : Q) (difficulty : string)
    : Response SpacedRepetitionEngine.ReviewResult :=
  match SpacedRepetitionEngine.calculate_next_review
          now stored performance_score difficulty with
  | Some (result, _) => OK result
  | None => HTTP500
  end.

End SmartScheduler.

(* ================================================================== *)
(** * Definitions used to state the properties *)
(* ================================================================== *)

(** A learner reviewing one topic several times through
    [calculate_next_review_body]: every call finds the row that the previous
    call upserted. *)
Module Scenario.
Import SpacedRepetitionEngine.

(** What a review reads from the row it finds: the level, the
    repetition count, the ease factor and the score history, with the
    values the code takes when there is no row or no such key. *)
Definition level_of (stored : option SRData) : Z :=
  match stored with
  | None => 1
  | Some d => Py.get (interval_days d) 1
  end%Z.

Definition repetitions_of (stored : option SRData) : Z :=
  match stored with
  | None => 0
  | Some d => Py.get (repetitions d) 0
  end%Z.

Definition ease_of (stored : option SRData) : Q :=
  match stored with
  | None => 2.5%Q
  | Some d => Py.get (ease_factor d) 2.5%Q
  end.

Definition history_of (stored : option SRData) : list Q :=
  match stored with
  | None => []
  | Some d => Py.get (performance_history d) []
  end.

Fixpoint submit_reviews
    (now : Z) (stored : option SRData) (difficulty : string)
    (scores : list Q) : option (list ReviewResult * option SRData) :=
  match scores with
  | [] => Some ([], stored)
  | performance_score :: later =>
    match calculate_next_review_body now stored performance_score difficulty with
    | None => None
    | Some (result, row) =>
      match submit_reviews now (Some row) difficulty later with
      | None => None
      | Some (results, final) => Some (result :: results, final)
      end
    end
  end.

(** The result of the last review of a series. *)
Definition last_result
    (now : Z) (difficulty : string) (scores : list Q) : option ReviewResult :=
  match submit_reviews now None difficulty scores with
  | Some (results, _) => last (map Some results) None
  | None => None
  end.

(** The row in the store after a series of reviews. *)
Definition final_row
    (now : Z) (difficulty : string) (scores : list Q) : option SRData :=
  match submit_reviews now None difficulty scores with
  | Some (_, row) => row
  | None => None
  end.
End Scenario.

(** A learner reviewing one topic several times through
    [calculate_intelligent_interval]; a review is its score, the interval
    that the model predicts and the confidence, and every call finds the
    row that the previous call wrote. *)
Module IntelligentScenario.
Import IntelligentSpacedRepetition.

Fixpoint review_intervals
    (now : Z) (response : StoreRead SRRow) (difficulty : string)
    (reviews : list (Q * option Q * Q)) : list Z :=
  match reviews with
  | [] => []
  | (performance_score, prediction, confidence) :: later =>
    let '(result, written) :=
      calculate_intelligent_interval
        now response (predict_interval prediction) confidence
        performance_score difficulty in
    res_interval_days result
    :: review_intervals now
         (match written with Some row => Found row | None => response end)
         difficulty later
  end.

(** An entry as [update_spaced_repetition_data] writes it: it has the
    key [interval_used], not [interval_days] nor [ease_factor]. *)
Definition plain_entry (e : HistoryEntry) : Prop :=
  entry_interval_days e = None /\ entry_ease_factor e = None.
End IntelligentScenario.

(** The wording of the specification, for the statements that compare it
    with the code. *)
Module Spec.
Import SpacedRepetitionEngine.

(** 4.1: S = (repetitions+1) x ease_factor x user_memory_coefficient /
    topic_difficulty, topic_difficulty floored at 0.1. *)
Definition memory_strength
    (repetitions : Z) (ease_factor user_memory_coefficient topic_difficulty : R) : R :=
  ((IZR repetitions + 1) * ease_factor * user_memory_coefficient
   / Rmax topic_difficulty 0.1)%R.

(** 4.1: retention = exp(-t/S). *)
Definition retention (t : Z) (S : R) : R := exp (- IZR t / S).

(** 4.3: urgency = forgetting_probability + 0.1 x days_overdue, read off
    an entry of the returned list. *)
Definition urgency (x : Topic) : Q :=
  ((1 - retention_probability x) + 0.1 * inject_Z (time_overdue_days x))%Q.

(** 4.3: tier ascending severity, then urgency descending, then lower
    retention probability first -- a strict total order. *)
Definition before (x y : Topic) : Prop :=
  (urgency_rank (SpacedRepetitionEngine.urgency x)
   < urgency_rank (SpacedRepetitionEngine.urgency y))%Z
  \/ (urgency_rank (SpacedRepetitionEngine.urgency x)
      = urgency_rank (SpacedRepetitionEngine.urgency y)
      /\ ((urgency y < urgency x)%Q
          \/ (urgency x == urgency y
              /\ (retention_probability x < retention_probability y)%Q))).

(** Minutes of a day's schedule: the blocks and the breaks between
    consecutive blocks. *)
Definition scheduled_minutes (sessions : list StudyPlanGenerator.Session) : Z :=
  (fold_right Z.add 0 (map StudyPlanGenerator.s_duration_minutes sessions)
   + fold_right Z.add 0
       (map StudyPlanGenerator.break_after (removelast sessions)))%Z.
End Spec.

(** The entries of a list that carry a given sort key. *)
Definition same_sort_key (k : Z * Q) (x : SpacedRepetitionEngine.Topic) : bool :=
  (fst (SpacedRepetitionEngine.sort_key x) =? fst k)%Z
  && Qeq_bool (snd (SpacedRepetitionEngine.sort_key x)) (snd k).

(** A session that renders a block: the fields that
    [_optimize_daily_schedule] copies. *)
Definition session_of_block (preferences : StudyPlanGenerator.UserPreferences)
    (s : StudyPlanGenerator.Session) (b : StudyPlanGenerator.StudyBlock) : Prop :=
  StudyPlanGenerator.s_topic s = StudyPlanGenerator.topic b
  /\ StudyPlanGenerator.s_session_type s = StudyPlanGenerator.session_type b
  /\ StudyPlanGenerator.s_duration_minutes s = StudyPlanGenerator.duration_minutes b
  /\ StudyPlanGenerator.s_difficulty s = StudyPlanGenerator.difficulty b
  /\ StudyPlanGenerator.s_priority s = StudyPlanGenerator.priority b
  /\ StudyPlanGenerator.break_after s = StudyPlanGenerator.break_duration preferences.

(** The order of a day's sessions: higher priority first, and among
    equal priorities lower cognitive load first. *)
Definition session_before (a b : StudyPlanGenerator.Session) : Prop :=
  (StudyPlanGenerator.value (StudyPlanGenerator.s_priority b)
   < StudyPlanGenerator.value (StudyPlanGenerator.s_priority a))%Z
  \/ (StudyPlanGenerator.s_priority a = StudyPlanGenerator.s_priority b
      /\ (StudyPlanGenerator.cognitive_load (StudyPlanGenerator.s_difficulty a)
          <= StudyPlanGenerator.cognitive_load (StudyPlanGenerator.s_difficulty b))%Q).

(* ================================================================== *)
(** * Facts about the Python primitives *)
(* ================================================================== *)

Section SortFacts.
Context {A : Type} (le : A -> A -> bool).

Lemma insert_perm (x : A) (l : list A) : Permutation (Py.insert le x l) (x :: l).
Proof.
  induction l as [|y l IH]; simpl.
  - apply Permutation_refl.
  - destruct (le x y).
    + apply Permutation_refl.
    + eapply perm_trans; [apply perm_skip, IH | apply perm_swap].
Qed.

Lemma sort_perm (l : list A) : Permutation (Py.sort le l) l.
Proof.
  induction l as [|x l IH]; simpl.
  - constructor.
  - eapply perm_trans; [apply insert_perm | apply perm_skip, IH].
Qed.

Lemma sort_length (l : list A) : List.length (Py.sort le l) = List.length l.
Proof. apply Permutation_length, sort_perm. Qed.

Hypothesis le_total : forall x y, le x y = false -> le y x = true.

Lemma insert_hdrel (a x : A) (l : list A) :
  le a x = true -> HdRel (fun u v => le u v = true) a l ->
  HdRel (fun u v => le u v = true) a (Py.insert le x l).
Proof.
  intros Hax Hal. destruct l as [|y l]; simpl.
  - constructor. exact Hax.
  - destruct (le x y); constructor.
    + exact Hax.
    + inversion Hal; assumption.
Qed.

Lemma insert_sorted (x : A) (l : list A) :
  Sorted (fun u v => le u v = true) l ->
  Sorted (fun u v => le u v = true) (Py.insert le x l).
Proof.
  induction 1 as [|y l Hs IH Hhd]; simpl.
  - repeat constructor.
  - destruct (le x y) eqn:Hxy.
    + constructor; [constructor; assumption | constructor; exact Hxy].
    + constructor; [exact IH |].
      apply insert_hdrel; [apply le_total; exact Hxy | exact Hhd].
Qed.

Lemma sort_sorted (l : list A) : Sorted (fun u v => le u v = true) (Py.sort le l).
Proof.
  induction l as [|x l IH]; simpl.
  - constructor.
  - apply insert_sorted, IH.
Qed.

(** Stability: the elements of a class [p] whose members are mutually
    [le] come out in the order in which they went in. *)
Lemma insert_filter (p : A -> bool) (x : A) (l : list A) :
  (forall u v, p u = true -> p v = true -> le u v = true) ->
  filter p (Py.insert le x l) = filter p (x :: l).
Proof.
  intros Hp. induction l as [|y l IH]; simpl.
  - reflexivity.
  - destruct (le x y) eqn:Hxy; simpl.
    + reflexivity.
    + simpl in IH. rewrite IH.
      destruct (p x) eqn:Hpx, (p y) eqn:Hpy; try reflexivity.
      rewrite (Hp x y Hpx Hpy) in Hxy. discriminate.
Qed.

Lemma sort_stable (p : A -> bool) (l : list A) :
  (forall u v, p u = true -> p v = true -> le u v = true) ->
  filter p (Py.sort le l) = filter p l.
Proof.
  intros Hp. induction l as [|x l IH]; simpl.
  - reflexivity.
  - rewrite (insert_filter p x (Py.sort le l) Hp). simpl. rewrite IH. reflexivity.
Qed.
End SortFacts.

Lemma Sorted_weaken {A : Type} (R1 R2 : A -> A -> Prop) (l : list A) :
  (forall x y, R1 x y -> R2 x y) -> Sorted R1 l -> Sorted R2 l.
Proof.
  intros H. induction 1 as [|x l Hs IH Hhd]; constructor.
  - exact IH.
  - destruct Hhd; constructor. apply H. assumption.
Qed.

Lemma geb_true (a b : Q) : Py.geb a b = true <-> (b <= a)%Q.
Proof. unfold Py.geb. apply Qle_bool_iff. Qed.

Lemma geb_false (a b : Q) : Py.geb a b = false <-> (a < b)%Q.
Proof.
  unfold Py.geb. split; intros H.
  - apply Qnot_le_lt. intros Hle. apply Qle_bool_iff in Hle. congruence.
  - destruct (Qle_bool b a) eqn:E; [|reflexivity].
    apply Qle_bool_iff in E. exfalso. apply (Qlt_not_le _ _ H E).
Qed.

Lemma ltb_true (a b : Q) : Py.ltb a b = true <-> (a < b)%Q.
Proof.
  unfold Py.ltb. rewrite negb_true_iff. apply (geb_false a b).
Qed.

Lemma ltb_false (a b : Q) : Py.ltb a b = false <-> (b <= a)%Q.
Proof.
  unfold Py.ltb. rewrite negb_false_iff. apply (geb_true a b).
Qed.

Lemma gtb_true (a b : Q) : Py.gtb a b = true <-> (b < a)%Q.
Proof. apply (ltb_true b a). Qed.

(* ================================================================== *)
(** * SpacedRepetitionEngine: review submission *)
(* ================================================================== *)

Section ReviewFacts.
Import SpacedRepetitionEngine.
Import Scenario.

Local Open Scope Z_scope.

Lemma INTERVALS_length (key : string) : List.length (INTERVALS key) = 7%nat.
Proof.
  unfold INTERVALS.
  destruct (key =? "EASY")%string; [reflexivity|].
  destruct (key =? "MEDIUM")%string; [reflexivity|].
  destruct (key =? "HARD")%string; reflexivity.
Qed.

Lemma index_in_range {A : Type} (l : list A) (i : Z) :
  - Z.of_nat (List.length l) <= i < Z.of_nat (List.length l) ->
  exists x, Py.index l i = Some x.
Proof.
  intros Hi. unfold Py.index.
  destruct ((0 <=? i) && (i <? Z.of_nat (List.length l)))%bool eqn:E1.
  - apply andb_true_iff in E1. destruct E1 as [E1 E2].
    apply Z.leb_le in E1. apply Z.ltb_lt in E2.
    destruct (nth_error l (Z.to_nat i)) eqn:En; [eauto|].
    apply nth_error_None in En. lia.
  - destruct ((- Z.of_nat (List.length l) <=? i) && (i <? 0))%bool eqn:E2.
    + apply andb_true_iff in E2. destruct E2 as [E2 E3].
      apply Z.leb_le in E2. apply Z.ltb_lt in E3.
      destruct (nth_error l (Z.to_nat (Z.of_nat (List.length l) + i))) eqn:En; [eauto|].
      apply nth_error_None in En. lia.
    + apply andb_false_iff in E1. apply andb_false_iff in E2.
      rewrite Z.leb_gt, Z.ltb_ge in E1. rewrite Z.leb_gt, Z.ltb_ge in E2. lia.
Qed.

(** What [calculate_next_review_body] computes, field by field. *)
Lemma calculate_next_review_fields
    (now : Z) (stored : option SRData) (performance_score : Q) (difficulty : string)
    (result : ReviewResult) (row : SRData) :
  calculate_next_review_body now stored performance_score difficulty = Some (result, row) ->
  exists current_interval,
    Py.index (INTERVALS (Py.upper difficulty)) (Z.min (level_of stored) 6)
      = Some current_interval
    /\ res_interval_days result
       = Z.max 1 (Py.int (inject_Z current_interval
                          * _calculate_interval_adjustment
                              (performance_score / 100)
                              (Py.mean (history_of stored ++ [performance_score]))))
    /\ res_repetitions result = repetitions_of stored + 1
    /\ repetitions row = Some (repetitions_of stored + 1)
    /\ res_ease_factor result
       = _update_ease_factor (ease_of stored) (performance_score / 100)
    /\ ease_factor row = Some (res_ease_factor result).
Proof.
  unfold calculate_next_review_body, level_of, repetitions_of, ease_of, history_of.
  rewrite INTERVALS_length. change (Z.of_nat 7 - 1) with 6.
  intros H.
  destruct stored as [d|]; cbn [new_sr_data interval_days repetitions ease_factor
                                 performance_history Py.get] in *.
  - destruct (Py.index _ _) as [c|] eqn:Ei; [|discriminate].
    injection H as <- <-. exists c. cbn.
    destruct d as [? ? ? ? ? [[|? ?]|] ?]; cbn; repeat split; reflexivity.
  - destruct (Py.index _ _) as [c|] eqn:Ei; [|discriminate].
    injection H as <- <-. exists c. cbn. repeat split; reflexivity.
Qed.

(** The call returns whenever the stored level is a legal index of the
    interval table. *)
Lemma calculate_next_review_returns
    (now : Z) (stored : option SRData) (performance_score : Q) (difficulty : string) :
  -7 <= level_of stored ->
  exists result row,
    calculate_next_review_body now stored performance_score difficulty = Some (result, row).
Proof.
  intros Hl. unfold calculate_next_review_body.
  destruct (index_in_range (INTERVALS (Py.upper difficulty))
              (Z.min (Py.get (interval_days match stored with
                                             | Some d => d
                                             | None => new_sr_data now
                                             end) 1)
                     (Z.of_nat (List.length (INTERVALS (Py.upper difficulty))) - 1)))
    as [c Hc].
  - rewrite INTERVALS_length. unfold level_of in Hl.
    destruct stored; cbn in *; lia.
  - rewrite Hc. eauto.
Qed.

(** The interval returned is never below one day. *)
Lemma interval_at_least_one
    (now : Z) (stored : option SRData) (performance_score : Q) (difficulty : string)
    (result : ReviewResult) (row : SRData) :
  calculate_next_review_body now stored performance_score difficulty = Some (result, row) ->
  1 <= res_interval_days result.
Proof.
  intros H. apply calculate_next_review_fields in H.
  destruct H as (c & _ & -> & _). lia.
Qed.

(** The floor of 1.3 is applied on the branch of a failed review. *)
Lemma ease_floor_on_failure (current_ease performance : Q) :
  (performance < 0.6)%Q ->
  (1.3 <= _update_ease_factor current_ease performance)%Q.
Proof.
  intros H. unfold _update_ease_factor.
  assert (E1 : Py.geb performance 0.9 = false).
  { apply geb_false. eapply Qlt_trans; [exact H | reflexivity]. }
  assert (E2 : Py.geb performance 0.8 = false).
  { apply geb_false. eapply Qlt_trans; [exact H | reflexivity]. }
  assert (E3 : Py.geb performance 0.6 = false) by (apply geb_false; exact H).
  rewrite E1, E2, E3. apply Q.le_max_l.
Qed.

(** Above 1.4 no branch takes the ease factor below the floor. *)
Lemma ease_floor_from_1_4 (current_ease performance : Q) :
  (1.4 <= current_ease)%Q ->
  (1.3 <= _update_ease_factor current_ease performance)%Q.
Proof.
  intros H. unfold _update_ease_factor.
  destruct (Py.geb performance 0.9); [|destruct (Py.geb performance 0.8);
    [|destruct (Py.geb performance 0.6)]].
  - apply Qle_trans with (1.4 + 0.1)%Q; [discriminate|].
    apply Qplus_le_compat; [exact H | apply Qle_refl].
  - apply Qle_trans with 1.4%Q; [discriminate | exact H].
  - apply Qle_trans with (1.4 - 0.1)%Q; [discriminate|].
    apply Qplus_le_compat; [exact H | apply Qle_refl].
  - apply Q.le_max_l.
Qed.

(** In the body of [calculate_next_review], were it reached: after six
    failed reviews of a topic the ease factor is 1.3, and a seventh
    review with score 70 returns less than the floor; six reviews of an
    easy topic with score 95 end on an interval of 547 days. *)
Lemma calculate_next_review_body_leaves_bounds (now : Z) :
  (exists result,
      Scenario.last_result now "medium" [0; 0; 0; 0; 0; 0; 70]%Q = Some result
      /\ (res_ease_factor result < min_ease_factor)%Q)
  /\ (exists result,
         Scenario.last_result now "easy" [95; 95; 95; 95; 95; 95]%Q = Some result
         /\ res_interval_days result = 547
         /\ max_interval < res_interval_days result).
Proof.
  split; eexists;
    (split; [lazy -[_calculate_forgetting_probability]; reflexivity|]);
    [reflexivity | split; reflexivity].
Qed.

(** ** The function as the module has it *)

Import IntelligentSpacedRepetition.

Lemma db_service_is_unbound : is_bound "db_service" = false.
Proof. reflexivity. Qed.

(** Every call raises NameError, whatever the store holds. *)
Lemma calculate_next_review_raises
    (now : Z) (stored : option SRData) (performance_score : Q) (difficulty : string) :
  calculate_next_review now stored performance_score difficulty = None.
Proof.
  unfold calculate_next_review. rewrite db_service_is_unbound. reflexivity.
Qed.

(** The endpoint turns the exception into a response with status 500. *)
Lemma update_spaced_repetition_fails
    (now : Z) (stored : option SRData) (performance_score : Q) (difficulty : string) :
  SmartScheduler.update_spaced_repetition now stored performance_score difficulty
  = SmartScheduler.HTTP500.
Proof.
  unfold SmartScheduler.update_spaced_repetition.
  rewrite calculate_next_review_raises. reflexivity.
Qed.

(** The simulation keeps the floor of 1.3 on both branches of its state
    update. *)
Lemma generator_keeps_ease_floor
    (now : Z) (recalled_correctly : bool) (state : GenerateData.State) :
  (1.3 <= GenerateData.ease_factor
            (GenerateData.update_state now recalled_correctly state))%Q.
Proof.
  destruct recalled_correctly; cbn; apply Q.le_max_l.
Qed.

(** C1.  No review submitted to the engine returns a result:
    [calculate_next_review] raises NameError on every call and the
    endpoint answers with status 500.  The helper that updates the ease
    factor takes 1.3 below [min_ease_factor] on a score of 70, where
    the simulation of [generate_data.py] floors both branches; and the
    other engine's [fallback_supermemo2] returns 912 days, above
    [max_interval], for a stored interval of 365 days. *)
Theorem calculate_next_review_leaves_bounds :
  (forall (now : Z) (stored : option SRData) (performance_score : Q)
          (difficulty : string),
      calculate_next_review now stored performance_score difficulty = None
      /\ SmartScheduler.update_spaced_repetition
           now stored performance_score difficulty = SmartScheduler.HTTP500)
  /\ (_update_ease_factor min_ease_factor 0.7 < min_ease_factor)%Q
  /\ (forall (now : Z) (recalled_correctly : bool) (state : GenerateData.State),
         (min_ease_factor
          <= GenerateData.ease_factor
               (GenerateData.update_state now recalled_correctly state))%Q)
  /\ max_interval
     < IntelligentSpacedRepetition.res_interval_days
         (fallback_supermemo2
            0 (Found (mkSRRow (Some 365) (Some 2) (Some 2.5%Q) (Some 0) (Some 0) None))
            90).
Proof.
  split; [|split; [|split]].
  - intros now stored performance_score difficulty.
    split; [apply calculate_next_review_raises | apply update_spaced_repetition_fails].
  - reflexivity.
  - intros now recalled_correctly state. apply generator_keeps_ease_floor.
  - reflexivity.
Qed.

(** ** First and second review *)

Lemma INTERVALS_cases (key : string) :
  INTERVALS key = [1; 6; 15; 30; 90; 180; 365]
  \/ INTERVALS key = [1; 3; 7; 14; 30; 60; 120]
  \/ INTERVALS key = [1; 2; 4; 8; 16; 32; 64].
Proof.
  unfold INTERVALS, INTERVALS_DEFAULT.
  destruct (key =? "EASY")%string; [auto|].
  destruct (key =? "MEDIUM")%string; [auto|].
  destruct (key =? "HARD")%string; auto.
Qed.

(** In the body of [calculate_next_review], were it reached, the first
    review of a medium topic with score 95 is given 4 days: the body is
    driven by the interval table of the difficulty. *)
Lemma first_review_interval_is_four :
  exists result row,
    calculate_next_review_body 0 None 95 "medium" = Some (result, row)
    /\ SpacedRepetitionEngine.res_interval_days result = 4.
Proof.
  do 2 eexists. split; [lazy -[_calculate_forgetting_probability]; reflexivity|].
  reflexivity.
Qed.

(** C2.  On a first-ever review IntelligentSpacedRepetition returns an
    interval of one day whatever the score ([apply_interval_constraints]
    on an empty history, hence [calculate_intelligent_interval], and
    [fallback_supermemo2] without a stored row).  The engine's
    [calculate_next_review] computes no interval for it: the call raises
    NameError and the endpoint answers with status 500. *)
Theorem first_review_interval
    (now : Z) (performance_score predicted_interval confidence : Q)
    (difficulty : string) :
  apply_interval_constraints predicted_interval [] performance_score = 1
  /\ IntelligentSpacedRepetition.res_interval_days
       (fst (calculate_intelligent_interval
               now Absent predicted_interval confidence performance_score difficulty))
     = 1
  /\ IntelligentSpacedRepetition.res_interval_days
       (fallback_supermemo2 now Absent performance_score) = 1
  /\ calculate_next_review now None performance_score difficulty = None
  /\ SmartScheduler.update_spaced_repetition now None performance_score difficulty
     = SmartScheduler.HTTP500.
Proof.
  split; [|split; [|split; [|split]]].
  - reflexivity.
  - reflexivity.
  - reflexivity.
  - apply calculate_next_review_raises.
  - apply update_spaced_repetition_fails.
Qed.

(** In the body of [calculate_next_review], were it reached, a second
    review of a medium topic, both reviews scoring 70, is given 3 days. *)
Lemma second_review_interval_is_three :
  exists result,
    Scenario.last_result 0 "medium" [70; 70]%Q = Some result
    /\ SpacedRepetitionEngine.res_interval_days result = 3.
Proof.
  eexists. split; [lazy -[_calculate_forgetting_probability]; reflexivity|].
  reflexivity.
Qed.

(** C3.  With exactly one prior review and a score of at least 60
    IntelligentSpacedRepetition returns six days:
    [apply_interval_constraints] on a history of one entry, and
    [fallback_supermemo2] on a stored repetition count of 1.  The
    engine's [calculate_next_review] computes no interval, whatever row
    the store holds: the call raises NameError and the endpoint answers
    with status 500. *)
Theorem second_review_interval
    (now : Z) (predicted_interval : Q) (entry : HistoryEntry) (data : SRRow)
    (stored : option SRData) (difficulty : string) (performance_score : Q) :
  IntelligentSpacedRepetition.repetitions data = Some 1 ->
  (60 <= performance_score)%Q ->
  apply_interval_constraints predicted_interval [entry] performance_score = 6
  /\ IntelligentSpacedRepetition.res_interval_days
       (fallback_supermemo2 now (Found data) performance_score) = 6
  /\ calculate_next_review now stored performance_score difficulty = None
  /\ SmartScheduler.update_spaced_repetition
       now stored performance_score difficulty = SmartScheduler.HTTP500.
Proof.
  intros Hrep Hscore. split; [|split; [|split]].
  - reflexivity.
  - unfold fallback_supermemo2, supermemo2. rewrite Hrep.
    apply geb_true in Hscore. rewrite Hscore. reflexivity.
  - apply calculate_next_review_raises.
  - apply update_spaced_repetition_fails.
Qed.

Lemma second_review_interval_witness :
  IntelligentSpacedRepetition.res_interval_days
    (fallback_supermemo2
       0 (Found (mkSRRow (Some 1) (Some 1) (Some 2.5%Q) (Some 0) (Some 0) None)) 85)
  = 6
  /\ calculate_next_review 0 None 85 "easy" = None.
Proof.
  destruct (second_review_interval 0 7
              (mkHistoryEntry 70 "easy" 0 (Some 1) None None)
              (mkSRRow (Some 1) (Some 1) (Some 2.5%Q) (Some 0) (Some 0) None)
              None "easy" 85 eq_refl)
    as (_ & Hfallback & Hengine & _).
  - vm_compute. discriminate.
  - split; [exact Hfallback | exact Hengine].
Defined.

(** ** Repetition count *)

(** In the body of [calculate_next_review], were it reached, a review
    scoring 90 and one scoring 30 leave a repetition count of 2. *)
Lemma repetitions_not_reset :
  exists row,
    Scenario.final_row 0 "medium" [90; 30]%Q = Some row
    /\ SpacedRepetitionEngine.repetitions row = Some 2.
Proof.
  eexists. split; [lazy -[_calculate_forgetting_probability]; reflexivity|].
  reflexivity.
Qed.

(** C7.  A review that scores below 60 does not reset the stored
    repetition count: [update_spaced_repetition_data] stores the
    previous count plus one (1 when there was no row), although
    [fallback_supermemo2] computes a new count of 0 for such a review
    (and returns without storing it) and the simulation of
    [generate_data.py] resets the count.  The engine's
    [calculate_next_review] stores nothing: the call raises NameError. *)
Theorem repetitions_incremented
    (now : Z) (stored : option SRData) (performance_score : Q) (difficulty : string)
    (data : SRRow) (interval : Z) (next : Z) :
  (performance_score < 60)%Q ->
  option_map IntelligentSpacedRepetition.repetitions
    (update_spaced_repetition_data
       now (Found data) performance_score difficulty interval next)
  = Some (Some (Py.get (IntelligentSpacedRepetition.repetitions data) 0 + 1))
  /\ option_map IntelligentSpacedRepetition.repetitions
       (update_spaced_repetition_data
          now Absent performance_score difficulty interval next)
     = Some (Some 1)
  /\ snd (fst (supermemo2 (Some data) performance_score)) = 0
  /\ (forall state : GenerateData.State,
         GenerateData.repetitions (GenerateData.update_state now false state) = 0)
  /\ calculate_next_review now stored performance_score difficulty = None.
Proof.
  intros Hscore. split; [|split; [|split; [|split]]].
  - reflexivity.
  - reflexivity.
  - unfold supermemo2. apply geb_false in Hscore. rewrite Hscore. reflexivity.
  - intros state. reflexivity.
  - apply calculate_next_review_raises.
Qed.

Lemma repetitions_incremented_witness :
  option_map IntelligentSpacedRepetition.repetitions
    (update_spaced_repetition_data
       0 (Found (mkSRRow (Some 6) (Some 3) (Some 2.5%Q) (Some 0) (Some 0) None))
       40 "medium" 1 0)
  = Some (Some 4)
  /\ snd (fst (supermemo2
                 (Some (mkSRRow (Some 6) (Some 3) (Some 2.5%Q) (Some 0) (Some 0) None))
                 40))
     = 0.
Proof.
  destruct (repetitions_incremented
              0 None 40 "medium"
              (mkSRRow (Some 6) (Some 3) (Some 2.5%Q) (Some 0) (Some 0) None) 1 0)
    as (Hstored & _ & Hcomputed & _).
  - vm_compute. reflexivity.
  - split; [exact Hstored | exact Hcomputed].
Defined.

End ReviewFacts.

(* ================================================================== *)
(** * SpacedRepetitionEngine: topics due for review *)
(* ================================================================== *)

Section DueFacts.
Import SpacedRepetitionEngine.

Local Open Scope Z_scope.

Lemma key_lt_asym (a b : Z * Q) : key_lt a b = true -> key_lt b a = false.
Proof.
  unfold key_lt. rewrite (Z.eqb_sym (fst b) (fst a)).
  destruct (fst a =? fst b) eqn:E.
  - intros H. apply ltb_true in H. apply ltb_false. apply Qlt_le_weak. exact H.
  - intros H. apply Z.ltb_lt in H. apply Z.ltb_ge. lia.
Qed.

Lemma topic_le_total (x y : Topic) : topic_le x y = false -> topic_le y x = true.
Proof.
  unfold topic_le. intros H. apply negb_false_iff in H.
  apply negb_true_iff. apply key_lt_asym. exact H.
Qed.

Lemma topic_le_rank (x y : Topic) :
  topic_le x y = true -> urgency_rank (urgency x) <= urgency_rank (urgency y).
Proof.
  unfold topic_le, key_lt, sort_key. cbn [fst snd]. intros H.
  apply negb_true_iff in H.
  destruct (urgency_rank (urgency y) =? urgency_rank (urgency x)) eqn:E.
  - apply Z.eqb_eq in E. lia.
  - apply Z.ltb_ge in H. exact H.
Qed.

Lemma same_sort_key_le (k : Z * Q) (x y : Topic) :
  same_sort_key k x = true -> same_sort_key k y = true -> topic_le x y = true.
Proof.
  unfold same_sort_key, topic_le, key_lt. intros Hx Hy.
  apply andb_true_iff in Hx. destruct Hx as [Hx1 Hx2].
  apply andb_true_iff in Hy. destruct Hy as [Hy1 Hy2].
  apply Z.eqb_eq in Hx1. apply Z.eqb_eq in Hy1.
  apply Qeq_bool_iff in Hx2. apply Qeq_bool_iff in Hy2.
  replace (fst (sort_key y) =? fst (sort_key x)) with true
    by (symmetry; apply Z.eqb_eq; congruence).
  apply negb_true_iff. apply ltb_false. rewrite Hx2, Hy2. apply Qle_refl.
Qed.

(** For a due row the urgency read off the returned entry is the
    urgency score that the code computed for the row. *)
Lemma urgency_of_due_topic (now : Z) (data : Row) :
  is_due now data = true ->
  (Spec.urgency (due_topic now data) == urgency_score now data)%Q.
Proof.
  unfold is_due, Spec.urgency, urgency_score, due_topic, time_overdue.
  cbn [retention_probability time_overdue_days].
  destruct (row_next_review data) as [next|]; [|discriminate].
  intros H. apply Z.leb_le in H. cbn [Py.get].
  assert (Hd : 0 <= Py.days (now - next)).
  { unfold Py.days, Py.us_per_day. apply Z.div_pos; lia. }
  rewrite Z.max_r by exact Hd. ring.
Qed.

(** C5, refuted as stated: of two critical topics with the same
    retention probability, stored in this order, the one that is three
    days overdue (urgency 1.2) is listed after the one that fell due
    just now (urgency 0.9). *)
Lemma due_topics_not_by_urgency :
  ~ Sorted Spec.before
      (get_topics_due_for_review 0
         [mkRow "A" (Some 0) None (Some 0.9%Q) None None None None;
          mkRow "B" (Some (-3 * Py.us_per_day)) None (Some 0.9%Q) None None None None]
         []).
Proof.
  intros H.
  remember (get_topics_due_for_review _ _ _) as out eqn:E.
  vm_compute in E. subst out.
  inversion H as [|? ? _ Hhd]; subst.
  inversion Hhd as [|? ? Hb]; subst.
  destruct Hb as [Hb|[_ [Hb|[Hb _]]]]; vm_compute in Hb; discriminate.
Qed.

(** C5, amended.  When the user has rows, the list is the due rows
    rendered by [due_topic], ordered by urgency tier (critical, high,
    medium, low); entries with the same sort key keep the order of the
    store, so the order is a total preorder in which the urgency score
    plays no part; and the list depends on the rows and the clock only. *)
Theorem due_topics_sorted_by_tier
    (now : Z) (row : Row) (rows : list Row) (user_topics : list string) :
  let due := map (due_topic now) (filter (is_due now) (row :: rows)) in
  let out := get_topics_due_for_review now (row :: rows) user_topics in
  Permutation out due
  /\ StronglySorted
       (fun x y => urgency_rank (urgency x) <= urgency_rank (urgency y)) out
  /\ (forall k, filter (same_sort_key k) out = filter (same_sort_key k) due)
  /\ (forall other_topics,
         get_topics_due_for_review now (row :: rows) other_topics = out).
Proof.
  cbv zeta. unfold get_topics_due_for_review.
  split; [apply sort_perm|]. split; [|split].
  - apply Sorted_StronglySorted.
    + intros x y z Hxy Hyz. lia.
    + apply Sorted_weaken with (R1 := fun u v => topic_le u v = true).
      * apply topic_le_rank.
      * apply sort_sorted. apply topic_le_total.
  - intros k. apply sort_stable. apply same_sort_key_le.
  - reflexivity.
Qed.

(** The whole key that the list is sorted by. *)
Lemma due_topics_sorted_by_key
    (now : Z) (row : Row) (rows : list Row) (user_topics : list string) :
  Sorted (fun x y => topic_le x y = true)
         (get_topics_due_for_review now (row :: rows) user_topics).
Proof.
  unfold get_topics_due_for_review. apply sort_sorted, topic_le_total.
Qed.

(** Within a tier the entry with the higher retention probability comes
    first: of two critical topics due now, the one with forgetting
    probability 0.85 precedes the one with 0.9. *)
Example higher_retention_listed_first :
  map topic_name
      (get_topics_due_for_review 0
         [mkRow "A" (Some 0) None (Some 0.9%Q) None None None None;
          mkRow "B" (Some 0) None (Some 0.85%Q) None None None None]
         [])
  = ["B"; "A"]%string.
Proof. reflexivity. Qed.

(** ** Sample data *)

Lemma sample_from_names (now i : Z) (l : list string) :
  map topic_name (sample_from now i l) = l.
Proof.
  revert i. induction l as [|t l IH]; intros i; simpl.
  - reflexivity.
  - rewrite IH. reflexivity.
Qed.

Lemma sample_from_length (now i : Z) (l : list string) :
  List.length (sample_from now i l) = List.length l.
Proof.
  rewrite <- (sample_from_names now i l) at 2. symmetry. apply length_map.
Qed.

(** C10.  When the store holds no row for the user the query answers
    with sample topics: the first three of the user's topics, or of the
    five default subjects when the user has none; the list is never
    empty, and each entry carries a retention probability between 0.3
    and 0.9, the tier medium and a next-review instant. *)
Theorem sample_topics_when_no_rows (now : Z) (user_topics : list string) :
  let source :=
    match user_topics with [] => default_sample_topics | _ => user_topics end in
  let out := get_topics_due_for_review now [] user_topics in
  out <> []
  /\ (List.length out <= 3)%nat
  /\ List.length out = Nat.min 3 (List.length source)
  /\ map topic_name out = firstn 3 source
  /\ Forall (fun x =>
               (0.3 <= retention_probability x)%Q
               /\ (retention_probability x <= 0.9)%Q
               /\ urgency x = medium
               /\ exists t, topic_next_review x = Some t) out.
Proof.
  cbv zeta. unfold get_topics_due_for_review, _create_sample_review_data.
  set (source := match user_topics with [] => default_sample_topics | _ => user_topics end).
  assert (Hsrc : exists t rest, source = t :: rest).
  { unfold source. destruct user_topics as [|t rest]; [|eauto].
    unfold default_sample_topics. eauto. }
  assert (Hlen : List.length (firstn 3 (sample_from now 0 source))
                 = Nat.min 3 (List.length source)).
  { rewrite length_firstn, sample_from_length. reflexivity. }
  split; [|split; [|split; [|split]]].
  - destruct Hsrc as (t & rest & ->). discriminate.
  - rewrite Hlen. apply Nat.le_min_l.
  - exact Hlen.
  - rewrite <- firstn_map, sample_from_names. reflexivity.
  - clear Hsrc Hlen.
    assert (Hone : forall i t, 0 <= i <= 2 ->
                (0.3 <= retention_probability (sample_topic now i t))%Q
                /\ (retention_probability (sample_topic now i t) <= 0.9)%Q
                /\ urgency (sample_topic now i t) = medium
                /\ exists n, topic_next_review (sample_topic now i t) = Some n).
    { intros i t Hi.
      assert (Ei : i = 0 \/ i = 1 \/ i = 2) by lia.
      destruct Ei as [ -> | [ -> | -> ] ];
        (split; [vm_compute; discriminate|]);
        (split; [vm_compute; discriminate|]);
        (split; [reflexivity|]); eexists; reflexivity. }
    destruct source as [|a [|b [|c l]]]; cbn [sample_from firstn Z.add Pos.add Pos.succ];
      repeat (apply Forall_cons; [apply Hone; lia|]); apply Forall_nil.
Qed.

End DueFacts.

(* ================================================================== *)
(** * SpacedRepetitionEngine: the forgetting curve *)
(* ================================================================== *)

Section DecayFacts.
Import SpacedRepetitionEngine.

Local Open Scope R_scope.

Lemma strength_pos (interval_days : Z) :
  (0 < interval_days)%Z -> 0 < strength interval_days.
Proof.
  intros H. unfold strength. apply IZR_lt in H. lra.
Qed.

Lemma strength_nonpos (interval_days : Z) :
  (interval_days <= 0)%Z -> ~ 0 < strength interval_days.
Proof.
  intros H. unfold strength. apply IZR_le in H. lra.
Qed.

Lemma retention_of_positive_interval (days_since_review interval_days : Z) :
  (0 < interval_days)%Z ->
  retention days_since_review interval_days
  = exp (- (IZR days_since_review / IZR interval_days) / strength interval_days).
Proof.
  intros H. unfold retention, time_ratio.
  destruct (Rlt_dec 0 (strength interval_days)) as [_|Hn].
  - apply Z.ltb_lt in H. rewrite H. reflexivity.
  - exfalso. apply Hn, strength_pos, H.
Qed.

Lemma retention_of_nonpositive_interval (days_since_review interval_days : Z) :
  (interval_days <= 0)%Z -> retention days_since_review interval_days = 0.
Proof.
  intros H. unfold retention.
  destruct (Rlt_dec 0 (strength interval_days)) as [Hp|_]; [|reflexivity].
  exfalso. exact (strength_nonpos interval_days H Hp).
Qed.

(** The exponent is the elapsed days times a negative constant. *)
Lemma exponent_linear (d i : Z) :
  (0 < i)%Z ->
  - (IZR d / IZR i) / strength i = - IZR d * (/ IZR i * / strength i).
Proof.
  intros H. unfold Rdiv. ring.
Qed.

Lemma exponent_slope_pos (i : Z) : (0 < i)%Z -> 0 < / IZR i * / strength i.
Proof.
  intros H. apply Rmult_lt_0_compat; apply Rinv_0_lt_compat.
  - apply IZR_lt in H. exact H.
  - apply strength_pos, H.
Qed.

Lemma exp_nonpos_le_1 (x : R) : x <= 0 -> exp x <= 1.
Proof.
  intros [H|H].
  - left. rewrite <- exp_0. apply exp_increasing, H.
  - right. rewrite H. apply exp_0.
Qed.

Lemma retention_le_1 (d i : Z) : (0 <= d)%Z -> retention d i <= 1.
Proof.
  intros Hd. destruct (Z_lt_le_dec 0 i) as [Hi|Hi].
  - rewrite (retention_of_positive_interval d i Hi), (exponent_linear d i Hi).
    apply exp_nonpos_le_1.
    pose proof (exponent_slope_pos i Hi) as Hc. apply IZR_le in Hd. nra.
  - rewrite (retention_of_nonpositive_interval d i Hi). lra.
Qed.

Lemma forgetting_unclamped (d i : Z) :
  (0 <= d)%Z -> forgetting_of_days d i = 1 - retention d i.
Proof.
  intros Hd. unfold forgetting_of_days. apply Rmax_right.
  pose proof (retention_le_1 d i Hd). lra.
Qed.

(** ** The curve of the simulation *)

Lemma Q2R_inject_Z (z : Z) : Q2R (inject_Z z) = IZR z.
Proof.
  unfold Q2R, inject_Z. cbn. rewrite Rinv_1. ring.
Qed.

(** Over the ranges that the simulation draws from, and on the states it
    reaches, the floor of 0.1 on S is idle. *)
Lemma generator_strength_above_floor
    (state : GenerateData.State) (memory_strength base_difficulty : Q) :
  (0 <= GenerateData.repetitions state)%Z ->
  (1.3 <= GenerateData.ease_factor state)%Q ->
  (0.5 <= memory_strength)%Q ->
  (0.5 <= base_difficulty)%Q ->
  (base_difficulty <= 1.5)%Q ->
  (0.1 <= GenerateData.strength_S state memory_strength base_difficulty)%Q.
Proof.
  intros Hr He Hm Hd1 Hd2. unfold GenerateData.strength_S.
  apply Qle_shift_div_l; [Lqa.lra|].
  assert (Ha : (1 <= inject_Z (GenerateData.repetitions state + 1))%Q).
  { change 1%Q with (inject_Z 1). rewrite <- Zle_Qle. lia. }
  set (a := inject_Z (GenerateData.repetitions state + 1)) in *.
  set (e := GenerateData.ease_factor state) in *.
  assert (H1 : (1.3 <= a * e)%Q).
  { apply Qle_trans with (1 * e)%Q; [Lqa.lra|].
    apply Qmult_le_compat_r; [exact Ha | Lqa.lra]. }
  apply Qle_trans with (1.3 * 0.5)%Q; [Lqa.lra|].
  apply Qle_trans with (a * e * 0.5)%Q.
  - apply Qmult_le_compat_r; [exact H1 | discriminate].
  - rewrite (Qmult_comm (a * e) 0.5), (Qmult_comm (a * e) memory_strength).
    apply Qmult_le_compat_r; [exact Hm | Lqa.lra].
Qed.

(** The states of the simulation keep a repetition count that is not
    negative and an ease factor of at least 1.3. *)
Lemma generator_state_invariant
    (now days_ago : Z) (recalled_correctly : bool) (state : GenerateData.State) :
  ((0 <= GenerateData.repetitions (GenerateData.initial_state now days_ago))%Z
   /\ (1.3 <= GenerateData.ease_factor (GenerateData.initial_state now days_ago))%Q)
  /\ ((0 <= GenerateData.repetitions state)%Z ->
      (0 <= GenerateData.repetitions
              (GenerateData.update_state now recalled_correctly state))%Z
      /\ (1.3 <= GenerateData.ease_factor
                   (GenerateData.update_state now recalled_correctly state))%Q).
Proof.
  split.
  - split; [cbn; lia | cbn; discriminate].
  - intros Hr. destruct recalled_correctly; cbn; split;
      try lia; apply Q.le_max_l.
Qed.

(** The probability of recall of the simulation is the retention of the
    specification, with the strength of the specification. *)
Lemma generator_recall_probability
    (t : Z) (state : GenerateData.State) (memory_strength base_difficulty : Q) :
  (0 <= GenerateData.repetitions state)%Z ->
  (1.3 <= GenerateData.ease_factor state)%Q ->
  (0.5 <= memory_strength)%Q ->
  (0.5 <= base_difficulty)%Q ->
  (base_difficulty <= 1.5)%Q ->
  GenerateData.prob_recall
    t (GenerateData.strength_S state memory_strength base_difficulty)
  = Spec.retention
      t (Spec.memory_strength
           (GenerateData.repetitions state)
           (Q2R (GenerateData.ease_factor state))
           (Q2R memory_strength) (Q2R base_difficulty)).
Proof.
  intros Hr He Hm Hd1 Hd2.
  pose proof (generator_strength_above_floor state memory_strength base_difficulty
                Hr He Hm Hd1 Hd2) as Hfloor.
  unfold GenerateData.prob_recall, Spec.retention, Spec.memory_strength.
  assert (Hmax : (Qmax 0.1 (GenerateData.strength_S state memory_strength base_difficulty)
                  == GenerateData.strength_S state memory_strength base_difficulty)%Q)
    by (apply Q.max_r; exact Hfloor).
  rewrite (Qeq_eqR _ _ Hmax).
  assert (Hd : Rmax (Q2R base_difficulty) 0.1 = Q2R base_difficulty).
  { apply Rmax_left. apply Qle_Rle in Hd1.
    unfold Q2R at 1 in Hd1. cbn in Hd1. lra. }
  rewrite Hd. unfold GenerateData.strength_S.
  rewrite Q2R_div by (intros H0; Lqa.lra).
  rewrite !Q2R_mult, Q2R_inject_Z, plus_IZR, opp_IZR. reflexivity.
Qed.

(** C6, refuted as stated: the engine's retention one day after a
    review with a one-day interval is the same whatever the repetition
    count, so for no memory coefficient and no topic difficulty is it
    the retention of the specification at both 0 and 1 repetitions (ease
    factor 2.5). *)
Lemma retention_is_not_the_specified_one :
  ~ exists user_memory_coefficient topic_difficulty : R,
      forall repetitions : Z,
        (0 <= repetitions)%Z ->
        retention 1 1
        = Spec.retention
            1 (Spec.memory_strength
                 repetitions 2.5 user_memory_coefficient topic_difficulty).
Proof.
  intros (m & d & H).
  pose proof (H 0%Z ltac:(lia)) as H0. pose proof (H 1%Z ltac:(lia)) as H1.
  rewrite (retention_of_positive_interval 1 1) in H0, H1 by lia.
  unfold Spec.retention, Spec.memory_strength, strength in H0, H1.
  apply exp_inv in H0. apply exp_inv in H1.
  set (x := 2.5 * m * / Rmax d 0.1) in *.
  assert (E0 : (0 + 1) * 2.5 * m / Rmax d 0.1 = x) by (unfold x, Rdiv; ring).
  assert (E1 : (1 + 1) * 2.5 * m / Rmax d 0.1 = 2 * x) by (unfold x, Rdiv; ring).
  rewrite E0 in H0. rewrite E1 in H1.
  unfold Rdiv in H0, H1. rewrite (Rinv_mult 2 x) in H1. lra.
Qed.

Lemma engine_forgetting_curve (now last_review : Z) (t interval_days : Z) :
  t = Py.days (now - last_review) ->
  _calculate_forgetting_probability now last_review interval_days
    = Rmax 0 (1 - retention t interval_days)
  /\ calculate_forgetting_probability now last_review interval_days
     = _calculate_forgetting_probability now last_review interval_days
  /\ ((0 < interval_days)%Z ->
      strength interval_days = IZR interval_days * 0.5
      /\ retention t interval_days
         = exp (- (IZR t / IZR interval_days) / strength interval_days)
      /\ ((0 <= t)%Z ->
          _calculate_forgetting_probability now last_review interval_days
          = 1 - retention t interval_days))
  /\ ((interval_days <= 0)%Z ->
      retention t interval_days = 0
      /\ _calculate_forgetting_probability now last_review interval_days = 1).
Proof.
  intros ->. unfold calculate_forgetting_probability, _calculate_forgetting_probability.
  split; [reflexivity|]. split; [reflexivity|]. split.
  - intros Hi. split; [reflexivity|]. split.
    + apply retention_of_positive_interval, Hi.
    + apply forgetting_unclamped.
  - intros Hi. split.
    + apply retention_of_nonpositive_interval, Hi.
    + unfold forgetting_of_days.
      rewrite (retention_of_nonpositive_interval _ _ Hi).
      rewrite Rmax_right by lra. ring.
Qed.

(** C6, amended.  The simulation of [generate_data.py] takes the
    probability of recall as retention = exp(-t / max(0.1, S)) with
    S = (repetitions+1) x ease_factor x memory_strength / base_difficulty;
    over the ranges it draws from and on the states it reaches
    S >= 0.1, so that this is the retention exp(-t / S) of the
    specification.  The forgetting probability is computed by the
    engine alone, as max(0, 1 - retention) from the elapsed whole days
    and the interval: for a positive interval the strength is
    0.5 * interval_days and retention = exp(-(t / interval_days) / strength),
    the clamp being idle when t >= 0; for an interval that is not
    positive retention is 0 and the forgetting probability 1. *)
Theorem forgetting_curve
    (now last_review : Z) (t interval_days : Z)
    (state : GenerateData.State) (memory_strength base_difficulty : Q) :
  t = Py.days (now - last_review) ->
  ((0 <= GenerateData.repetitions state)%Z ->
   (1.3 <= GenerateData.ease_factor state)%Q ->
   (0.5 <= memory_strength)%Q ->
   (0.5 <= base_difficulty)%Q ->
   (base_difficulty <= 1.5)%Q ->
   (0.1 <= GenerateData.strength_S state memory_strength base_difficulty)%Q
   /\ GenerateData.prob_recall
        t (GenerateData.strength_S state memory_strength base_difficulty)
      = Spec.retention
          t (Spec.memory_strength
               (GenerateData.repetitions state)
               (Q2R (GenerateData.ease_factor state))
               (Q2R memory_strength) (Q2R base_difficulty)))
  /\ GenerateData.prob_recall
       t (GenerateData.strength_S state memory_strength base_difficulty)
     = exp (- IZR t
            / Q2R (Qmax 0.1 (GenerateData.strength_S
                               state memory_strength base_difficulty)))
  /\ _calculate_forgetting_probability now last_review interval_days
     = Rmax 0 (1 - retention t interval_days)
  /\ calculate_forgetting_probability now last_review interval_days
     = _calculate_forgetting_probability now last_review interval_days
  /\ ((0 < interval_days)%Z ->
      strength interval_days = IZR interval_days * 0.5
      /\ retention t interval_days
         = exp (- (IZR t / IZR interval_days) / strength interval_days)
      /\ ((0 <= t)%Z ->
          _calculate_forgetting_probability now last_review interval_days
          = 1 - retention t interval_days))
  /\ ((interval_days <= 0)%Z ->
      retention t interval_days = 0
      /\ _calculate_forgetting_probability now last_review interval_days = 1).
Proof.
  intros Ht. split; [|split].
  - intros Hr He Hm Hd1 Hd2. split.
    + apply generator_strength_above_floor; assumption.
    + apply generator_recall_probability; assumption.
  - unfold GenerateData.prob_recall. rewrite opp_IZR. reflexivity.
  - exact (engine_forgetting_curve now last_review t interval_days Ht).
Qed.

Lemma forgetting_curve_witness :
  retention 2 3 = exp (- (2 / 3) / (3 * 0.5))
  /\ _calculate_forgetting_probability (2 * Py.us_per_day) 0 3 = 1 - retention 2 3
  /\ GenerateData.prob_recall
       2 (GenerateData.strength_S (GenerateData.mkState 1 2.6 0) 1 0.5)
     = Spec.retention 2 (Spec.memory_strength 1 (Q2R 2.6) (Q2R 1) (Q2R 0.5)).
Proof.
  destruct (forgetting_curve (2 * Py.us_per_day) 0 2 3
              (GenerateData.mkState 1 2.6 0) 1 0.5 eq_refl)
    as (Hgen & _ & _ & _ & Hpos & _).
  destruct (Hpos ltac:(lia)) as (_ & Hret & Hclamp).
  split; [exact Hret|]. split; [apply Hclamp; lia|].
  apply Hgen; cbn; try lia; discriminate.
Defined.

(** The probability that [calculate_next_review_body] stores is that of day
    0, which is 0. *)
Lemma forgetting_of_day_0 (now : Z) (interval_days : Z) :
  (0 < interval_days)%Z ->
  _calculate_forgetting_probability now now interval_days = 0.
Proof.
  intros Hi. unfold _calculate_forgetting_probability.
  rewrite Z.sub_diag. change (Py.days 0) with 0%Z.
  rewrite forgetting_unclamped by lia.
  rewrite retention_of_positive_interval by exact Hi.
  replace (- (0 / IZR interval_days) / strength interval_days) with 0.
  - rewrite exp_0. ring.
  - unfold Rdiv. ring.
Qed.

End DecayFacts.

(* ================================================================== *)
(** * StudyPlanGenerator: the daily budget *)
(* ================================================================== *)

Section PlanFacts.
Import StudyPlanGenerator.

Local Open Scope Z_scope.

Local Abbreviation zsum := (fold_right Z.add 0).

Lemma zsum_perm (l1 l2 : list Z) : Permutation l1 l2 -> zsum l1 = zsum l2.
Proof.
  induction 1; simpl; lia.
Qed.

(** *** One day of [_generate_study_blocks] *)

Section OneDay.
Variables (preferences : UserPreferences) (analytics : Analytics).
Variables (day day_date : Z).

(** The blocks of a day and the breaks between them fit in the time
    that was left when the day's loop started. *)
Lemma daily_blocks_budget (prioritized_topics : list (string * Q)) :
  forall remaining_time session_count,
    let blocks :=
      daily_blocks preferences analytics day day_date prioritized_topics
                   remaining_time session_count in
    blocks <> [] ->
    zsum (map duration_minutes blocks)
    + break_duration preferences * (Z.of_nat (List.length blocks) - 1)
    <= remaining_time.
Proof.
  induction prioritized_topics as [|[topic priority] rest IH];
    intros remaining_time session_count; cbn [daily_blocks].
  - intros H. contradiction.
  - destruct ((remaining_time <=? 0)
              || (max_sessions_per_day preferences <=? session_count))%bool.
    + intros H. contradiction.
    + set (session_duration :=
             Z.min (Z.min (preferred_session_length preferences) remaining_time)
                   (_calculate_optimal_duration topic analytics)).
      destruct (session_duration <? 10).
      * apply IH.
      * intros _. cbn [map fold_right List.length duration_minutes].
        specialize (IH (remaining_time
                        - (session_duration + break_duration preferences))
                       (session_count + 1)).
        cbv zeta in IH.
        destruct (daily_blocks preferences analytics day day_date rest
                    (remaining_time
                     - (session_duration + break_duration preferences))
                    (session_count + 1)) as [|b bs] eqn:E.
        -- cbn. lia.
        -- specialize (IH ltac:(discriminate)).
           rewrite Nat2Z.inj_succ.
           assert (session_duration <= remaining_time) by lia.
           lia.
Qed.

Lemma daily_blocks_scheduled_time (prioritized_topics : list (string * Q)) :
  forall remaining_time session_count,
    Forall (fun b => scheduled_time b = day_date)
           (daily_blocks preferences analytics day day_date prioritized_topics
                         remaining_time session_count).
Proof.
  induction prioritized_topics as [|[topic priority] rest IH];
    intros remaining_time session_count; cbn [daily_blocks].
  - constructor.
  - destruct ((remaining_time <=? 0)
              || (max_sessions_per_day preferences <=? session_count))%bool;
      [constructor|].
    destruct (_ <? 10); [apply IH|].
    constructor; [reflexivity | apply IH].
Qed.
End OneDay.

(** *** Grouping by day *)

Local Abbreviation step :=
  (fun blocks_by_day block =>
     add_block (day_key (scheduled_time block)) block blocks_by_day).

Lemma add_block_fresh (key : Z) (b : StudyBlock) (m : list (Z * list StudyBlock)) :
  ~ In key (map fst m) -> add_block key b m = m ++ [(key, [b])].
Proof.
  induction m as [|[k bs] m IH]; simpl; intros H.
  - reflexivity.
  - destruct (key =? k) eqn:E.
    + apply Z.eqb_eq in E. exfalso. apply H. left. congruence.
    + rewrite IH; [reflexivity|]. intros Hin. apply H. right. exact Hin.
Qed.

Lemma add_block_last (key : Z) (b : StudyBlock) (bs : list StudyBlock)
    (m : list (Z * list StudyBlock)) :
  ~ In key (map fst m) ->
  add_block key b (m ++ [(key, bs)]) = m ++ [(key, bs ++ [b])].
Proof.
  induction m as [|[k bs'] m IH]; simpl; intros H.
  - rewrite Z.eqb_refl. reflexivity.
  - destruct (key =? k) eqn:E.
    + apply Z.eqb_eq in E. exfalso. apply H. left. congruence.
    + rewrite IH; [reflexivity|]. intros Hin. apply H. right. exact Hin.
Qed.

Lemma group_more_of_a_day (key : Z) (m : list (Z * list StudyBlock))
    (blocks : list StudyBlock) :
  ~ In key (map fst m) ->
  Forall (fun b => day_key (scheduled_time b) = key) blocks ->
  forall bs0,
    fold_left step blocks (m ++ [(key, bs0)]) = m ++ [(key, bs0 ++ blocks)].
Proof.
  intros Hm. induction 1 as [|b blocks Hb _ IH]; intros bs0; simpl.
  - rewrite app_nil_r. reflexivity.
  - rewrite Hb, (add_block_last key b bs0 m Hm), IH, <- app_assoc. reflexivity.
Qed.

Lemma group_a_day (key : Z) (m : list (Z * list StudyBlock))
    (blocks : list StudyBlock) :
  ~ In key (map fst m) ->
  Forall (fun b => day_key (scheduled_time b) = key) blocks ->
  fold_left step blocks m
  = m ++ match blocks with [] => [] | _ => [(key, blocks)] end.
Proof.
  intros Hm Hall. destruct Hall as [|b blocks Hb Hall]; simpl.
  - rewrite app_nil_r. reflexivity.
  - rewrite Hb, (add_block_fresh key b m Hm).
    apply (group_more_of_a_day key m blocks Hm Hall [b]).
Qed.

Lemma group_days (key_of : Z -> Z) (blocks_of : Z -> list StudyBlock)
    (days : list Z) :
  (forall d, Forall (fun b => day_key (scheduled_time b) = key_of d) (blocks_of d)) ->
  NoDup (map key_of days) ->
  forall m,
    (forall d, In d days -> ~ In (key_of d) (map fst m)) ->
    fold_left step (flat_map blocks_of days) m
    = m ++ flat_map (fun d => match blocks_of d with
                              | [] => []
                              | blocks => [(key_of d, blocks)]
                              end) days.
Proof.
  intros Hkey. induction days as [|d days IH]; intros Hnd m Hm; simpl.
  - rewrite app_nil_r. reflexivity.
  - inversion Hnd as [|? ? Hd Hnd']; subst.
    rewrite fold_left_app.
    rewrite (group_a_day (key_of d) m (blocks_of d)
               (Hm d (or_introl eq_refl)) (Hkey d)).
    rewrite (IH Hnd').
    + rewrite <- app_assoc. destruct (blocks_of d); reflexivity.
    + intros d' Hd' Hin. rewrite map_app, in_app_iff in Hin.
      destruct Hin as [Hin|Hin].
      * exact (Hm d' (or_intror Hd') Hin).
      * destruct (blocks_of d); simpl in Hin; [contradiction|].
        destruct Hin as [Hin|[]]. apply Hd. rewrite Hin.
        apply in_map. exact Hd'.
Qed.

Lemma day_key_of_day (now day : Z) :
  day_key (midnight now + Py.timedelta_days day) = now / Py.us_per_day + day.
Proof.
  unfold day_key, midnight, Py.timedelta_days.
  rewrite <- Z.mul_add_distr_r. apply Z.div_mul. discriminate.
Qed.

Lemma range_NoDup (n : Z) : NoDup (range n).
Proof.
  unfold range. apply Finite.Injective_map_NoDup.
  - intros x y. apply Nat2Z.inj.
  - apply seq_NoDup.
Qed.

(** The days of the plan are the days that received a block, each
    with exactly the blocks generated for it. *)
Lemma group_generated_blocks
    (now : Z) (prioritized_topics : list (string * Q))
    (preferences : UserPreferences) (available_days : Z) (analytics : Analytics) :
  group_by_day
    (_generate_study_blocks now prioritized_topics preferences available_days analytics)
  = flat_map
      (fun day =>
         match blocks_of_day now prioritized_topics preferences analytics day with
         | [] => []
         | blocks => [(now / Py.us_per_day + day, blocks)]
         end)
      (range available_days).
Proof.
  unfold group_by_day, _generate_study_blocks.
  rewrite (group_days (fun day => now / Py.us_per_day + day)
             (blocks_of_day now prioritized_topics preferences analytics)).
  - reflexivity.
  - intros d. unfold blocks_of_day.
    eapply Forall_impl; [|apply daily_blocks_scheduled_time].
    intros b ->. apply day_key_of_day.
  - apply Finite.Injective_map_NoDup; [|apply range_NoDup].
    intros x y. lia.
  - intros d _ [].
Qed.

(** *** Scheduling a day *)

Lemma schedule_sessions_shape (preferences : UserPreferences)
    (sorted_blocks : list StudyBlock) :
  forall current_time sessions,
    schedule_sessions preferences current_time sorted_blocks = Some sessions ->
    map s_duration_minutes sessions = map duration_minutes sorted_blocks
    /\ map break_after sessions
       = map (fun _ => break_duration preferences) sorted_blocks.
Proof.
  induction sorted_blocks as [|block rest IH]; intros current_time sessions;
    cbn [schedule_sessions].
  - intros H. injection H as <-. split; reflexivity.
  - destruct (_find_optimal_time_slot current_time block preferences)
      as [optimal_time|]; [|discriminate].
    destruct (schedule_sessions preferences _ rest) as [scheduled|] eqn:E;
      [|discriminate].
    intros H. injection H as <-.
    destruct (IH _ _ E) as [Hd Hb]. cbn. rewrite Hd, Hb. split; reflexivity.
Qed.

Lemma zsum_constant {A : Type} (c : Z) (l : list A) :
  zsum (map (fun _ => c) l) = c * Z.of_nat (List.length l).
Proof.
  induction l as [|x l IH]; cbn [map fold_right List.length].
  - lia.
  - rewrite IH, Nat2Z.inj_succ. lia.
Qed.

Lemma removelast_map {A B : Type} (f : A -> B) (l : list A) :
  removelast (map f l) = map f (removelast l).
Proof.
  induction l as [|x [|y l] IH]; try reflexivity.
  cbn [map removelast] in *. rewrite IH. reflexivity.
Qed.

Lemma removelast_length {A : Type} (l : list A) :
  Z.of_nat (List.length (removelast l)) = Z.max 0 (Z.of_nat (List.length l) - 1).
Proof.
  induction l as [|x [|y l] IH]; try reflexivity.
  cbn [removelast List.length] in *. lia.
Qed.

(** The minutes of a scheduled day are those of its blocks and of the
    breaks between them. *)
Lemma optimized_day_minutes
    (now : Z) (blocks : list StudyBlock) (preferences : UserPreferences)
    (sessions : list Session) :
  _optimize_daily_schedule now blocks preferences = Some sessions ->
  blocks <> [] ->
  Spec.scheduled_minutes sessions
  = zsum (map duration_minutes blocks)
    + break_duration preferences * (Z.of_nat (List.length blocks) - 1).
Proof.
  unfold _optimize_daily_schedule. intros H Hne.
  destruct (peak_hours preferences) as [|first_peak ?]; [discriminate|].
  destruct (replace_hour_sharp now first_peak) as [current_time|]; [|discriminate].
  destruct (schedule_sessions_shape _ _ _ _ H) as [Hd Hb].
  unfold Spec.scheduled_minutes.
  rewrite <- removelast_map, Hb, Hd, removelast_map, zsum_constant,
    removelast_length, sort_length.
  rewrite (zsum_perm _ _ (Permutation_map duration_minutes (sort_perm block_le blocks))).
  destruct blocks; [contradiction|]. cbn [List.length].
  rewrite Z.max_r by lia. reflexivity.
Qed.

Lemma optimize_days_member
    (now : Z) (preferences : UserPreferences)
    (blocks_by_day : list (Z * list StudyBlock)) :
  forall schedule key sessions,
    optimize_days now preferences blocks_by_day = Some schedule ->
    In (key, sessions) schedule ->
    exists day_blocks,
      In (key, day_blocks) blocks_by_day
      /\ _optimize_daily_schedule now day_blocks preferences = Some sessions.
Proof.
  induction blocks_by_day as [|[k day_blocks] others IH];
    intros schedule key sessions; cbn [optimize_days].
  - intros H. injection H as <-. intros [].
  - destruct (_optimize_daily_schedule now day_blocks preferences)
      as [optimized_day|] eqn:E1; [|discriminate].
    destruct (optimize_days now preferences others) as [rest|] eqn:E2;
      [|discriminate].
    intros H. injection H as <-. intros [Hin|Hin].
    + injection Hin as <- <-. exists day_blocks. split; [left; reflexivity | exact E1].
    + destruct (IH _ _ _ eq_refl Hin) as (bs & Hbs & Hopt).
      exists bs. split; [right; exact Hbs | exact Hopt].
Qed.

(** C4.  In every plan that [generate_personalized_study_plan]
    returns, the sessions of each scheduled day together with the
    breaks between them take no more minutes than the daily study time
    of the preferences in force. *)
Theorem schedule_within_daily_budget
    (now : Z) (profile : option Profile) (analytics : Analytics)
    (quiz_results : list QuizRow) (topics : list string) (target_date : Z)
    (preferences : option UserPreferences) (plan : StudyPlan) :
  generate_personalized_study_plan
    now profile analytics quiz_results topics target_date preferences = Some plan ->
  forall key sessions,
    In (key, sessions) (daily_sessions plan) ->
    Spec.scheduled_minutes sessions
    <= daily_study_time (match preferences with
                         | Some p => p
                         | None => _get_user_preferences profile
                         end).
Proof.
  unfold generate_personalized_study_plan, _optimize_schedule.
  set (prefs := match preferences with
                | Some p => p
                | None => _get_user_preferences profile
                end).
  rewrite group_generated_blocks.
  destruct (optimize_days now prefs _) as [schedule|] eqn:E; [|discriminate].
  intros H key sessions Hin. injection H as <-. cbn [daily_sessions] in Hin.
  destruct (optimize_days_member _ _ _ _ _ _ E Hin) as (day_blocks & Hday & Hopt).
  apply in_flat_map in Hday. destruct Hday as (day & _ & Hday).
  destruct (blocks_of_day now _ prefs analytics day) as [|b bs] eqn:Eb;
    [contradiction|].
  destruct Hday as [Hday|[]]. injection Hday as _ <-.
  rewrite (optimized_day_minutes now (b :: bs) prefs sessions Hopt)
    by discriminate.
  rewrite <- Eb. unfold blocks_of_day.
  apply daily_blocks_budget.
  fold (blocks_of_day now (_prioritize_topics quiz_results topics analytics)
          prefs analytics day).
  rewrite Eb. discriminate.
Qed.

Lemma schedule_within_daily_budget_witness :
  exists plan,
    generate_personalized_study_plan
      1000 None _default_learning_analytics []
      ["Physics"; "History"; "Algebra"; "Art"; "Biology"]%string
      (2 * Py.us_per_day + 5000) None = Some plan
    /\ List.length (daily_sessions plan) = 2%nat
    /\ Forall (fun day => Spec.scheduled_minutes (snd day) <= 120)
              (daily_sessions plan).
Proof.
  destruct (generate_personalized_study_plan _ _ _ _ _ _ _) as [plan|] eqn:Hplan;
    [|vm_compute in Hplan; discriminate].
  exists plan. split; [reflexivity|].
  pose proof (schedule_within_daily_budget _ _ _ _ _ _ _ _ Hplan) as Hbudget.
  vm_compute in Hplan. injection Hplan as <-.
  split; [reflexivity|].
  apply Forall_forall. intros [key sessions] Hin.
  exact (Hbudget key sessions Hin).
Defined.

(** Counting the break after the last session as well, a day can exceed
    the budget: with 100 minutes a day the four sessions last 25, 25, 25
    and 10 minutes, which is 100 minutes with the three breaks between
    them and 105 with a fourth. *)
Example trailing_break_exceeds_budget :
  option_map
    (fun plan =>
       map (fun day =>
              (map s_duration_minutes (snd day),
               Spec.scheduled_minutes (snd day),
               fold_right Z.add 0 (map s_duration_minutes (snd day))
               + fold_right Z.add 0 (map break_after (snd day))))
           (daily_sessions plan))
    (generate_personalized_study_plan
       1000 None _default_learning_analytics []
       ["History"; "Algebra"; "Art"; "Biology"]%string
       (Py.us_per_day + 5000)
       (Some (mkUserPreferences 100 25 5 default_peak_hours "medium" "visual" 6)))
  = Some [([25; 25; 25; 10], 100, 105)].
Proof. vm_compute. reflexivity. Qed.

(** *** A target date in the past *)






End PlanFacts.

(* ================================================================== *)
(** * SpacedRepetitionEngine: what a review keeps *)
(* ================================================================== *)

Section ReviewInvariants.
Import SpacedRepetitionEngine.
Import Scenario.

Local Open Scope Z_scope.

Lemma index_out_of_range {A : Type} (l : list A) (i : Z) :
  i < - Z.of_nat (List.length l) \/ Z.of_nat (List.length l) <= i ->
  Py.index l i = None.
Proof.
  intros H. unfold Py.index.
  destruct ((0 <=? i) && (i <? Z.of_nat (List.length l)))%bool eqn:E1.
  - apply andb_true_iff in E1. destruct E1 as [E1 E2].
    apply Z.leb_le in E1. apply Z.ltb_lt in E2. lia.
  - destruct ((- Z.of_nat (List.length l) <=? i) && (i <? 0))%bool eqn:E2;
      [|reflexivity].
    apply andb_true_iff in E2. destruct E2 as [E2 E3].
    apply Z.leb_le in E2. apply Z.ltb_lt in E3. lia.
Qed.

Lemma index_In {A : Type} (l : list A) (i : Z) (x : A) :
  Py.index l i = Some x -> In x l.
Proof.
  unfold Py.index.
  destruct ((0 <=? i) && (i <? Z.of_nat (List.length l)))%bool.
  - apply nth_error_In.
  - destruct ((- Z.of_nat (List.length l) <=? i) && (i <? 0))%bool;
      [apply nth_error_In | discriminate].
Qed.

(** X1.  [calculate_next_review_body] raises (IndexError on the interval table)
    exactly when the stored level is below -7; the levels -7 .. -1 are
    accepted and index the table from its end. *)
Theorem calculate_next_review_raises_iff
    (now : Z) (stored : option SRData) (performance_score : Q) (difficulty : string) :
  calculate_next_review_body now stored performance_score difficulty = None
  <-> level_of stored < -7.
Proof.
  split.
  - intros H. destruct (Z_lt_le_dec (level_of stored) (-7)) as [Hl|Hl]; [exact Hl|].
    destruct (calculate_next_review_returns now stored performance_score difficulty Hl)
      as (result & row & Hcall).
    congruence.
  - intros Hl. unfold calculate_next_review_body.
    rewrite index_out_of_range; [reflexivity|].
    rewrite INTERVALS_length. left. unfold level_of in Hl.
    destruct stored; cbn in *; lia.
Qed.

Lemma INTERVALS_bounds (key : string) (c : Z) :
  In c (INTERVALS key) -> 1 <= c <= 365.
Proof.
  intros H.
  destruct (INTERVALS_cases key) as [E|[E|E]]; rewrite E in H; simpl in H;
    repeat (destruct H as [<-|H]; [lia|]); contradiction.
Qed.

Lemma interval_adjustment_cases (current_score avg_score : Q) :
  let m := _calculate_interval_adjustment current_score avg_score in
  m = 1.5%Q \/ m = 1.2%Q \/ m = 1.0%Q \/ m = 0.7%Q \/ m = 0.5%Q.
Proof.
  cbv zeta. unfold _calculate_interval_adjustment.
  destruct (Py.geb current_score EXCELLENT); [auto|].
  destruct (Py.geb current_score GOOD); [auto|].
  destruct (Py.geb current_score FAIR); [auto|].
  destruct (Py.geb current_score POOR); auto 6.
Qed.

(** X2.  Whenever [calculate_next_review_body] returns, the interval lies between
    1 and 547 days: the largest table entry, 365, times the largest
    multiplier, 1.5, truncated. *)
Theorem calculate_next_review_interval_bounds
    (now : Z) (stored : option SRData) (performance_score : Q) (difficulty : string)
    (result : ReviewResult) (row : SRData) :
  calculate_next_review_body now stored performance_score difficulty = Some (result, row) ->
  1 <= res_interval_days result <= 547.
Proof.
  intros H. destruct (calculate_next_review_fields _ _ _ _ _ _ H)
    as (c & Hc & Hint & _).
  apply index_In, INTERVALS_bounds in Hc. rewrite Hint.
  split; [lia|]. apply Z.max_lub; [lia|].
  destruct (interval_adjustment_cases (performance_score / 100)
              (Py.mean (history_of stored ++ [performance_score])))
    as [E|[E|[E|[E|E]]]]; rewrite E; unfold Py.int; cbn;
    rewrite ?Z.mul_1_r; apply Z.lt_succ_r;
    apply Z.quot_lt_upper_bound; lia.
Qed.

Lemma calculate_next_review_interval_bounds_witness :
  exists result row,
    calculate_next_review_body 0 (Scenario.final_row 0 "easy" [95; 95; 95; 95; 95]%Q)
                          95 "easy" = Some (result, row)
    /\ 1 <= res_interval_days result <= 547.
Proof.
  destruct (calculate_next_review_body 0 _ 95 "easy") as [[result row]|] eqn:Hcall;
    [|exfalso; revert Hcall; lazy -[_calculate_forgetting_probability]; discriminate].
  exists result, row. split; [reflexivity|].
  exact (calculate_next_review_interval_bounds _ _ _ _ _ _ Hcall).
Defined.

(** The stored row after a review. *)
Lemma calculate_next_review_row
    (now : Z) (stored : option SRData) (performance_score : Q) (difficulty : string)
    (result : ReviewResult) (row : SRData) :
  calculate_next_review_body now stored performance_score difficulty = Some (result, row) ->
  level_of (Some row)
  = (if Py.geb (performance_score / 100) GOOD && (level_of stored <? 6)
     then level_of stored + 1 else level_of stored)
  /\ performance_history row = Some (history_of stored ++ [performance_score])
  /\ last_review row = Some now
  /\ next_review row = Some (now + Py.timedelta_days (res_interval_days result))
  /\ res_next_review result = now + Py.timedelta_days (res_interval_days result)
  /\ forgetting_probability row = Some (res_forgetting_probability result)
  /\ res_forgetting_probability result
     = _calculate_forgetting_probability now now (res_interval_days result).
Proof.
  unfold calculate_next_review_body, level_of, history_of.
  rewrite INTERVALS_length. change (Z.of_nat 7 - 1) with 6.
  intros H.
  destruct stored as [d|]; cbn [new_sr_data interval_days repetitions ease_factor
                                 performance_history Py.get] in *.
  - destruct (Py.index _ _) as [c|]; [|discriminate].
    injection H as <- <-. cbn.
    split; [|destruct d as [? ? ? ? ? [[|? ?]|] ?]; cbn; repeat split; reflexivity].
    destruct (Py.geb (performance_score / 100) GOOD
              && (Py.get (interval_days d) 1 <? 6))%bool; reflexivity.
  - destruct (Py.index _ _) as [c|]; [|discriminate].
    injection H as <- <-. cbn.
    split; [|repeat split; reflexivity].
    destruct (Py.geb (performance_score / 100) GOOD); reflexivity.
Qed.

Lemma level_kept_in_table
    (now : Z) (stored : option SRData) (performance_score : Q) (difficulty : string)
    (result : ReviewResult) (row : SRData) :
  calculate_next_review_body now stored performance_score difficulty = Some (result, row) ->
  1 <= level_of stored <= 6 -> 1 <= level_of (Some row) <= 6.
Proof.
  intros H. destruct (calculate_next_review_row _ _ _ _ _ _ H) as (Hl & _).
  rewrite Hl. intros Hlevel.
  destruct (Py.geb (performance_score / 100) GOOD);
    destruct (level_of stored <? 6) eqn:E6; cbn [andb];
    try apply Z.ltb_lt in E6; lia.
Qed.

(** X3.  A review never lowers the stored level, whatever the score: the
    level goes up by one when the score is at least 80 and the level is
    below 6, and stays otherwise; a level between 1 and 6 stays there. *)
Theorem level_never_decreases
    (now : Z) (stored : option SRData) (performance_score : Q) (difficulty : string)
    (result : ReviewResult) (row : SRData) :
  calculate_next_review_body now stored performance_score difficulty = Some (result, row) ->
  level_of stored <= level_of (Some row) <= level_of stored + 1
  /\ (level_of (Some row) = level_of stored + 1
      <-> (80 <= performance_score)%Q /\ level_of stored < 6)
  /\ (1 <= level_of stored <= 6 -> 1 <= level_of (Some row) <= 6).
Proof.
  intros H. destruct (calculate_next_review_row _ _ _ _ _ _ H) as (Hl & _).
  rewrite Hl.
  assert (Hgood : Py.geb (performance_score / 100) GOOD = true
                  <-> (80 <= performance_score)%Q).
  { rewrite geb_true. unfold GOOD, Qle, Qdiv, Qmult, Qinv. cbn. lia. }
  destruct (Py.geb (performance_score / 100) GOOD) eqn:Eg;
    destruct (level_of stored <? 6) eqn:E6; cbn [andb];
    try apply Z.ltb_lt in E6; try apply Z.ltb_ge in E6.
  - split; [lia|]. split; [|lia]. split; [intros _; split; [apply Hgood; reflexivity|lia]|lia].
  - split; [lia|]. split; [|lia]. split; [lia|]. intros [_ ?]. lia.
  - split; [lia|]. split; [|lia]. split; [lia|].
    intros [Hs _]. apply Hgood in Hs. discriminate.
  - split; [lia|]. split; [|lia]. split; [lia|]. intros [_ ?]. lia.
Qed.

Lemma level_never_decreases_witness :
  exists result row,
    calculate_next_review_body 0 (Scenario.final_row 0 "hard" [95; 95]%Q) 10 "hard"
      = Some (result, row)
    /\ level_of (Some row) = 3.
Proof.
  destruct (calculate_next_review_body 0 _ 10 "hard") as [[result row]|] eqn:Hcall;
    [|exfalso; revert Hcall; lazy -[_calculate_forgetting_probability]; discriminate].
  exists result, row. split; [reflexivity|].
  destruct (level_never_decreases _ _ _ _ _ _ Hcall) as (Hle & Hup & _).
  assert (Hold : level_of (Scenario.final_row 0 "hard" [95; 95]%Q) = 3)
    by (lazy -[_calculate_forgetting_probability]; reflexivity).
  rewrite Hold in *.
  assert (Hno : ~ (level_of (Some row) = 3 + 1)).
  { intros E. apply Hup in E. destruct E as [E _]. revert E. vm_compute.
    intros E. apply E. reflexivity. }
  lia.
Defined.

(** X4.  A review schedules the next one exactly [interval_days] days after
    the review and stores the forgetting probability of day 0, which is
    0: the probability in the store is not that of the day the topic
    falls due. *)
Theorem review_schedules_next
    (now : Z) (stored : option SRData) (performance_score : Q) (difficulty : string)
    (result : ReviewResult) (row : SRData) :
  calculate_next_review_body now stored performance_score difficulty = Some (result, row) ->
  next_review row = Some (res_next_review result)
  /\ Py.days (res_next_review result - now) = res_interval_days result
  /\ last_review row = Some now
  /\ res_forgetting_probability result = 0%R
  /\ forgetting_probability row = Some 0%R.
Proof.
  intros H.
  destruct (calculate_next_review_row _ _ _ _ _ _ H)
    as (_ & _ & Hlast & Hnext & Hres & Hrow & Hforget).
  pose proof (interval_at_least_one _ _ _ _ _ _ H) as Hone.
  assert (Hzero : res_forgetting_probability result = 0%R).
  { rewrite Hforget. apply forgetting_of_day_0. lia. }
  split; [rewrite Hnext, Hres; reflexivity|].
  split.
  { rewrite Hres. unfold Py.days, Py.timedelta_days.
    replace (now + res_interval_days result * Py.us_per_day - now)
      with (res_interval_days result * Py.us_per_day) by lia.
    apply Z.div_mul. discriminate. }
  split; [exact Hlast|]. split; [exact Hzero|].
  rewrite Hrow, Hzero. reflexivity.
Qed.

Lemma review_schedules_next_witness :
  exists result row,
    calculate_next_review_body 1000 None 85 "medium" = Some (result, row)
    /\ next_review row = Some (1000 + 3 * Py.us_per_day)
    /\ forgetting_probability row = Some 0%R.
Proof.
  destruct (calculate_next_review_body 1000 None 85 "medium") as [[result row]|] eqn:Hcall;
    [|exfalso; revert Hcall; lazy -[_calculate_forgetting_probability]; discriminate].
  exists result, row. split; [reflexivity|].
  destruct (review_schedules_next _ _ _ _ _ _ Hcall) as (Hnext & _ & _ & _ & Hzero).
  split; [|exact Hzero].
  rewrite Hnext. revert Hcall. lazy -[_calculate_forgetting_probability].
  intros Hcall. injection Hcall as <- _. reflexivity.
Defined.

(** A series of reviews from a row whose level is between 1 and 6. *)
Lemma submit_reviews_from
    (now : Z) (difficulty : string) (scores : list Q) :
  forall stored,
    1 <= level_of stored <= 6 ->
    exists results final,
      submit_reviews now stored difficulty scores = Some (results, final)
      /\ List.length results = List.length scores
      /\ 1 <= level_of final <= 6
      /\ (scores <> [] ->
          exists row,
            final = Some row
            /\ repetitions row
               = Some (repetitions_of stored + Z.of_nat (List.length scores))
            /\ performance_history row = Some (history_of stored ++ scores)).
Proof.
  induction scores as [|score later IH]; intros stored Hlevel; cbn [submit_reviews].
  - exists [], stored. repeat split; try lia. intros H. contradiction.
  - destruct (calculate_next_review_returns now stored score difficulty)
      as (result & row & Hcall); [lia|].
    rewrite Hcall.
    destruct (calculate_next_review_fields _ _ _ _ _ _ Hcall)
      as (_ & _ & _ & _ & Hrep & _).
    destruct (calculate_next_review_row _ _ _ _ _ _ Hcall) as (_ & Hhist & _).
    pose proof (level_kept_in_table _ _ _ _ _ _ Hcall) as Hkeep.
    destruct (IH (Some row) (Hkeep Hlevel))
      as (results & final & Hsub & Hlen & Hlev & Hsome).
    rewrite Hsub. exists (result :: results), final.
    split; [reflexivity|]. split; [cbn; congruence|]. split; [exact Hlev|].
    intros _. destruct later as [|s later'].
    + cbn in Hsub. injection Hsub as _ <-. exists row.
      split; [reflexivity|]. split; [rewrite Hrep; reflexivity | exact Hhist].
    + destruct (Hsome ltac:(discriminate)) as (row' & -> & Hrep' & Hhist').
      exists row'. split; [reflexivity|]. split.
      * rewrite Hrep'. unfold repetitions_of at 1. rewrite Hrep. cbn [Py.get].
        f_equal. cbn [List.length]. lia.
      * rewrite Hhist'. unfold history_of at 1. rewrite Hhist. cbn [Py.get].
        rewrite <- app_assoc. reflexivity.
Qed.

(** X5.  Reviewing a new topic n times always succeeds and leaves a row
    that counts n repetitions, whose score history is the n scores in
    the order they were submitted, and whose level is between 1 and 6. *)
Theorem reviews_accumulate (now : Z) (difficulty : string) (scores : list Q) :
  scores <> [] ->
  exists results row,
    submit_reviews now None difficulty scores = Some (results, Some row)
    /\ List.length results = List.length scores
    /\ repetitions row = Some (Z.of_nat (List.length scores))
    /\ performance_history row = Some scores
    /\ 1 <= level_of (Some row) <= 6.
Proof.
  intros Hne.
  destruct (submit_reviews_from now difficulty scores None)
    as (results & final & Hsub & Hlen & Hlev & Hsome); [cbn; lia|].
  destruct (Hsome Hne) as (row & -> & Hrep & Hhist).
  exists results, row. repeat split; try assumption; lia.
Qed.

Lemma reviews_accumulate_witness :
  exists results row,
    submit_reviews 0 None "hard" [40; 95; 70]%Q = Some (results, Some row)
    /\ repetitions row = Some 3
    /\ performance_history row = Some [40; 95; 70]%Q.
Proof.
  destruct (reviews_accumulate 0 "hard" [40; 95; 70]%Q)
    as (results & row & Hsub & _ & Hrep & Hhist & _); [discriminate|].
  exists results, row. split; [exact Hsub|]. split; [exact Hrep | exact Hhist].
Defined.

Lemma excellent_score (performance_score : Q) :
  (90 <= performance_score)%Q -> Py.geb (performance_score / 100) 0.9 = true.
Proof.
  intros H. apply geb_true. revert H.
  unfold Qle, Qdiv, Qmult, Qinv. cbn. lia.
Qed.

Lemma excellent_reviews_from
    (now : Z) (difficulty : string) (scores : list Q) :
  forall stored,
    1 <= level_of stored <= 6 ->
    Forall (fun s => 90 <= s)%Q scores ->
    scores <> [] ->
    exists results row e,
      submit_reviews now stored difficulty scores = Some (results, Some row)
      /\ ease_factor row = Some e
      /\ (e == ease_of stored + inject_Z (Z.of_nat (List.length scores)) * 0.1)%Q.
Proof.
  induction scores as [|score later IH]; intros stored Hlevel Hall Hne;
    [contradiction|].
  inversion Hall as [|? ? Hscore Hlater]; subst.
  cbn [submit_reviews].
  destruct (calculate_next_review_returns now stored score difficulty)
    as (result & row & Hcall); [lia|].
  rewrite Hcall.
  destruct (calculate_next_review_fields _ _ _ _ _ _ Hcall)
    as (_ & _ & _ & _ & _ & Hres & Hrow).
  pose proof (level_kept_in_table _ _ _ _ _ _ Hcall) as Hkeep.
  assert (He : res_ease_factor result = (ease_of stored + 0.1)%Q).
  { rewrite Hres. unfold _update_ease_factor.
    rewrite (excellent_score score Hscore). reflexivity. }
  destruct later as [|s2 later'].
  - cbn [submit_reviews]. exists [result], row, (res_ease_factor result).
    split; [reflexivity|]. split; [exact Hrow|].
    rewrite He. cbn [List.length]. change (inject_Z (Z.of_nat 1)) with 1%Q. ring.
  - destruct (IH (Some row) (Hkeep Hlevel) Hlater ltac:(discriminate))
      as (results & row' & e & Hsub & Hrow' & Heq).
    rewrite Hsub. exists (result :: results), row', e.
    split; [reflexivity|]. split; [exact Hrow'|].
    rewrite Heq. unfold ease_of at 1. rewrite Hrow, He. cbn [Py.get].
    cbn [List.length]. rewrite !Nat2Z.inj_succ. unfold Z.succ.
    rewrite !inject_Z_plus. ring.
Qed.

(** X6.  The declared [max_ease_factor] is not enforced: up to a
    thousand reviews of a new topic that all score 90 or more leave an
    ease factor above it, within a tenth of 2.5 + n/10 (each review adds
    0.1; the margin leaves room for the rounding of the sums). *)
Theorem ease_factor_exceeds_maximum
    (now : Z) (difficulty : string) (scores : list Q) :
  Forall (fun s => 90 <= s)%Q scores ->
  scores <> [] ->
  (List.length scores <= 1000)%nat ->
  exists row e,
    final_row now difficulty scores = Some row
    /\ ease_factor row = Some e
    /\ (max_ease_factor < e)%Q
    /\ (2.5 + inject_Z (Z.of_nat (List.length scores)) * 0.09 <= e)%Q
    /\ (e <= 2.5 + inject_Z (Z.of_nat (List.length scores)) * 0.11)%Q.
Proof.
  intros Hall Hne _.
  destruct (excellent_reviews_from now difficulty scores None)
    as (results & row & e & Hsub & Hrow & He); try assumption; [cbn; lia|].
  exists row, e. unfold final_row. rewrite Hsub.
  split; [reflexivity|]. split; [exact Hrow|].
  cbn [ease_of] in He. unfold max_ease_factor.
  assert (H1 : (1 <= inject_Z (Z.of_nat (List.length scores)))%Q).
  { change 1%Q with (inject_Z 1). rewrite <- Zle_Qle.
    destruct scores; [contradiction | cbn [List.length]; lia]. }
  set (x := inject_Z (Z.of_nat (List.length scores))) in *.
  repeat split; Lqa.lra.
Qed.

Lemma ease_factor_exceeds_maximum_witness :
  exists row e,
    final_row 0 "medium" [95; 100; 90]%Q = Some row
    /\ ease_factor row = Some e
    /\ (2.77 <= e)%Q /\ (e <= 2.83)%Q.
Proof.
  destruct (ease_factor_exceeds_maximum 0 "medium" [95; 100; 90]%Q)
    as (row & e & Hrow & He & _ & Hlow & Hhigh).
  - repeat constructor; vm_compute; discriminate.
  - discriminate.
  - cbn. lia.
  - exists row, e. split; [exact Hrow|]. split; [exact He|].
    cbn [List.length] in Hlow, Hhigh.
    change (inject_Z (Z.of_nat 3)) with 3%Q in Hlow, Hhigh.
    split; Lqa.lra.
Defined.

End ReviewInvariants.

(* ================================================================== *)
(** * SpacedRepetitionEngine: which topics are listed *)
(* ================================================================== *)

Section DueListing.
Import SpacedRepetitionEngine.

Local Open Scope Z_scope.

Lemma filter_none {A : Type} (f : A -> bool) (l : list A) :
  Forall (fun x => f x = false) l -> filter f l = [].
Proof.
  induction 1 as [|x l Hx _ IH]; cbn; [reflexivity|]. rewrite Hx. exact IH.
Qed.

(** X7.  When the user has rows, the list holds exactly the rows whose
    next review is set and not after the clock, each rendered once: a row
    without [next_review] or due later is never listed, every listed
    entry is overdue by a whole number of days that is not negative, and
    when no row is due the list is empty (no sample is made up). *)
Theorem due_listing_exact
    (now : Z) (row : Row) (rows : list Row) (user_topics : list string) :
  let out := get_topics_due_for_review now (row :: rows) user_topics in
  (forall x,
      In x out
      <-> exists data,
            In data (row :: rows) /\ is_due now data = true /\ x = due_topic now data)
  /\ (forall x,
         In x out ->
         exists t,
           topic_next_review x = Some t /\ t <= now
           /\ time_overdue_days x = Py.days (now - t)
           /\ 0 <= time_overdue_days x)
  /\ List.length out = List.length (filter (is_due now) (row :: rows))
  /\ (Forall (fun data => is_due now data = false) (row :: rows) -> out = []).
Proof.
  cbv zeta. unfold get_topics_due_for_review.
  set (all := row :: rows).
  assert (Hin : forall x,
             In x (Py.sort topic_le (map (due_topic now) (filter (is_due now) all)))
             <-> exists data,
                   In data all /\ is_due now data = true /\ x = due_topic now data).
  { intros x. split.
    - intros H. apply (Permutation_in _ (sort_perm topic_le _)) in H.
      apply in_map_iff in H. destruct H as (data & <- & H).
      apply filter_In in H. destruct H as [H1 H2]. eauto.
    - intros (data & H1 & H2 & ->).
      apply (Permutation_in _ (Permutation_sym (sort_perm topic_le _))).
      apply in_map. apply filter_In. auto. }
  split; [exact Hin|]. split; [|split].
  - intros x Hx. apply Hin in Hx. destruct Hx as (data & _ & Hdue & ->).
    unfold is_due in Hdue. unfold due_topic, time_overdue.
    cbn [topic_next_review time_overdue_days].
    destruct (row_next_review data) as [t|]; [|discriminate].
    apply Z.leb_le in Hdue. exists t. cbn [Py.get].
    assert (0 <= Py.days (now - t)).
    { unfold Py.days, Py.us_per_day. apply Z.div_pos; lia. }
    repeat split; try assumption; lia.
  - rewrite sort_length, length_map. reflexivity.
  - intros Hnone. rewrite (filter_none _ _ Hnone). reflexivity.
Qed.

End DueListing.

(* ================================================================== *)
(** * IntelligentSpacedRepetition: intervals and ease factor *)
(* ================================================================== *)

Section IntelligentFacts.
Import IntelligentSpacedRepetition.

Local Open Scope Z_scope.

(** [int] of a float that is not negative is its floor. *)
Lemma int_floor (x : Q) : (0 <= x)%Q -> Py.int x = Qfloor x.
Proof.
  intros H. unfold Py.int. destruct x as [n d]. cbn.
  apply Z.quot_div_nonneg; [|lia].
  unfold Qle in H. cbn in H. lia.
Qed.

Lemma int_between (a b : Z) (x : Q) :
  0 <= a -> (inject_Z a <= x)%Q -> (x <= inject_Z b)%Q -> a <= Py.int x <= b.
Proof.
  intros Ha Hax Hxb.
  assert (H0 : (0 <= x)%Q).
  { apply Qle_trans with (inject_Z a); [|exact Hax].
    change 0%Q with (inject_Z 0). rewrite <- Zle_Qle. exact Ha. }
  rewrite (int_floor x H0). split.
  - rewrite <- (Qfloor_Z a). apply Qfloor_resp_le, Hax.
  - rewrite <- (Qfloor_Z b). apply Qfloor_resp_le, Hxb.
Qed.

Lemma interval_constraints_range
    (predicted_interval : Q) (topic_history : list HistoryEntry)
    (performance_score : Q) :
  1 <= apply_interval_constraints predicted_interval topic_history performance_score
  /\ ((List.length topic_history < 2 \/ 5 <= List.length topic_history)%nat ->
      apply_interval_constraints predicted_interval topic_history performance_score
      <= 365).
Proof.
  unfold apply_interval_constraints.
  destruct topic_history as [|e1 [|e2 rest]]; [split; lia | split; lia |].
  set (h := e1 :: e2 :: rest).
  destruct (List.length h <? 5)%nat eqn:E.
  - split; [apply Z.le_max_l|]. apply Nat.ltb_lt in E. intros [H|H].
    + cbn in H. lia.
    + lia.
  - match goal with
    | |- context [Py.int (Qmax 1 (Qmin 365 ?v))] => set (p := v)
    end.
    assert (H : 1 <= Py.int (Qmax 1 (Qmin 365 p)) <= 365).
    { apply int_between; [lia | apply Q.le_max_l |].
      apply Q.max_lub; [discriminate | apply Q.le_min_l]. }
    split; [lia | intros _; lia].
Qed.

Lemma last_cons {A : Type} (rest : list A) :
  forall e d : A, last (e :: rest) d = last rest e.
Proof.
  induction rest as [|x r IH]; intros e d; [reflexivity|].
  change (last (e :: x :: r) d) with (last (x :: r) d).
  rewrite (IH x d), (IH x e). reflexivity.
Qed.

(** For a history of two to four entries the answer is read off the
    newest entry alone. *)
Lemma interval_constraints_early
    (predicted_interval : Q) (topic_history : list HistoryEntry)
    (performance_score : Q) (newest : HistoryEntry) :
  (2 <= List.length topic_history < 5)%nat ->
  forall d : HistoryEntry,
    newest = last topic_history d ->
    apply_interval_constraints predicted_interval topic_history performance_score
    = Z.max 1 (Py.int (inject_Z (Py.get (entry_interval_days newest) 1%Z)
                       * Py.get (entry_ease_factor newest) 2.5)%Q).
Proof.
  intros Hlen d ->. unfold apply_interval_constraints.
  destruct topic_history as [|e1 [|e2 rest]]; [cbn in Hlen; lia | cbn in Hlen; lia |].
  set (h := e1 :: e2 :: rest) in *.
  replace (List.length h <? 5)%nat with true by (symmetry; apply Nat.ltb_lt; lia).
  unfold h. rewrite (last_cons (e2 :: rest) e1 d). reflexivity.
Qed.

(** X8.  [apply_interval_constraints] never returns less than one day, and
    no more than 365 days for a history of fewer than two or of five or
    more entries.  For a history of two to four entries the value is
    max(1, int(last_interval * ease_factor)) of the newest entry, with no
    upper clamp: a newest entry with an interval of 200 days and an ease
    factor of 2.5 gives 500 days, whatever the prediction and the score. *)
Theorem apply_interval_constraints_bounds
    (predicted_interval : Q) (topic_history : list HistoryEntry)
    (performance_score : Q) :
  1 <= apply_interval_constraints predicted_interval topic_history performance_score
  /\ ((List.length topic_history < 2 \/ 5 <= List.length topic_history)%nat ->
      apply_interval_constraints predicted_interval topic_history performance_score
      <= 365)
  /\ ((2 <= List.length topic_history < 5)%nat ->
      forall d : HistoryEntry,
        apply_interval_constraints predicted_interval topic_history performance_score
        = Z.max 1 (Py.int (inject_Z (Py.get (entry_interval_days
                                               (last topic_history d)) 1%Z)
                           * Py.get (entry_ease_factor (last topic_history d)) 2.5)%Q))
  /\ apply_interval_constraints
       predicted_interval
       [mkHistoryEntry 90 "medium" 0 (Some 6) None None;
        mkHistoryEntry 90 "medium" 0 None (Some 200) (Some 2.5%Q)]
       performance_score
     = 500.
Proof.
  destruct (interval_constraints_range predicted_interval topic_history performance_score)
    as [Hlow Hhigh].
  split; [exact Hlow|]. split; [exact Hhigh|]. split.
  - intros Hlen d.
    exact (interval_constraints_early
             predicted_interval topic_history performance_score
             (last topic_history d) Hlen d eq_refl).
  - rewrite (interval_constraints_early
               predicted_interval _ performance_score
               (mkHistoryEntry 90 "medium" 0 None (Some 200) (Some 2.5%Q)))
      with (d := mkHistoryEntry 90 "medium" 0 None None None);
      [reflexivity | cbn; lia | reflexivity].
Qed.

(** X9.  The ease factor that [update_spaced_repetition_data] stores is one
    of 2.0, 2.2, 2.4, 2.5, 2.6 and 2.8: it is recomputed from the last
    five scores and never depends on the ease factor stored before. *)
Theorem stored_ease_factor_range
    (now : Z) (existing_response : StoreRead SRRow)
    (performance_score : Q) (difficulty : string) (interval next : Z) (row : SRRow) :
  update_spaced_repetition_data
    now existing_response performance_score difficulty interval next = Some row ->
  exists e,
    ease_factor row = Some e
    /\ In e [2.0; 2.2; 2.4; 2.5; 2.6; 2.8]%Q
    /\ (2.0 <= e)%Q /\ (e <= 2.8)%Q.
Proof.
  unfold update_spaced_repetition_data.
  assert (Hcalc : forall h,
             In (calculate_ease_factor h) [2.0; 2.2; 2.4; 2.5; 2.6; 2.8]%Q).
  { intros h. unfold calculate_ease_factor.
    destruct (List.length h <? 2)%nat; [cbn; auto 7|].
    destruct (Py.geb _ 90); [cbn; auto 7|].
    destruct (Py.geb _ 80); [cbn; auto 7|].
    destruct (Py.geb _ 70); [cbn; auto 7|].
    destruct (Py.geb _ 60); cbn; auto 7. }
  assert (Hrange : forall e, In e [2.0; 2.2; 2.4; 2.5; 2.6; 2.8]%Q ->
                             (2.0 <= e)%Q /\ (e <= 2.8)%Q).
  { intros e H. cbn in H.
    repeat (destruct H as [<-|H]; [split; discriminate|]). contradiction. }
  destruct existing_response as [data| |]; intros H; [| |discriminate];
    injection H as <-; cbn [ease_factor]; eexists; (split; [reflexivity|]).
  - split; [apply Hcalc | apply Hrange, Hcalc].
  - split; [cbn; auto 7 | split; discriminate].
Qed.

Lemma stored_ease_factor_range_witness :
  exists row e,
    update_spaced_repetition_data
      0 (Found (mkSRRow (Some 6) (Some 1) (Some 1.3%Q) None None
                        (Some [mkHistoryEntry 30 "easy" 0 (Some 1) None None])))
      20 "easy" 2 0 = Some row
    /\ ease_factor row = Some e /\ (2.0 <= e)%Q.
Proof.
  eexists.
  destruct (stored_ease_factor_range
              0 (Found (mkSRRow (Some 6) (Some 1) (Some 1.3%Q) None None
                                (Some [mkHistoryEntry 30 "easy" 0 (Some 1) None None])))
              20 "easy" 2 0 _ eq_refl)
    as (e & He & _ & Hlow & _).
  exists e. split; [reflexivity|]. split; [exact He | exact Hlow].
Defined.

(** X10.  [fallback_supermemo2]: a failed review (score below 60) of a stored
    topic is given one day; a passed review of a topic with at least two
    repetitions is given at least the stored interval when the stored
    ease factor is at least 1 and the interval is not negative; when the
    store cannot be read the answer is seven days with confidence 0.5. *)
Theorem fallback_supermemo2_intervals
    (now : Z) (data : SRRow) (performance_score : Q) :
  ((performance_score < 60)%Q ->
   res_interval_days (fallback_supermemo2 now (Found data) performance_score) = 1)
  /\ ((60 <= performance_score)%Q ->
      2 <= Py.get (repetitions data) 0 ->
      0 <= Py.get (interval_days data) 1 ->
      (1 <= Py.get (ease_factor data) 2.5)%Q ->
      Py.get (interval_days data) 1
      <= res_interval_days (fallback_supermemo2 now (Found data) performance_score))
  /\ res_interval_days (fallback_supermemo2 now Unreachable performance_score) = 7
  /\ res_confidence (fallback_supermemo2 now Unreachable performance_score) = 0.5%Q.
Proof.
  split; [|split; [|split; reflexivity]].
  - intros H. unfold fallback_supermemo2, supermemo2.
    apply geb_false in H. rewrite H. reflexivity.
  - intros Hs Hr Hi He. unfold fallback_supermemo2, supermemo2.
    apply geb_true in Hs. rewrite Hs.
    destruct (Py.get (repetitions data) 0 =? 0) eqn:E0; [apply Z.eqb_eq in E0; lia|].
    destruct (Py.get (repetitions data) 0 =? 1) eqn:E1; [apply Z.eqb_eq in E1; lia|].
    cbn [res_interval_days].
    set (i := Py.get (interval_days data) 1) in *.
    set (e := Py.get (ease_factor data) 2.5%Q) in *.
    assert (Hie : (inject_Z i <= inject_Z i * e)%Q).
    { rewrite <- (Qmult_1_l (inject_Z i)) at 1.
      rewrite (Qmult_comm (inject_Z i) e).
      apply Qmult_le_compat_r; [exact He|].
      change 0%Q with (inject_Z 0). rewrite <- Zle_Qle. exact Hi. }
    assert (H0 : (0 <= inject_Z i * e)%Q).
    { apply Qle_trans with (inject_Z i); [|exact Hie].
      change 0%Q with (inject_Z 0). rewrite <- Zle_Qle. exact Hi. }
    rewrite (int_floor _ H0). rewrite <- (Qfloor_Z i) at 1.
    apply Qfloor_resp_le, Hie.
Qed.

Lemma fallback_supermemo2_intervals_witness :
  6 <= res_interval_days
         (fallback_supermemo2 0 (Found (mkSRRow (Some 6) (Some 2) (Some 2.5%Q) None None None)) 80)
  /\ res_interval_days
       (fallback_supermemo2 0 (Found (mkSRRow (Some 6) (Some 2) (Some 2.5%Q) None None None)) 59)
     = 1.
Proof.
  destruct (fallback_supermemo2_intervals
              0 (mkSRRow (Some 6) (Some 2) (Some 2.5%Q) None None None) 80)
    as (_ & Hpass & _).
  destruct (fallback_supermemo2_intervals
              0 (mkSRRow (Some 6) (Some 2) (Some 2.5%Q) None None None) 59)
    as (Hfail & _).
  split; [|apply Hfail; reflexivity].
  apply Hpass; [vm_compute; discriminate | cbn; lia | cbn; lia | vm_compute; discriminate].
Defined.

End IntelligentFacts.

(* ================================================================== *)
(** * IntelligentSpacedRepetition: series of reviews, due topics *)
(* ================================================================== *)

Section IntelligentSeries.
Import IntelligentSpacedRepetition.
Import IntelligentScenario.

Local Open Scope Z_scope.

Lemma last_In {A : Type} (l : list A) (d : A) : l <> [] -> In (last l d) l.
Proof.
  induction l as [|x [|y l] IH]; intros H; [contradiction | left; reflexivity |].
  right. apply IH. discriminate.
Qed.

Lemma apply_interval_constraints_plain
    (predicted_interval : Q) (topic_history : list HistoryEntry)
    (performance_score : Q) :
  Forall plain_entry topic_history ->
  (2 <= List.length topic_history < 5)%nat ->
  apply_interval_constraints predicted_interval topic_history performance_score = 2.
Proof.
  intros Hplain Hlen. unfold apply_interval_constraints.
  destruct topic_history as [|e1 [|e2 rest]]; [cbn in Hlen; lia | cbn in Hlen; lia |].
  set (h := e1 :: e2 :: rest) in *.
  replace (List.length h <? 5)%nat with true by (symmetry; apply Nat.ltb_lt; lia).
  assert (Hnew : plain_entry (last (e2 :: rest) e1)).
  { rewrite Forall_forall in Hplain. apply Hplain. right.
    apply last_In. discriminate. }
  destruct Hnew as [-> ->]. reflexivity.
Qed.

(** The row that a review leaves in a store that can be reached. *)
Lemma intelligent_review_step
    (now : Z) (response : StoreRead SRRow) (predicted_interval confidence : Q)
    (performance_score : Q) (difficulty : string) :
  response <> Unreachable ->
  Forall plain_entry (get_topic_history response) ->
  exists result row entry,
    calculate_intelligent_interval
      now response predicted_interval confidence performance_score difficulty
    = (result, Some row)
    /\ res_interval_days result
       = apply_interval_constraints
           predicted_interval (get_topic_history response) performance_score
    /\ get_topic_history (Found row) = get_topic_history response ++ [entry]
    /\ plain_entry entry.
Proof.
  intros Hreach Hplain. unfold calculate_intelligent_interval.
  destruct response as [data| |]; [| |contradiction]; cbn.
  - do 3 eexists. split; [reflexivity|]. split; [reflexivity|].
    split; [reflexivity|]. split; reflexivity.
  - do 3 eexists. split; [reflexivity|]. split; [reflexivity|].
    split; [reflexivity|]. split; reflexivity.
Qed.

Lemma review_intervals_from
    (now : Z) (difficulty : string) (reviews : list (Q * option Q * Q)) :
  forall response (k : nat),
    response <> Unreachable ->
    Forall plain_entry (get_topic_history response) ->
    List.length (get_topic_history response) = k ->
    let intervals := review_intervals now response difficulty reviews in
    firstn (5 - k) intervals
    = firstn (List.length reviews) (skipn k [1; 6; 2; 2; 2])
    /\ Forall (fun i => 1 <= i <= 365) intervals.
Proof.
  induction reviews as [|[[score prediction] confidence] later IH];
    intros response k Hreach Hplain Hlen; cbv zeta; cbn [review_intervals].
  - rewrite firstn_nil. split; [reflexivity | constructor].
  - destruct (intelligent_review_step now response (predict_interval prediction)
                confidence score difficulty Hreach Hplain)
      as (result & row & entry & Hcall & Hint & Hhist & Hentry).
    rewrite Hcall.
    assert (Hplain' : Forall plain_entry (get_topic_history (Found row))).
    { rewrite Hhist. apply Forall_app. split; [exact Hplain | constructor; [exact Hentry | constructor]]. }
    assert (Hlen' : List.length (get_topic_history (Found row)) = S k).
    { rewrite Hhist, length_app, Hlen. cbn. lia. }
    destruct (IH (Found row) (S k) ltac:(discriminate) Hplain' Hlen') as [IH1 IH2].
    assert (Hbound : 1 <= res_interval_days result <= 365
                     /\ ((k < 5)%nat -> res_interval_days result = nth k [1; 6; 2; 2; 2] 0)).
    { rewrite Hint.
      destruct (interval_constraints_range
                  (predict_interval prediction) (get_topic_history response) score)
        as [Hlow Hhigh].
      destruct (le_lt_dec 2 k) as [H2|H2]; [destruct (le_lt_dec 5 k) as [H5|H5]|].
      - split; [split; [exact Hlow | apply Hhigh; lia] | lia].
      - rewrite (apply_interval_constraints_plain _ _ _ Hplain) by lia.
        split; [lia|]. intros _.
        destruct k as [|[|[|[|[|k]]]]]; try lia; reflexivity.
      - split; [split; [exact Hlow | apply Hhigh; lia]|]. intros _.
        destruct (get_topic_history response) as [|e1 [|e2 rest]]; cbn in Hlen; subst k;
          [reflexivity | reflexivity | lia]. }
    destruct Hbound as [Hb Hk].
    split; [|constructor; [exact Hb | exact IH2]].
    destruct k as [|[|[|[|[|k]]]]];
      try (rewrite (Hk ltac:(lia)); cbn [Nat.sub firstn skipn List.length nth];
           f_equal; exact IH1).
    replace (5 - S (S (S (S (S k)))))%nat with 0%nat by lia.
    rewrite skipn_all2 by (cbn [List.length]; lia).
    rewrite firstn_nil. reflexivity.
Qed.

Lemma review_intervals_length
    (now : Z) (difficulty : string) (reviews : list (Q * option Q * Q)) :
  forall response,
    List.length (review_intervals now response difficulty reviews)
    = List.length reviews.
Proof.
  induction reviews as [|[[s p] c] later IH]; intros response;
    cbn [review_intervals]; [reflexivity|].
  destruct (calculate_intelligent_interval _ _ _ _ _ _) as [result written].
  cbn [List.length]. rewrite IH. reflexivity.
Qed.

(** X11.  Along a series of reviews of a new topic through
    [calculate_intelligent_interval], none of them sent to the fallback,
    whatever the scores and whatever the model predicts, the first five
    reviews are given 1, 6, 2, 2 and 2 days, and every later one between
    1 and 365 days. *)
Theorem intelligent_review_series
    (now : Z) (difficulty : string) (reviews : list (Q * option Q * Q)) :
  let intervals := review_intervals now Absent difficulty reviews in
  firstn 5 intervals = firstn (List.length reviews) [1; 6; 2; 2; 2]
  /\ Forall (fun i => 1 <= i <= 365) intervals
  /\ List.length intervals = List.length reviews.
Proof.
  cbv zeta.
  destruct (review_intervals_from now difficulty reviews Absent 0
              ltac:(discriminate) ltac:(constructor) eq_refl) as [H1 H2].
  split; [exact H1|]. split; [exact H2|].
  apply review_intervals_length.
Qed.

(** X12.  A topic whose urgency is not LOW is always due; a topic that is
    not due has urgency LOW and its last review not further back than its
    interval; a topic without history is due with urgency HIGH; and the
    retention reported lies between 0 and 1. *)
Theorem urgent_topics_are_due
    (now : Z) (retention_model : list R -> option Q)
    (feature_importances : option (list Q))
    (topic_data : TopicData) (user_profile : option UserProfile)
    (recent_analytics : option RecentAnalytics) :
  let check :=
    is_topic_due_for_review now retention_model feature_importances
                            topic_data user_profile recent_analytics in
  (urgency check <> LOW -> should_review check = true)
  /\ (should_review check = false ->
      urgency check = LOW
      /\ Py.days (now - Py.get (last_review (topic_row topic_data)) now)
         <= Py.get (interval_days (topic_row topic_data)) 7)
  /\ (Py.get (performance_history (topic_row topic_data)) [] = [] ->
      should_review check = true /\ urgency check = HIGH)
  /\ (0 <= predicted_retention check)%Q /\ (predicted_retention check <= 1)%Q.
Proof.
  cbv zeta. unfold is_topic_due_for_review.
  destruct (Py.get (performance_history (topic_row topic_data)) []) as [|e rest].
  - cbn. repeat split; try discriminate; auto.
  - cbn [should_review urgency predicted_retention].
    set (r := predict_retention _).
    assert (Hr : (0 <= r)%Q /\ (r <= 1)%Q).
    { unfold r, predict_retention. destruct (retention_model _) as [q|].
      - split; [apply Q.le_max_l | apply Q.max_lub; [discriminate | apply Q.le_min_l]].
      - split; discriminate. }
    assert (H35 : Py.ltb r 0.3 = true -> Py.ltb r 0.7 = true).
    { rewrite !ltb_true. intros H. eapply Qlt_trans; [exact H | reflexivity]. }
    assert (H57 : Py.ltb r 0.5 = true -> Py.ltb r 0.7 = true).
    { rewrite !ltb_true. intros H. eapply Qlt_trans; [exact H | reflexivity]. }
    destruct (Py.ltb r 0.3) eqn:E3; [rewrite (H35 eq_refl)|];
      [|destruct (Py.ltb r 0.5) eqn:E5; [rewrite (H57 eq_refl)|]];
      [| |destruct (Py.ltb r 0.7) eqn:E7]; cbn [orb];
      (split; [|split; [|split; [|exact Hr]]]);
      try discriminate; try (intros _; reflexivity); try congruence.
    intros H. split; [reflexivity|]. apply Z.ltb_ge in H. exact H.
Qed.

Lemma due_key_lt_asym (a b : Z * Q) : due_key_lt a b = true -> due_key_lt b a = false.
Proof.
  unfold due_key_lt. rewrite (Z.eqb_sym (fst b) (fst a)).
  destruct (fst a =? fst b) eqn:E.
  - intros H. apply ltb_true in H. apply ltb_false. apply Qlt_le_weak. exact H.
  - intros H. apply Z.ltb_lt in H. apply Z.ltb_ge. lia.
Qed.

(** X13.  The list of due topics holds exactly the rows that the check finds
    due, most urgent tier first; it is empty when the store has no rows
    for the user or cannot be read. *)
Theorem intelligent_due_topics
    (now : Z) (retention_model : list R -> option Q)
    (feature_importances : option (list Q))
    (response : StoreRead (list TopicData)) (user_profile : option UserProfile)
    (recent_analytics : option RecentAnalytics) :
  let out :=
    get_topics_due_for_review now retention_model feature_importances
                              response user_profile recent_analytics in
  let check topic_data :=
    is_topic_due_for_review now retention_model feature_importances
                            topic_data user_profile recent_analytics in
  (forall x,
      In x out
      <-> exists rows,
            response = Found rows /\ In (fst x) rows
            /\ snd x = check (fst x) /\ should_review (snd x) = true)
  /\ StronglySorted
       (fun x y => tier_rank (urgency (snd x)) <= tier_rank (urgency (snd y))) out
  /\ (response = Absent \/ response = Unreachable \/ response = Found [] -> out = []).
Proof.
  cbv zeta. unfold get_topics_due_for_review.
  destruct response as [rows| |].
  - split; [|split].
    + intros [topic_data c]. cbn [fst snd]. split.
      * intros H. apply (Permutation_in _ (sort_perm due_le _)) in H.
        apply filter_In in H. destruct H as [H Hdue].
        apply in_map_iff in H. destruct H as (td & Heq & Hin).
        injection Heq as <- <-. exists rows. auto.
      * intros (rows' & Heq & Hin & -> & Hdue). injection Heq as <-.
        apply (Permutation_in _ (Permutation_sym (sort_perm due_le _))).
        apply filter_In. split; [|exact Hdue].
        apply in_map_iff. exists topic_data. auto.
    + apply Sorted_StronglySorted; [intros x y z; lia|].
      apply Sorted_weaken with (R1 := fun u v => due_le u v = true).
      * intros x y H. unfold due_le, due_key_lt, due_key in H. cbn [fst snd] in H.
        apply negb_true_iff in H.
        destruct (tier_rank (urgency (snd y)) =? tier_rank (urgency (snd x))) eqn:E.
        -- apply Z.eqb_eq in E. lia.
        -- apply Z.ltb_ge in H. exact H.
      * apply sort_sorted. intros x y H. unfold due_le in *.
        apply negb_false_iff in H. apply negb_true_iff. apply due_key_lt_asym, H.
    + intros [H|[H|H]]; try discriminate. injection H as ->. reflexivity.
  - split; [|split; [constructor | reflexivity]].
    intros x. split; [intros [] | intros (rows & H & _); discriminate].
  - split; [|split; [constructor | reflexivity]].
    intros x. split; [intros [] | intros (rows & H & _); discriminate].
Qed.

(** X14.  [train_models] never fits a model: [prepare_training_data] extracts
    no sample from any user, so fewer than ten samples are found. *)
Theorem train_models_never_trains (user_data : list (option string)) :
  (forall samples, train_models user_data <> Trained samples)
  /\ (user_data <> [] ->
      Forall (fun user => user <> None) user_data ->
      train_models user_data = InsufficientData).
Proof.
  unfold train_models, prepare_training_data. split.
  - intros samples. destruct user_data as [|u l]; [discriminate|].
    destruct (forallb _ (u :: l)); discriminate.
  - intros Hne Hall. destruct user_data as [|u l]; [contradiction|].
    replace (forallb _ (u :: l)) with true; [reflexivity|].
    symmetry. apply forallb_forall. intros x Hx.
    rewrite Forall_forall in Hall. specialize (Hall x Hx).
    destruct x; [reflexivity | contradiction].
Qed.

Lemma train_models_never_trains_witness :
  train_models [Some "u1"; Some "u2"]%string = InsufficientData.
Proof.
  destruct (train_models_never_trains [Some "u1"; Some "u2"]%string) as [_ H].
  apply H; [discriminate | repeat constructor; discriminate].
Defined.

End IntelligentSeries.

(* ================================================================== *)
(** * SpacedRepetitionEngine: study recommendations *)
(* ================================================================== *)

Section RecommendationFacts.
Import SpacedRepetitionEngine.

Local Open Scope Z_scope.

Lemma never_high_priority (t : Topic) : is_high_priority t = false.
Proof. unfold is_high_priority. destruct (urgency t); reflexivity. Qed.

Lemma never_medium_priority (t : Topic) : is_medium_priority t = false.
Proof. unfold is_medium_priority. destruct (urgency t); reflexivity. Qed.

(** X15.  The urgency of a topic is a lower-case word and the recommendations
    look for 'CRITICAL', 'HIGH' and 'MEDIUM', and the analysed quiz list
    is empty: so, whatever the store holds, the recommendations are
    exactly "strengthen fundamentals", never an urgent review, and the
    session plan selects no topic. *)
Theorem recommendations_are_fixed
    (now : Z) (all_sr_data : list Row) (user_topics : list string)
    (profile : option LearningProfile) :
  let r := generate_study_recommendations now all_sr_data user_topics profile in
  recommendations r = [FUNDAMENTALS]
  /\ topics (session_plan r) = []
  /\ topic_count (session_plan r) = 0
  /\ total_due r
     = Z.of_nat (List.length (get_topics_due_for_review now all_sr_data user_topics))
  /\ urgent_topics r = firstn 5 (get_topics_due_for_review now all_sr_data user_topics).
Proof.
  cbv zeta. unfold generate_study_recommendations, _calculate_optimal_session.
  cbn [recommendations session_plan topics topic_count total_due urgent_topics].
  set (due := get_topics_due_for_review now all_sr_data user_topics).
  assert (Hhigh : filter is_high_priority due = []).
  { apply filter_none. apply Forall_forall. intros t _. apply never_high_priority. }
  assert (Hmed : filter is_medium_priority due = []).
  { apply filter_none. apply Forall_forall. intros t _. apply never_medium_priority. }
  rewrite Hhigh, Hmed. repeat split; reflexivity.
Qed.

Lemma int_at_least (a : Z) (x : Q) :
  0 <= a -> (inject_Z a <= x)%Q -> a <= Py.int x.
Proof.
  intros Ha Hax.
  assert (H0 : (0 <= x)%Q).
  { apply Qle_trans with (inject_Z a); [|exact Hax].
    change 0%Q with (inject_Z 0). rewrite <- Zle_Qle. exact Ha. }
  rewrite (int_floor x H0). rewrite <- (Qfloor_Z a). apply Qfloor_resp_le, Hax.
Qed.

Lemma int_plus_integer (x : Q) (n : Z) :
  (0 <= x)%Q -> 0 <= n -> Py.int (x + inject_Z n) = Py.int x + n.
Proof.
  intros Hx Hn.
  assert (Hxn : (0 <= x + inject_Z n)%Q).
  { apply Qle_trans with (0 + 0)%Q; [discriminate|].
    apply Qplus_le_compat; [exact Hx|].
    change 0%Q with (inject_Z 0). rewrite <- Zle_Qle. exact Hn. }
  rewrite (int_floor _ Hxn), (int_floor _ Hx).
  destruct x as [a d]. unfold Qfloor, Qplus, inject_Z. cbn [Qnum Qden].
  rewrite Pos.mul_1_r, Z.mul_1_r. apply Z.div_add. discriminate.
Qed.

(** X16.  For an attention span that is not negative, the session plan has at
    least one break, at most five topics, a duration of at most 120
    minutes when more than five topics are due and of at least 20 when
    at most two are, and an estimated time of the duration plus five
    minutes per break, or one minute more (both are truncations of one
    float, and the sum can round up to the next minute). *)
Theorem optimal_session_bounds
    (urgent_topics : list Topic) (profile : option LearningProfile) :
  (0 <= match profile with
        | Some p => Py.get (attention_span p) 60
        | None => 60
        end)%Q ->
  let plan := _calculate_optimal_session urgent_topics profile in
  1 <= breaks plan
  /\ 0 <= topic_count plan <= 5
  /\ 0 <= duration plan
  /\ ((5 < List.length urgent_topics)%nat -> duration plan <= 120)
  /\ ((List.length urgent_topics <= 2)%nat -> 20 <= duration plan)
  /\ duration plan + 5 * breaks plan <= estimated_time plan
     <= duration plan + 5 * breaks plan + 1.
Proof.
  intros Hbase. cbv zeta. unfold _calculate_optimal_session.
  set (base := match profile with
               | Some p => Py.get (attention_span p) 60%Q
               | None => 60%Q
               end) in *.
  cbn [breaks topic_count duration estimated_time].
  set (d := if (5 <? List.length urgent_topics)%nat then Qmin (base * 1.5) 120
            else if (2 <? List.length urgent_topics)%nat then base
            else Qmax (base * 0.7) 20).
  assert (Hd : (0 <= d)%Q).
  { unfold d. destruct (5 <? _)%nat; [|destruct (2 <? _)%nat].
    - apply Q.min_glb; [|discriminate].
      apply Qmult_le_0_compat; [exact Hbase | discriminate].
    - exact Hbase.
    - apply Qle_trans with 20%Q; [discriminate | apply Q.le_max_r]. }
  split; [apply Z.le_max_l|]. split.
  { split; [lia|]. rewrite length_app.
    pose proof (firstn_le_length 3 (filter is_high_priority urgent_topics)).
    pose proof (firstn_le_length 2 (filter is_medium_priority urgent_topics)).
    lia. }
  split; [apply (int_at_least 0); [lia | exact Hd]|].
  split; [|split].
  - intros H. apply Nat.ltb_lt in H. unfold d. rewrite H.
    apply (int_between 0 120); [lia | |apply Q.le_min_r].
    apply Q.min_glb; [|discriminate].
    apply Qmult_le_0_compat; [exact Hbase | discriminate].
  - intros H. unfold d.
    replace (5 <? List.length urgent_topics)%nat with false
      by (symmetry; apply Nat.ltb_ge; lia).
    replace (2 <? List.length urgent_topics)%nat with false
      by (symmetry; apply Nat.ltb_ge; lia).
    apply int_at_least; [lia | apply Q.le_max_r].
  - rewrite int_plus_integer; [lia | exact Hd |].
    pose proof (Z.le_max_l 1 (Py.int (d / 45))). lia.
Qed.

Lemma optimal_session_bounds_witness :
  let plan :=
    _calculate_optimal_session
      (get_topics_due_for_review 0 [] []) (Some (mkLearningProfile (Some 45%Q))) in
  duration plan = 45 /\ breaks plan = 1 /\ 50 <= estimated_time plan <= 51.
Proof.
  cbv zeta.
  destruct (optimal_session_bounds
              (get_topics_due_for_review 0 [] []) (Some (mkLearningProfile (Some 45%Q))))
    as (_ & _ & _ & _ & _ & Htime); [vm_compute; discriminate|].
  split; [reflexivity|]. split; [reflexivity|]. exact Htime.
Defined.

End RecommendationFacts.

(* ================================================================== *)
(** * IntelligentSpacedRepetition: features and confidence *)
(* ================================================================== *)

Section ConfidenceFacts.
Import IntelligentSpacedRepetition.

Local Open Scope Z_scope.

Lemma sum_nonneg (l : list Q) : Forall (fun x => 0 <= x)%Q l -> (0 <= Py.sum l)%Q.
Proof.
  induction 1 as [|x l Hx _ IH]; cbn; [discriminate|].
  apply Qle_trans with (0 + 0)%Q; [discriminate|].
  apply Qplus_le_compat; assumption.
Qed.

Lemma mean_nonneg (l : list Q) : Forall (fun x => 0 <= x)%Q l -> (0 <= Py.mean l)%Q.
Proof.
  intros H. unfold Py.mean, Qdiv.
  apply Qmult_le_0_compat; [apply sum_nonneg, H|].
  apply Qinv_le_0_compat. change 0%Q with (inject_Z 0). rewrite <- Zle_Qle. lia.
Qed.

(** X17.  The feature row always has fifteen entries, so a model without
    feature importances gives every prediction one and the same
    confidence, 0.6 + 15 * 0.02: between 0.89 and 0.91, under the cap of
    0.95; with importances that are not negative the confidence lies
    between 0.5 and 0.95. *)
Theorem confidence_range
    (now : Z) (user_profile : option UserProfile) (topic_history : list HistoryEntry)
    (recent_analytics : option RecentAnalytics)
    (performance_score : Q) (difficulty : string) (importance : list Q) :
  Forall (fun x => 0 <= x)%Q importance ->
  let features :=
    prepare_features now user_profile topic_history recent_analytics
                     performance_score difficulty in
  List.length features = 15%nat
  /\ (0.89 <= calculate_confidence None features)%Q
  /\ (calculate_confidence None features <= 0.91)%Q
  /\ (0.5 <= calculate_confidence (Some importance) features)%Q
  /\ (calculate_confidence (Some importance) features <= 0.95)%Q.
Proof.
  intros Himp. cbv zeta.
  assert (Hlen : List.length
                   (prepare_features now user_profile topic_history recent_analytics
                                     performance_score difficulty) = 15%nat).
  { unfold prepare_features. rewrite !length_app.
    destruct user_profile, topic_history, recent_analytics; reflexivity. }
  split; [exact Hlen|]. unfold calculate_confidence. rewrite Hlen.
  split; [discriminate|]. split; [discriminate|]. split; [|apply Q.le_min_l].
  apply Q.min_glb; [discriminate|].
  apply Qle_trans with (0.5 + 0 * 2)%Q; [discriminate|].
  apply Qplus_le_r. apply Qmult_le_compat_r; [|discriminate].
  apply mean_nonneg, Himp.
Qed.

Lemma confidence_range_witness :
  (calculate_confidence
     (Some [0.5; 0.25; 0.25]%Q)
     (prepare_features 0 None [] None 80 "hard") <= 0.95)%Q.
Proof.
  destruct (confidence_range 0 None [] None 80 "hard" [0.5; 0.25; 0.25]%Q)
    as (_ & _ & _ & _ & H).
  - repeat constructor; discriminate.
  - exact H.
Defined.

End ConfidenceFacts.

(* ================================================================== *)
(** * StudyPlanGenerator: when a plan is produced *)
(* ================================================================== *)

Section PlanProduced.
Import StudyPlanGenerator.

Local Open Scope Z_scope.

Lemma valid_hour_iff (h : Z) : valid_hour h = true <-> 0 <= h <= 23.
Proof.
  unfold valid_hour. rewrite andb_true_iff, !Z.leb_le. tauto.
Qed.

Lemma better_peak_slot_returns
    (start_time : Z) (learning_style : string) (style_efficiency : Q)
    (peak_hours : list Z) :
  Forall (fun h => 0 <= h <= 23) peak_hours ->
  exists t, better_peak_slot start_time learning_style style_efficiency peak_hours
            = Some t.
Proof.
  induction 1 as [|h l Hh _ IH]; cbn [better_peak_slot]; [eauto|].
  unfold replace_hour. apply valid_hour_iff in Hh. rewrite Hh.
  destruct (Py.gtb _ _); [eauto | exact IH].
Qed.

Lemma schedule_sessions_returns
    (preferences : UserPreferences) (sorted_blocks : list StudyBlock) :
  Forall (fun h => 0 <= h <= 23) (peak_hours preferences) ->
  forall current_time,
  exists sessions,
    schedule_sessions preferences current_time sorted_blocks = Some sessions.
Proof.
  intros Hvalid. induction sorted_blocks as [|block rest IH]; intros current_time;
    cbn [schedule_sessions]; [eauto|].
  assert (Hslot : exists t, _find_optimal_time_slot current_time block preferences
                            = Some t).
  { unfold _find_optimal_time_slot.
    destruct (Py.gtb _ _ && Py.ltb _ _)%bool; [|eauto].
    apply better_peak_slot_returns, Hvalid. }
  destruct Hslot as [t ->].
  destruct (IH (t + (duration_minutes block + break_duration preferences)
                    * Py.us_per_minute)) as [sessions ->].
  eauto.
Qed.

Lemma optimize_days_returns
    (now : Z) (preferences : UserPreferences)
    (blocks_by_day : list (Z * list StudyBlock)) :
  peak_hours preferences <> [] ->
  Forall (fun h => 0 <= h <= 23) (peak_hours preferences) ->
  exists schedule, optimize_days now preferences blocks_by_day = Some schedule.
Proof.
  intros Hne Hvalid.
  induction blocks_by_day as [|[key day_blocks] others IH]; cbn [optimize_days];
    [eauto|].
  assert (Hday : exists sessions,
             _optimize_daily_schedule now day_blocks preferences = Some sessions).
  { unfold _optimize_daily_schedule.
    destruct (peak_hours preferences) as [|first_peak l] eqn:E; [contradiction|].
    unfold replace_hour_sharp.
    inversion Hvalid as [|? ? Hfirst _]; subst.
    apply valid_hour_iff in Hfirst. rewrite Hfirst.
    rewrite <- E in Hvalid. apply schedule_sessions_returns, Hvalid. }
  destruct Hday as [sessions ->]. destruct IH as [schedule ->]. eauto.
Qed.



Lemma plan_produced_with_peak_hours
    (now : Z) (profile : option Profile) (analytics : Analytics)
    (quiz_results : list QuizRow) (topics : list string) (target_date : Z)
    (preferences : option UserPreferences) :
  let prefs := match preferences with
               | Some p => p
               | None => _get_user_preferences profile
               end in
  peak_hours prefs <> [] ->
  Forall (fun h => 0 <= h <= 23) (peak_hours prefs) ->
  exists plan,
    generate_personalized_study_plan
      now profile analytics quiz_results topics target_date preferences = Some plan.
Proof.
  cbv zeta. unfold generate_personalized_study_plan, _optimize_schedule.
  set (prefs := match preferences with
                | Some p => p
                | None => _get_user_preferences profile
                end).
  set (study_blocks := _generate_study_blocks _ _ _ _ _).
  intros Hne Hvalid.
  destruct (optimize_days_returns now prefs (group_by_day study_blocks) Hne Hvalid)
    as [schedule ->].
  eauto.
Qed.



(** X19.  The endpoint answers with a plan whenever the request's target
    date parses to a datetime without offset, and with status 500 for
    every other date: the preferences it builds always carry valid peak
    hours, so nothing else can fail. *)
Theorem generate_study_plan_status
    (now : Z) (analytics : Analytics) (quiz_results : list QuizRow)
    (request : SmartScheduler.StudyPlanRequest) :
  (exists plan,
      SmartScheduler.generate_study_plan now analytics quiz_results request
      = SmartScheduler.OK plan)
  <-> (exists t, SmartScheduler.target_date request = SmartScheduler.Naive t).
Proof.
  unfold SmartScheduler.generate_study_plan. split.
  - intros [plan H].
    destruct (SmartScheduler.target_date request) as [t|t|]; [eauto | discriminate..].
  - intros [t ->].
    destruct (plan_produced_with_peak_hours
                now None analytics quiz_results (SmartScheduler.topics request) t
                (Some (SmartScheduler.request_preferences request)))
      as [plan ->]; [discriminate | repeat constructor; lia | eauto].
Qed.

End PlanProduced.

(* ================================================================== *)
(** * StudyPlanGenerator: the shape of a plan *)
(* ================================================================== *)

Section PlanShape.
Import StudyPlanGenerator.

Local Open Scope Z_scope.

Lemma optimal_duration_is_session_length (topic : string) (analytics : Analytics) :
  _calculate_optimal_duration topic analytics = optimal_session_length analytics.
Proof.
  unfold _calculate_optimal_duration, Py.int. cbn.
  rewrite Z.mul_comm. change (Z.pos (1 * 10)) with 10.
  rewrite Z.mul_comm. apply Z.quot_mul. discriminate.
Qed.

(** *** The blocks of one day *)

Lemma daily_blocks_caps
    (preferences : UserPreferences) (analytics : Analytics) (day day_date : Z)
    (prioritized_topics : list (string * Q)) :
  forall remaining_time session_count,
    Forall (fun b =>
              10 <= duration_minutes b
              /\ duration_minutes b <= preferred_session_length preferences
              /\ duration_minutes b <= optimal_session_length analytics
              /\ session_type b = _determine_session_type (topic b) day
              /\ In (topic b) (map fst prioritized_topics)
              /\ difficulty b = _get_topic_difficulty (topic b))
           (daily_blocks preferences analytics day day_date prioritized_topics
                         remaining_time session_count).
Proof.
  induction prioritized_topics as [|[topic priority] rest IH];
    intros remaining_time session_count; cbn [daily_blocks]; [constructor|].
  assert (Hrest : forall r c,
             Forall (fun b =>
                       10 <= duration_minutes b
                       /\ duration_minutes b <= preferred_session_length preferences
                       /\ duration_minutes b <= optimal_session_length analytics
                       /\ session_type b = _determine_session_type (StudyPlanGenerator.topic b) day
                       /\ In (StudyPlanGenerator.topic b) (map fst ((topic, priority) :: rest))
                       /\ difficulty b = _get_topic_difficulty (StudyPlanGenerator.topic b))
                    (daily_blocks preferences analytics day day_date rest r c)).
  { intros r c. eapply Forall_impl; [|apply IH].
    intros b (H1 & H2 & H3 & H4 & H5 & H6). repeat split; try assumption.
    right. exact H5. }
  destruct ((remaining_time <=? 0)
            || (max_sessions_per_day preferences <=? session_count))%bool;
    [constructor|].
  rewrite optimal_duration_is_session_length.
  destruct (_ <? 10) eqn:E; [apply Hrest|].
  apply Z.ltb_ge in E.
  constructor; [|apply Hrest].
  cbn [duration_minutes session_type StudyPlanGenerator.topic difficulty].
  repeat split; try lia. left. reflexivity.
Qed.

Lemma daily_blocks_count
    (preferences : UserPreferences) (analytics : Analytics) (day day_date : Z)
    (prioritized_topics : list (string * Q)) :
  forall remaining_time session_count,
    Z.of_nat (List.length
                (daily_blocks preferences analytics day day_date prioritized_topics
                              remaining_time session_count))
    <= Z.max 0 (max_sessions_per_day preferences - session_count).
Proof.
  induction prioritized_topics as [|[topic priority] rest IH];
    intros remaining_time session_count; cbn [daily_blocks]; [cbn; lia|].
  destruct ((remaining_time <=? 0)
            || (max_sessions_per_day preferences <=? session_count))%bool eqn:E;
    [cbn; lia|].
  apply orb_false_iff in E. destruct E as [_ E]. apply Z.leb_gt in E.
  destruct (_ <? 10).
  - apply IH.
  - cbn [List.length]. rewrite Nat2Z.inj_succ.
    specialize (IH (remaining_time
                    - (Z.min (Z.min (preferred_session_length preferences) remaining_time)
                             (_calculate_optimal_duration topic analytics)
                       + break_duration preferences))
                   (session_count + 1)).
    lia.
Qed.

(** *** From blocks to sessions *)

Lemma schedule_sessions_blocks (preferences : UserPreferences)
    (sorted_blocks : list StudyBlock) :
  forall current_time sessions,
    schedule_sessions preferences current_time sorted_blocks = Some sessions ->
    Forall2 (session_of_block preferences) sessions sorted_blocks.
Proof.
  induction sorted_blocks as [|block rest IH]; intros current_time sessions;
    cbn [schedule_sessions].
  - intros H. injection H as <-. constructor.
  - destruct (_find_optimal_time_slot current_time block preferences)
      as [optimal_time|]; [|discriminate].
    destruct (schedule_sessions preferences _ rest) as [scheduled|] eqn:E;
      [|discriminate].
    intros H. injection H as <-. constructor; [|exact (IH _ _ E)].
    repeat split.
Qed.

Lemma optimized_day_blocks
    (now : Z) (blocks : list StudyBlock) (preferences : UserPreferences)
    (sessions : list Session) :
  _optimize_daily_schedule now blocks preferences = Some sessions ->
  Forall2 (session_of_block preferences) sessions (Py.sort block_le blocks).
Proof.
  unfold _optimize_daily_schedule.
  destruct (peak_hours preferences) as [|first_peak ?]; [discriminate|].
  destruct (replace_hour_sharp now first_peak) as [current_time|]; [|discriminate].
  apply schedule_sessions_blocks.
Qed.

Lemma Forall2_Forall_l {A B : Type} (P : A -> B -> Prop) (Q1 : A -> Prop)
    (Q2 : B -> Prop) (l1 : list A) (l2 : list B) :
  (forall a b, P a b -> Q2 b -> Q1 a) ->
  Forall2 P l1 l2 -> Forall Q2 l2 -> Forall Q1 l1.
Proof.
  intros H. induction 1 as [|a b l1 l2 Hab _ IH]; intros Hall; constructor;
    inversion Hall; subst; eauto.
Qed.

Lemma Forall2_Sorted {A B : Type} (P : A -> B -> Prop)
    (R1 : A -> A -> Prop) (R2 : B -> B -> Prop) (l1 : list A) (l2 : list B) :
  (forall a a' b b', P a b -> P a' b' -> R2 b b' -> R1 a a') ->
  Forall2 P l1 l2 -> Sorted R2 l2 -> Sorted R1 l1.
Proof.
  intros H. induction 1 as [|a b l1 l2 Hab Hrest IH]; intros Hs; constructor;
    inversion Hs as [|? ? Hs' Hhd]; subst.
  - apply IH, Hs'.
  - destruct Hrest as [|a' b' l1' l2' Hab' _]; constructor.
    inversion Hhd; subst. eapply H; eassumption.
Qed.

(** The day and the blocks behind an entry of [daily_sessions]. *)
Lemma scheduled_day_origin
    (now : Z) (profile : option Profile) (analytics : Analytics)
    (quiz_results : list QuizRow) (topics : list string) (target_date : Z)
    (preferences : option UserPreferences) (plan : StudyPlan)
    (key : Z) (sessions : list Session) :
  let prefs := match preferences with
               | Some p => p
               | None => _get_user_preferences profile
               end in
  generate_personalized_study_plan
    now profile analytics quiz_results topics target_date preferences = Some plan ->
  In (key, sessions) (daily_sessions plan) ->
  exists day,
    In day (range (Py.days (target_date - now)))
    /\ key = now / Py.us_per_day + day
    /\ blocks_of_day now (_prioritize_topics quiz_results topics analytics)
                     prefs analytics day <> []
    /\ Forall2 (session_of_block prefs) sessions
               (Py.sort block_le
                  (blocks_of_day now (_prioritize_topics quiz_results topics analytics)
                                 prefs analytics day)).
Proof.
  cbv zeta. unfold generate_personalized_study_plan, _optimize_schedule.
  set (prefs := match preferences with
                | Some p => p
                | None => _get_user_preferences profile
                end).
  rewrite group_generated_blocks.
  destruct (optimize_days now prefs _) as [schedule|] eqn:E; [|discriminate].
  intros H Hin. injection H as <-. cbn [daily_sessions] in Hin.
  destruct (optimize_days_member _ _ _ _ _ _ E Hin) as (day_blocks & Hday & Hopt).
  apply in_flat_map in Hday. destruct Hday as (day & Hrange & Hday).
  destruct (blocks_of_day now _ prefs analytics day) as [|b bs] eqn:Eb;
    [contradiction|].
  destruct Hday as [Hday|[]]. injection Hday as <- <-.
  exists day. rewrite Eb. split; [exact Hrange|]. split; [reflexivity|].
  split; [discriminate|]. apply (optimized_day_blocks now _ _ _ Hopt).
Qed.

Lemma range_In (n d : Z) : In d (range n) <-> 0 <= d < n.
Proof.
  unfold range. rewrite in_map_iff. split.
  - intros (k & <- & Hk). apply in_seq in Hk. lia.
  - intros H. exists (Z.to_nat d). split; [lia|]. apply in_seq. lia.
Qed.

(** X20.  In every plan produced, each session lasts at least 10 minutes and
    at most the preferred session length and the optimal session length
    of the analytics, is followed by the configured break, and a day
    holds between one and [max_sessions_per_day] sessions. *)
Theorem sessions_respect_caps
    (now : Z) (profile : option Profile) (analytics : Analytics)
    (quiz_results : list QuizRow) (topics : list string) (target_date : Z)
    (preferences : option UserPreferences) (plan : StudyPlan)
    (key : Z) (sessions : list Session) :
  let prefs := match preferences with
               | Some p => p
               | None => _get_user_preferences profile
               end in
  generate_personalized_study_plan
    now profile analytics quiz_results topics target_date preferences = Some plan ->
  In (key, sessions) (daily_sessions plan) ->
  Forall (fun s =>
            10 <= s_duration_minutes s
            /\ s_duration_minutes s <= preferred_session_length prefs
            /\ s_duration_minutes s <= optimal_session_length analytics
            /\ break_after s = break_duration prefs) sessions
  /\ 1 <= Z.of_nat (List.length sessions) <= max_sessions_per_day prefs.
Proof.
  cbv zeta. intros Hplan Hin.
  destruct (scheduled_day_origin _ _ _ _ _ _ _ _ _ _ Hplan Hin)
    as (day & _ & _ & Hne & Hsessions).
  set (prefs := match preferences with
                | Some p => p
                | None => _get_user_preferences profile
                end) in *.
  set (blocks := blocks_of_day now (_prioritize_topics quiz_results topics analytics)
                               prefs analytics day) in *.
  split.
  - eapply Forall2_Forall_l; [|exact Hsessions|].
    + intros s b (_ & _ & Hd & _ & _ & Hb) H. rewrite Hd, Hb. exact H.
    + apply Forall_forall. intros b Hb.
      apply (Permutation_in _ (sort_perm block_le blocks)) in Hb.
      pose proof (daily_blocks_caps prefs analytics day
                    (midnight now + Py.timedelta_days day)
                    (_prioritize_topics quiz_results topics analytics)
                    (daily_study_time prefs) 0) as Hcaps.
      rewrite Forall_forall in Hcaps. specialize (Hcaps b Hb).
      destruct Hcaps as (H1 & H2 & H3 & _). auto.
  - rewrite (Forall2_length Hsessions), sort_length.
    pose proof (daily_blocks_count prefs analytics day
                  (midnight now + Py.timedelta_days day)
                  (_prioritize_topics quiz_results topics analytics)
                  (daily_study_time prefs) 0) as Hcount.
    fold (blocks_of_day now (_prioritize_topics quiz_results topics analytics)
            prefs analytics day) in Hcount.
    fold blocks in Hcount.
    destruct blocks as [|b bs]; [contradiction|]. cbn [List.length] in *. lia.
Qed.

Lemma sessions_respect_caps_witness :
  exists plan,
    generate_personalized_study_plan
      1000 None _default_learning_analytics []
      ["History"; "Algebra"; "Art"; "Biology"]%string
      (Py.us_per_day + 5000)
      (Some (mkUserPreferences 100 25 5 default_peak_hours "medium" "visual" 6))
    = Some plan
    /\ Forall (fun day =>
                 Forall (fun s => 10 <= s_duration_minutes s <= 25) (snd day)
                 /\ Z.of_nat (List.length (snd day)) <= 6)
              (daily_sessions plan).
Proof.
  destruct (generate_personalized_study_plan _ _ _ _ _ _ _) as [plan|] eqn:Hplan;
    [|vm_compute in Hplan; discriminate].
  exists plan. split; [reflexivity|].
  apply Forall_forall. intros [key sessions] Hin.
  destruct (sessions_respect_caps _ _ _ _ _ _ _ _ _ _ Hplan Hin) as [Hcaps Hcount].
  cbn [snd]. split; [|cbn in Hcount; lia].
  eapply Forall_impl; [|exact Hcaps]. cbn. intros s (H1 & H2 & _). lia.
Defined.

(** X21.  In every plan produced, a scheduled day is one of the days from
    today up to, but not including, the day [available_days] ahead; all
    its sessions have the session type of that day (new content on day
    0, review on every third day, assessment on the other fifth days,
    practice otherwise), a requested topic, and a difficulty that is the
    one estimated for the topic. *)
Theorem scheduled_days_and_cadence
    (now : Z) (profile : option Profile) (analytics : Analytics)
    (quiz_results : list QuizRow) (topics : list string) (target_date : Z)
    (preferences : option UserPreferences) (plan : StudyPlan)
    (key : Z) (sessions : list Session) :
  generate_personalized_study_plan
    now profile analytics quiz_results topics target_date preferences = Some plan ->
  In (key, sessions) (daily_sessions plan) ->
  exists day,
    0 <= day < Py.days (target_date - now)
    /\ key = day_key now + day
    /\ Forall (fun s =>
                 s_session_type s
                 = (if day =? 0 then NEW_CONTENT
                    else if day mod 3 =? 0 then REVIEW
                    else if day mod 5 =? 0 then ASSESSMENT
                    else PRACTICE)
                 /\ In (s_topic s) topics
                 /\ s_difficulty s = _get_topic_difficulty (s_topic s)) sessions.
Proof.
  intros Hplan Hin.
  destruct (scheduled_day_origin _ _ _ _ _ _ _ _ _ _ Hplan Hin)
    as (day & Hrange & Hkey & _ & Hsessions).
  exists day. split; [apply range_In, Hrange|]. split; [exact Hkey|].
  set (prefs := match preferences with
                | Some p => p
                | None => _get_user_preferences profile
                end) in *.
  set (prioritized := _prioritize_topics quiz_results topics analytics) in *.
  eapply Forall2_Forall_l; [|exact Hsessions|].
  - intros s b (Ht & Hty & _ & Hdiff & _) H. rewrite Ht, Hty, Hdiff. exact H.
  - apply Forall_forall. intros b Hb.
    apply (Permutation_in _ (sort_perm block_le _)) in Hb.
    pose proof (daily_blocks_caps prefs analytics day
                  (midnight now + Py.timedelta_days day) prioritized
                  (daily_study_time prefs) 0) as Hcaps.
    rewrite Forall_forall in Hcaps. specialize (Hcaps b Hb).
    destruct Hcaps as (_ & _ & _ & Hty & Htopic & Hdiff).
    split; [exact Hty|]. split; [|exact Hdiff].
    unfold prioritized, _prioritize_topics in Htopic.
    apply (Permutation_in _ (Permutation_map fst (sort_perm _ _))) in Htopic.
    rewrite map_map in Htopic. cbn [fst] in Htopic. rewrite map_id in Htopic.
    exact Htopic.
Qed.

Lemma scheduled_days_and_cadence_witness :
  exists plan,
    generate_personalized_study_plan
      1000 None _default_learning_analytics [] ["History"]%string
      (4 * Py.us_per_day + 5000) None = Some plan
    /\ List.length (daily_sessions plan) = 4%nat
    /\ Forall (fun day => 0 <= fst day < 4) (daily_sessions plan).
Proof.
  destruct (generate_personalized_study_plan _ _ _ _ _ _ _) as [plan|] eqn:Hplan;
    [|vm_compute in Hplan; discriminate].
  exists plan. split; [reflexivity|].
  pose proof (fun key sessions =>
                scheduled_days_and_cadence _ _ _ _ _ _ _ _ key sessions Hplan) as Hdays.
  split; [vm_compute in Hplan; injection Hplan as <-; reflexivity|].
  apply Forall_forall. intros [key sessions] Hin.
  destruct (Hdays key sessions Hin) as (day & Hday & -> & _).
  cbn [fst]. change (day_key 1000) with 0.
  change (Py.days (4 * Py.us_per_day + 5000 - 1000)) with 4 in Hday. lia.
Defined.

End PlanShape.

(* ================================================================== *)
(** * StudyPlanGenerator: orderings *)
(* ================================================================== *)

Section PlanOrder.
Import StudyPlanGenerator.

Local Open Scope Z_scope.

Lemma block_key_lt_asym (a b : Z * Q) :
  block_key_lt a b = true -> block_key_lt b a = false.
Proof.
  unfold block_key_lt. rewrite (Z.eqb_sym (fst b) (fst a)).
  destruct (fst a =? fst b) eqn:E.
  - intros H. apply ltb_true in H. apply ltb_false. apply Qlt_le_weak. exact H.
  - intros H. apply Z.ltb_lt in H. apply Z.ltb_ge. lia.
Qed.

Lemma block_le_total (x y : StudyBlock) : block_le x y = false -> block_le y x = true.
Proof.
  unfold block_le. intros H. apply negb_false_iff in H.
  apply negb_true_iff. apply block_key_lt_asym. exact H.
Qed.

Lemma value_injective (p q : Priority) : value p = value q -> p = q.
Proof. destruct p, q; cbn; intros H; try reflexivity; discriminate. Qed.

Lemma block_le_meaning (x y : StudyBlock) :
  block_le x y = true ->
  value (priority y) < value (priority x)
  \/ (priority x = priority y
      /\ (cognitive_load (difficulty x) <= cognitive_load (difficulty y))%Q).
Proof.
  unfold block_le, block_key_lt, block_key. cbn [fst snd]. intros H.
  apply negb_true_iff in H.
  destruct (- value (priority y) =? - value (priority x)) eqn:E.
  - right. apply Z.eqb_eq in E. split; [apply value_injective; lia|].
    apply ltb_false in H. exact H.
  - left. apply Z.eqb_neq in E. apply Z.ltb_ge in H. lia.
Qed.

(** X22.  In every plan produced, the sessions of a day are listed with the
    higher priority first and, among sessions of one priority, the lower
    cognitive load first, the cognitive load being the one of the
    session's difficulty label. *)
Theorem sessions_ordered_by_priority
    (now : Z) (profile : option Profile) (analytics : Analytics)
    (quiz_results : list QuizRow) (topics : list string) (target_date : Z)
    (preferences : option UserPreferences) (plan : StudyPlan)
    (key : Z) (sessions : list Session) :
  generate_personalized_study_plan
    now profile analytics quiz_results topics target_date preferences = Some plan ->
  In (key, sessions) (daily_sessions plan) ->
  Sorted session_before sessions
  /\ StronglySorted
       (fun a b => value (s_priority b) <= value (s_priority a)) sessions.
Proof.
  intros Hplan Hin.
  destruct (scheduled_day_origin _ _ _ _ _ _ _ _ _ _ Hplan Hin)
    as (day & _ & _ & _ & Hsessions).
  assert (Hs : Sorted session_before sessions).
  { eapply Forall2_Sorted; [|exact Hsessions|apply sort_sorted, block_le_total].
    intros a a' b b' (_ & _ & _ & Hd & Hp & _) (_ & _ & _ & Hd' & Hp' & _) Hle.
    unfold session_before. rewrite Hd, Hp, Hd', Hp'.
    apply block_le_meaning, Hle. }
  split; [exact Hs|].
  apply Sorted_StronglySorted; [intros a b c; lia|].
  eapply Sorted_weaken; [|exact Hs].
  intros a b [H|[H _]]; [lia | rewrite H; lia].
Qed.

Lemma sessions_ordered_by_priority_witness :
  exists plan,
    generate_personalized_study_plan
      1000 None (mkAnalytics 0.7 25 0.9) []
      ["History"; "Physics"; "Poetry"]%string
      (Py.us_per_day + 5000) None = Some plan
    /\ Forall (fun day => Sorted session_before (snd day)) (daily_sessions plan)
    /\ map (fun day => map s_topic (snd day)) (daily_sessions plan)
       = [["Physics"; "History"; "Poetry"]%string].
Proof.
  destruct (generate_personalized_study_plan _ _ _ _ _ _ _) as [plan|] eqn:Hplan;
    [|vm_compute in Hplan; discriminate].
  exists plan. split; [reflexivity|]. split.
  - apply Forall_forall. intros [key sessions] Hin.
    exact (proj1 (sessions_ordered_by_priority _ _ _ _ _ _ _ _ _ _ Hplan Hin)).
  - vm_compute in Hplan. injection Hplan as <-. reflexivity.
Defined.

(** *** The days of a plan *)

Lemma optimize_days_keys
    (now : Z) (preferences : UserPreferences)
    (blocks_by_day : list (Z * list StudyBlock)) :
  forall schedule,
    optimize_days now preferences blocks_by_day = Some schedule ->
    map fst schedule = map fst blocks_by_day.
Proof.
  induction blocks_by_day as [|[k day_blocks] others IH]; intros schedule;
    cbn [optimize_days].
  - intros H. injection H as <-. reflexivity.
  - destruct (_optimize_daily_schedule now day_blocks preferences); [|discriminate].
    destruct (optimize_days now preferences others) as [rest|]; [|discriminate].
    intros H. injection H as <-. cbn. rewrite (IH rest eq_refl). reflexivity.
Qed.

Lemma range_sorted (n : Z) : StronglySorted Z.lt (range n).
Proof.
  unfold range. generalize 0%nat. induction (Z.to_nat n) as [|k IH]; intros a;
    cbn [seq map]; constructor.
  - apply IH.
  - apply Forall_forall. intros x Hx. apply in_map_iff in Hx.
    destruct Hx as (y & <- & Hy). apply in_seq in Hy. lia.
Qed.

Lemma day_groups_sorted (base : Z) (blocks_of : Z -> list StudyBlock) (days : list Z) :
  StronglySorted Z.lt days ->
  StronglySorted Z.lt
    (map fst (flat_map (fun day => match blocks_of day with
                                   | [] => []
                                   | blocks => [(base + day, blocks)]
                                   end) days)).
Proof.
  induction 1 as [|d l Hl IH Hd]; cbn [flat_map map]; [constructor|].
  rewrite map_app.
  destruct (blocks_of d) as [|b bs]; cbn [map app fst]; [exact IH|].
  constructor; [exact IH|].
  apply Forall_forall. intros k Hk. apply in_map_iff in Hk.
  destruct Hk as ([k' bs'] & <- & Hk). apply in_flat_map in Hk.
  destruct Hk as (d' & Hd' & Hk).
  rewrite Forall_forall in Hd. specialize (Hd d' Hd').
  destruct (blocks_of d'); [contradiction|]. destruct Hk as [Hk|[]].
  injection Hk as <- _. cbn. lia.
Qed.

Lemma increasing_NoDup (l : list Z) : StronglySorted Z.lt l -> NoDup l.
Proof.
  induction 1 as [|k l _ IH Hk]; constructor; [|exact IH].
  intros Hin. rewrite Forall_forall in Hk. specialize (Hk k Hin). lia.
Qed.

(** X23.  In every plan produced the scheduled days are in chronological
    order and no day appears twice. *)
Theorem scheduled_days_chronological
    (now : Z) (profile : option Profile) (analytics : Analytics)
    (quiz_results : list QuizRow) (topics : list string) (target_date : Z)
    (preferences : option UserPreferences) (plan : StudyPlan) :
  generate_personalized_study_plan
    now profile analytics quiz_results topics target_date preferences = Some plan ->
  StronglySorted Z.lt (map fst (daily_sessions plan))
  /\ NoDup (map fst (daily_sessions plan)).
Proof.
  unfold generate_personalized_study_plan, _optimize_schedule.
  rewrite group_generated_blocks.
  destruct (optimize_days now _ _) as [schedule|] eqn:E; [|discriminate].
  intros H. injection H as <-. cbn [daily_sessions].
  rewrite (optimize_days_keys _ _ _ _ E).
  assert (Hs : StronglySorted Z.lt
                 (map fst
                    (flat_map
                       (fun day =>
                          match blocks_of_day now
                                  (_prioritize_topics quiz_results topics analytics)
                                  match preferences with
                                  | Some p => p
                                  | None => _get_user_preferences profile
                                  end analytics day with
                          | [] => []
                          | blocks => [(now / Py.us_per_day + day, blocks)]
                          end) (range (Py.days (target_date - now)))))).
  { apply day_groups_sorted, range_sorted. }
  split; [exact Hs | apply increasing_NoDup, Hs].
Qed.

Lemma scheduled_days_chronological_witness :
  exists plan,
    generate_personalized_study_plan
      1000 None _default_learning_analytics [] ["History"]%string
      (3 * Py.us_per_day + 5000) None = Some plan
    /\ NoDup (map fst (daily_sessions plan))
    /\ map fst (daily_sessions plan) = [0; 1; 2].
Proof.
  destruct (generate_personalized_study_plan _ _ _ _ _ _ _) as [plan|] eqn:Hplan;
    [|vm_compute in Hplan; discriminate].
  exists plan. split; [reflexivity|].
  split; [exact (proj2 (scheduled_days_chronological _ _ _ _ _ _ _ _ Hplan))|].
  vm_compute in Hplan. injection Hplan as <-. reflexivity.
Defined.

(** *** Prioritisation *)

Lemma priority_score_at_least (quiz_results : list QuizRow) (analytics : Analytics)
    (topic : string) :
  (0.2 <= priority_score_of quiz_results analytics topic)%Q.
Proof.
  unfold priority_score_of, _check_prerequisites.
  set (perf := _get_topic_performance quiz_results topic).
  destruct (Py.ltb perf 0.7) eqn:E1; destruct (Py.ltb _ 0.2) eqn:E2;
    try apply ltb_true in E1; Lqa.lra.
Qed.

(** X24.  [_prioritize_topics] returns every requested topic exactly as
    often as it was requested, with its score, highest score first; a
    score is never below 0.2. *)
Theorem prioritize_topics_ranking
    (quiz_results : list QuizRow) (topics : list string) (analytics : Analytics) :
  let prioritized := _prioritize_topics quiz_results topics analytics in
  Permutation (map fst prioritized) topics
  /\ StronglySorted (fun x y => (snd y <= snd x)%Q) prioritized
  /\ Forall (fun x =>
               snd x = priority_score_of quiz_results analytics (fst x)
               /\ (0.2 <= snd x)%Q) prioritized.
Proof.
  cbv zeta. unfold _prioritize_topics.
  set (le := fun x y : string * Q => negb (Py.ltb (snd x) (snd y))).
  set (scored := map (fun topic => (topic, priority_score_of quiz_results analytics topic))
                     topics).
  split; [|split].
  - eapply perm_trans; [apply Permutation_map, sort_perm|].
    unfold scored. rewrite map_map. cbn [fst]. rewrite map_id. apply Permutation_refl.
  - apply Sorted_StronglySorted.
    + intros x y z Hxy Hyz. eapply Qle_trans; eassumption.
    + apply Sorted_weaken with (R1 := fun u v => le u v = true).
      * intros x y H. unfold le in H. apply negb_true_iff in H.
        apply ltb_false in H. exact H.
      * apply sort_sorted. intros x y H. unfold le in *.
        apply negb_false_iff in H. apply ltb_true in H.
        apply negb_true_iff. apply ltb_false. apply Qlt_le_weak, H.
  - apply Forall_forall. intros x Hx.
    apply (Permutation_in _ (sort_perm le scored)) in Hx.
    unfold scored in Hx. apply in_map_iff in Hx. destruct Hx as (t & <- & _).
    cbn [fst snd]. split; [reflexivity | apply priority_score_at_least].
Qed.

End PlanOrder.

(** * Topic difficulty, milestones and the completion estimate *)

Section TopicFacts.
Import StudyPlanGenerator.

Lemma lower_upper_ascii (c : ascii) :
  Py.lower_ascii (Py.upper_ascii c) = Py.lower_ascii c.
Proof.
  destruct c as [[] [] [] [] [] [] [] []]; reflexivity.
Qed.

Lemma lower_upper (s : string) : Py.lower (Py.upper s) = Py.lower s.
Proof.
  induction s as [|c s IH]; [reflexivity|].
  unfold Py.lower, Py.upper in *. simpl.
  now rewrite lower_upper_ascii, IH.
Qed.

Lemma first_match_In (t : string) (m : list (string * Q)) (d : Q) :
  first_match t m = Some d -> In d (map snd m).
Proof.
  induction m as [|[k v] m IH]; simpl; [discriminate|].
  destruct (Py.contains k t).
  - intros [= ->]. now left.
  - intros H. right. now apply IH.
Qed.

Lemma estimate_values (topic : string) :
  In (_estimate_topic_difficulty topic) [0.5; 0.6; 0.8; 0.9]%Q.
Proof.
  unfold _estimate_topic_difficulty.
  destruct (first_match (Py.lower topic) difficulty_map) as [d|] eqn:E.
  - apply first_match_In in E. simpl in E |- *.
    repeat (destruct E as [<- | E]; [tauto|]). contradiction.
  - simpl. tauto.
Qed.

(** X25.  The difficulty label of a topic is 'hard' or 'medium' and never
    'easy': the estimate is one of 0.5, 0.6, 0.8, 0.9 whatever the topic
    (0.6 when no key of the table occurs in it).  A topic written in
    upper case gets the estimate of the topic as given. *)
Theorem topic_difficulty_values (topic : string) :
  (_get_topic_difficulty topic = "hard"%string \/
   _get_topic_difficulty topic = "medium"%string) /\
  _get_topic_difficulty topic <> "easy"%string /\
  _estimate_topic_difficulty (Py.upper topic) = _estimate_topic_difficulty topic.
Proof.
  assert (V : _get_topic_difficulty topic = "hard"%string \/
              _get_topic_difficulty topic = "medium"%string).
  { unfold _get_topic_difficulty.
    pose proof (estimate_values topic) as H. simpl in H.
    destruct H as [<- | [<- | [<- | [<- | []]]]]; vm_compute; tauto. }
  split; [exact V|]. split.
  - destruct V as [-> | ->]; discriminate.
  - unfold _estimate_topic_difficulty. now rewrite lower_upper.
Qed.

(** X26.  There are always four milestones, on the days m, 2m, 3m, 4m
    with m = max(1, days // 4), asking for 25, 50, 75 and 100 percent;
    they all fall within the [days] of the plan exactly when the plan
    has at least four days. *)
Theorem milestones_within_horizon (topics : list string) (days : Z) :
  let m := Z.max 1 (days / 4) in
  map (fun ms => (milestone_day ms, target_percent ms))
      (_generate_milestones topics days)
    = [(m, 25); (2 * m, 50); (3 * m, 75); (4 * m, 100)]%Z /\
  (Forall (fun ms => milestone_day ms <= days) (_generate_milestones topics days)
   <-> 4 <= days)%Z.
Proof.
  intros m. unfold _generate_milestones. fold m.
  change (range 4) with [0; 1; 2; 3]%Z. cbn [map milestone_day target_percent].
  split.
  - replace ((0 + 1) * m)%Z with m by ring.
    replace ((1 + 1) * m)%Z with (2 * m)%Z by ring.
    replace ((2 + 1) * m)%Z with (3 * m)%Z by ring.
    replace ((3 + 1) * m)%Z with (4 * m)%Z by ring.
    reflexivity.
  - pose proof (Z.div_mod days 4 ltac:(lia)) as D.
    pose proof (Z.mod_pos_bound days 4 ltac:(lia)) as B.
    split.
    + intros F. repeat (apply Forall_cons_iff in F; destruct F as [? F]).
      cbn beta iota delta [milestone_day] in *. subst m. lia.
    + intros H. subst m.
      repeat (apply Forall_cons; [cbn beta iota delta [milestone_day]; lia|]).
      constructor.
Qed.

(** X27.  With a learning velocity and a confidence score in [0, 1] and
    a daily study time that is not negative, the completion estimate is
    a probability: 0 <= on_time <= overall <= with_extension <= 1. *)
Theorem completion_probability_bounds
    (preferences : UserPreferences) (analytics : Analytics)
    (Hv : 0 <= learning_velocity analytics <= 1)
    (Hc : 0 <= confidence_score analytics <= 1)
    (Hd : (0 <= daily_study_time preferences)%Z) :
  let c := _estimate_completion_probability preferences analytics in
  0 <= on_time c /\ on_time c <= overall c /\
  overall c <= with_extension c /\ with_extension c <= 1.
Proof.
  unfold _estimate_completion_probability. cbn [on_time overall with_extension].
  set (v := learning_velocity analytics) in *.
  set (k := confidence_score analytics) in *.
  assert (T : 0 <= Qmin 1.0 (inject_Z (daily_study_time preferences) / 180) <= 1).
  { assert (0 <= inject_Z (daily_study_time preferences) / 180).
    { apply Qle_shift_div_l; [reflexivity|]. rewrite Qmult_0_l.
      change 0 with (inject_Z 0). now rewrite <- Zle_Qle. }
    split.
    - apply Q.min_glb; [discriminate|assumption].
    - eapply Qle_trans; [apply Q.le_min_l | discriminate]. }
  set (t := Qmin 1.0 (inject_Z (daily_study_time preferences) / 180)) in *.
  set (p := v * 0.4 + k * 0.3 + t * 0.3).
  assert (P : 0 <= p <= 1) by (subst p; split; Lqa.lra).
  destruct (Q.min_spec 1.0 (p * 1.2)) as [[L E] | [L E]];
    repeat split; try rewrite E; try Lqa.lra.
Qed.

Lemma completion_probability_bounds_witness :
  let c := _estimate_completion_probability
             (_get_user_preferences None) _default_learning_analytics in
  0 <= on_time c /\ on_time c <= overall c /\
  overall c <= with_extension c /\ with_extension c <= 1.
Proof.
  apply completion_probability_bounds.
  - vm_compute. split; discriminate.
  - vm_compute. split; discriminate.
  - vm_compute. discriminate.
Defined.

End TopicFacts.
